(** * Telegram movie-search bot: a shallow embedding of [bot.js]

    The development follows the layout of the source file: JavaScript
    strings and the filename normalizer first, then the collections of the
    document store, the helpers ([nextSequence], [incrementAndGetLimit],
    [getUserLimitCount], [saveUser], [verifyJoin]), the handlers registered
    on the bot, and finally the properties of the catalog, the quota and
    favorites ledgers, the membership gate, the moderation workflow and the
    broadcast loop.

    What the model takes from the program and what it leaves out:
    - a handler is an [async] function; it is modelled as a computation in
      a monad of state (the store and the cache), trace (the calls made to
      Telegram, the timers, the log) and exception, and one handler runs
      at a time: the interleaving of handlers at their [await]s is not
      modelled.  The result of the computation is how the promise of the
      handler settles: a handler that ends with [return bot.call(...)]
      is rejected when the call is, past its [catch] blocks;
    - the document store and the cache answer every request; the
      failures of the store are the violation of a unique index and the
      cast of an identifier that is no [ObjectId].  A call to Telegram
      resolves or rejects as the environment of the handler decides;
    - the texts sent are kept as the template and the values put in it;
    - [toLowerCase] and [toUpperCase] are the folding of the ASCII
      letters on a string of ASCII code units; on any other string they
      are what the host answers, as is the conversion of a string to an
      [ObjectId] by the store. *)

From Stdlib Require Import ZArith NArith Lia List Bool Ascii String Sorted.
From Stdlib Require Import DecimalString DecimalZ DecimalPos DecimalN DecimalNat.
From stdpp Require Import base decidable option list gmap strings.

Local Open Scope Z_scope.

(** ** JavaScript strings

    A JavaScript string is a sequence of UTF-16 code units.  The regular
    expressions of [cleanFileName] distinguish code units above the ASCII
    range (the class [\s] holds U+00A0, U+2028, ...), so the model keeps
    code units as numbers. *)

Abbreviation jsstring := (list N).

Definition str (s : string) : jsstring :=
  map N_of_ascii (list_ascii_of_string s).

Definition unstr (s : jsstring) : string :=
  string_of_list_ascii (map ascii_of_N s).

Module Char.
Local Open Scope N_scope.

Definition is_ascii (c : N) : bool := c <? 128.
Definition is_digit (c : N) : bool := (48 <=? c) && (c <=? 57).
Definition is_upper (c : N) : bool := (65 <=? c) && (c <=? 90).
Definition is_lower (c : N) : bool := (97 <=? c) && (c <=? 122).

(** The class [\w]: [A-Za-z0-9_]. *)
Definition is_word (c : N) : bool :=
  is_digit c || is_upper c || is_lower c || (c =? 95).

(** The class [\s], which is also the set of code units removed by
    [String.prototype.trim]: WhiteSpace and LineTerminator. *)
Definition is_space (c : N) : bool :=
  ((9 <=? c) && (c <=? 13)) || (c =? 32) || (c =? 160) || (c =? 5760)
  || ((8192 <=? c) && (c <=? 8202)) || (c =? 8232) || (c =? 8233)
  || (c =? 8239) || (c =? 8287) || (c =? 12288) || (c =? 65279).

(** The class [[\[\]\(\)\{\}\.\;\:\~\|\,\_\-\+]]. *)
Definition is_punct (c : N) : bool :=
  existsb (N.eqb c) (str "[](){}.;:~|,_-+").

Definition space : N := 32.
Definition dot : N := 46.
Definition at_sign : N := 64.
Definition colon : N := 58.

(** Case folding on the ASCII letters.  Without the [u] flag, the [i]
    flag of a regular expression never identifies a code unit above 127
    with an ASCII one, so on the ASCII patterns of this program it
    is exactly this folding. *)
Definition to_lower (c : N) : N := if is_upper c then c + 32 else c.
Definition to_upper (c : N) : N := if is_lower c then c - 32 else c.
End Char.

Definition jseq (a b : jsstring) : bool := bool_decide (a = b).

(** A string as a pattern with the [i] flag reads it: the ASCII letters
    folded, every other code unit as it is. *)
Definition ignore_case (s : jsstring) : jsstring := map Char.to_lower s.

(** A string of ASCII code units. *)
Definition is_ascii (s : jsstring) : bool := forallb Char.is_ascii s.

Fixpoint startsWith (p s : jsstring) : bool :=
  match p, s with
  | [], _ => true
  | a :: p', b :: s' => (a =? b)%N && startsWith p' s'
  | _ :: _, [] => false
  end.

Fixpoint trimStart (s : jsstring) : jsstring :=
  match s with
  | [] => []
  | c :: t => if Char.is_space c then trimStart t else s
  end.

Fixpoint trimEnd (s : jsstring) : jsstring :=
  match s with
  | [] => []
  | c :: t =>
      match trimEnd t with
      | [] => if Char.is_space c then [] else [c]
      | t' => c :: t'
      end
  end.

(** [text.trim()] *)
Definition trim (s : jsstring) : jsstring := trimEnd (trimStart s).

(** [text.split(sep)] for a one-unit separator: the pieces between the
    occurrences of [sep], empty pieces included. *)
Fixpoint split (sep : N) (s : jsstring) : list jsstring :=
  match s with
  | [] => [[]]
  | c :: t =>
      if (c =? sep)%N then [] :: split sep t
      else match split sep t with
           | [] => [[c]]
           | p :: ps => (c :: p) :: ps
           end
  end.

(** [String(n)] for an integer [n]. *)
Definition String_of_Z (n : Z) : jsstring :=
  str (NilZero.string_of_int (Z.to_int n)).

(** [s.padStart(len, fill)] for a one-unit [fill]. *)
Definition padStart (len : nat) (fill : N) (s : jsstring) : jsstring :=
  repeat fill (len - length s) ++ s.

(** ** The filename normalizer (bot.js, [cleanFileName]) *)

Definition video_extensions : list jsstring :=
  map str ["mkv"; "mp4"; "avi"; "mov"; "flv"; "wmv"; "webm"; "m4v"]%string.

(** Does [/\.(mkv|mp4|avi|mov|flv|wmv|webm|m4v)$/i] match the whole of [s]?
    The pattern is anchored at the end of the input, so a match starting at
    some position is a match of the whole suffix from there. *)
Definition is_dot_extension (s : jsstring) : bool :=
  match s with
  | [] => false
  | c :: t => (c =? Char.dot)%N && existsb (jseq (ignore_case t)) video_extensions
  end.

(** [.replace(/\.(mkv|...)$/i, '')]: the leftmost match is removed. *)
Fixpoint strip_extension (s : jsstring) : jsstring :=
  if is_dot_extension s then []
  else match s with
       | [] => []
       | c :: t => c :: strip_extension t
       end.

Definition head_is_word (s : jsstring) : bool :=
  match s with
  | [] => false
  | d :: _ => Char.is_word d
  end.

(** [.replace(/@\w+/g, '')].  [inside] tells that the scan is in the
    middle of a match, consuming the greedy [\w+]. *)
Fixpoint remove_mentions_from (inside : bool) (s : jsstring) : jsstring :=
  match s with
  | [] => []
  | c :: t =>
      if inside && Char.is_word c then remove_mentions_from true t
      else if (c =? Char.at_sign)%N && head_is_word t then remove_mentions_from true t
      else c :: remove_mentions_from false t
  end.

Definition remove_mentions : jsstring -> jsstring := remove_mentions_from false.

(** [.replace(/[\[\]\(\)\{\}\.\;\:\~\|\,\_\-\+]/g, ' ')] *)
Definition punct_to_space (s : jsstring) : jsstring :=
  map (fun c => if Char.is_punct c then Char.space else c) s.

(** [.replace(/\s+/g, ' ')].  [inrun] tells that the preceding code unit
    belongs to the run of white space being replaced. *)
Fixpoint collapse_spaces_from (inrun : bool) (s : jsstring) : jsstring :=
  match s with
  | [] => []
  | c :: t =>
      if Char.is_space c
      then (if inrun then collapse_spaces_from true t
            else Char.space :: collapse_spaces_from true t)
      else c :: collapse_spaces_from false t
  end.

Definition collapse_spaces : jsstring -> jsstring := collapse_spaces_from false.

Definition cleanFileName (text : jsstring) : jsstring :=
  trim (collapse_spaces (punct_to_space (remove_mentions (strip_extension text)))).

(** *** Normal forms of the normalizer

    The three predicates below describe what each replacement of
    [cleanFileName] leaves behind; a string that satisfies them is fixed by
    every stage. *)

Definition head_is_space (s : jsstring) : bool :=
  match s with
  | [] => false
  | d :: _ => Char.is_space d
  end.

Definition no_punct (s : jsstring) : bool :=
  forallb (fun c => negb (Char.is_punct c)) s.

Fixpoint mention_free (s : jsstring) : bool :=
  match s with
  | [] => true
  | c :: t => negb ((c =? Char.at_sign)%N && head_is_word t) && mention_free t
  end.

Fixpoint single_spaced (s : jsstring) : bool :=
  match s with
  | [] => true
  | c :: t =>
      (if Char.is_space c then (c =? Char.space)%N && negb (head_is_space t) else true)
      && single_spaced t
  end.


(** ** Configuration (bot.js, lines 10-30) *)

Record Config := {
  ADMIN_SET : gset jsstring;
  DAILY_LIMIT_NUM : Z;
  RESULTS_PER_PAGE_NUM : Z;
  (** [FORCE_CHANNEL_ID]: [None] when the variable is not set. *)
  FORCE_CHANNEL_ID : option jsstring
}.

(** JavaScript truthiness of an optional string: [undefined] and [''] are
    falsy. *)
Definition truthy (o : option jsstring) : bool :=
  match o with
  | Some (_ :: _) => true
  | _ => false
  end.

(** [a || b] on optional strings, and [a || 'literal']. *)
Definition or_else (a b : option jsstring) : option jsstring :=
  if truthy a then a else b.
Definition or_default (a : option jsstring) (b : jsstring) : jsstring :=
  if truthy a then default [] a else b.

(** ** Documents of the store (bot.js, SCHEMAS) *)

Module User.
Record doc := {
  userId : jsstring;
  firstName : jsstring;
  username : option jsstring;
  joinedAt : Z
}.
End User.

Module File.
Record doc := {
  customId : jsstring;
  file_id : jsstring;
  file_name : jsstring;
  type : jsstring;
  uploader_id : jsstring;
  uploaded_at : Z;
  downloads : Z;
  file_size : jsstring;
  clean_title : jsstring;
  attributes : list jsstring
}.

(** [{ $inc: { downloads: 1 } }] *)
Definition inc_downloads (f : doc) : doc :=
  {| customId := customId f; file_id := file_id f; file_name := file_name f;
     type := type f; uploader_id := uploader_id f; uploaded_at := uploaded_at f;
     downloads := downloads f + 1; file_size := file_size f;
     clean_title := clean_title f; attributes := attributes f |}.
End File.

Module Favorite.
Record doc := {
  userId : jsstring;
  customId : jsstring;
  savedAt : Z
}.
End Favorite.

Module Pending.
Record doc := {
  adminId : jsstring;
  chatId : jsstring;
  messageId : Z;
  file_id : jsstring;
  file_name : jsstring;
  type : jsstring;
  clean_title : jsstring;
  attributes : list jsstring;
  file_size : jsstring;
  created_at : Z
}.
End Pending.

(** The collections and the two key families of the cache.  [Limit] is
    keyed by its unique index [(userId, date)], [Counter] and [Pending] by
    [_id]; [File], [Favorite] and [User] are kept in insertion order, a
    document being identified by its position.  The cache keeps, with each
    value, the time at which the entry expires. *)
Record Db := {
  users : list User.doc;
  files : list File.doc;
  counters : gmap jsstring Z;
  limits : gmap (jsstring * jsstring) Z;
  favorites : list Favorite.doc;
  pendings : gmap jsstring Pending.doc;
  isMember : gmap jsstring (jsstring * Z);
  search : gmap jsstring (list jsstring * Z)
}.

Definition empty_db : Db :=
  {| users := []; files := []; counters := ∅; limits := ∅; favorites := [];
     pendings := ∅; isMember := ∅; search := ∅ |}.

Definition set_users (v : list User.doc) (d : Db) : Db :=
  {| users := v; files := files d; counters := counters d; limits := limits d;
     favorites := favorites d; pendings := pendings d; isMember := isMember d;
     search := search d |}.
Definition set_files (v : list File.doc) (d : Db) : Db :=
  {| users := users d; files := v; counters := counters d; limits := limits d;
     favorites := favorites d; pendings := pendings d; isMember := isMember d;
     search := search d |}.
Definition set_counters (v : gmap jsstring Z) (d : Db) : Db :=
  {| users := users d; files := files d; counters := v; limits := limits d;
     favorites := favorites d; pendings := pendings d; isMember := isMember d;
     search := search d |}.
Definition set_limits (v : gmap (jsstring * jsstring) Z) (d : Db) : Db :=
  {| users := users d; files := files d; counters := counters d; limits := v;
     favorites := favorites d; pendings := pendings d; isMember := isMember d;
     search := search d |}.
Definition set_favorites (v : list Favorite.doc) (d : Db) : Db :=
  {| users := users d; files := files d; counters := counters d; limits := limits d;
     favorites := v; pendings := pendings d; isMember := isMember d;
     search := search d |}.
Definition set_pendings (v : gmap jsstring Pending.doc) (d : Db) : Db :=
  {| users := users d; files := files d; counters := counters d; limits := limits d;
     favorites := favorites d; pendings := v; isMember := isMember d;
     search := search d |}.
Definition set_isMember (v : gmap jsstring (jsstring * Z)) (d : Db) : Db :=
  {| users := users d; files := files d; counters := counters d; limits := limits d;
     favorites := favorites d; pendings := pendings d; isMember := v;
     search := search d |}.
Definition set_search (v : gmap jsstring (list jsstring * Z)) (d : Db) : Db :=
  {| users := users d; files := files d; counters := counters d; limits := limits d;
     favorites := favorites d; pendings := pendings d; isMember := isMember d;
     search := v |}.

(** ** The messaging transport

    What the bot sends is kept symbolically: one constructor per message
    template of the source, with the values interpolated into it. *)

Inductive Text :=
  | TxtJoinPrompt | TxtThanksForJoining | TxtStillNotJoined | TxtMustJoinFirst
  | TxtReviewUpload (clean size : jsstring)
  | TxtFileNotFound | TxtDailyLimitReached
  | TxtCaption (clean_title file_size customId : jsstring)
  | TxtNoResults (text : jsstring)
  | TxtFound (total : Z) (text : jsstring)
  | TxtExpired | TxtFileAlreadyExists
  | TxtPublished (customId clean_title : jsstring)
  | TxtCancelled | TxtFileNotFoundDeleted | TxtDailyLimitExceeded | TxtSendingFile
  | TxtSearchExpired
  | TxtResultsPage (page maxPage : Z)
  | TxtRemovedFromFavorites | TxtMax50Favorites | TxtAddedToFavorites
  | TxtErrorOccurred
  | TxtDeleted (customId : jsstring) | TxtNotFound
  | TxtBroadcastUsage
  | TxtBroadcasting (users : nat)
  | TxtBroadcastComplete (success blocked : Z)
  | TxtNoFavoritesYet | TxtFavoritesEmpty
  | TxtYourFavorites (n : nat)
  | TxtLiteral (text : jsstring)
  | TxtWelcome (first_name : jsstring)
  | TxtHelp (isAdmin : bool)
  | TxtStats (totalFiles totalUsers activeUsers : nat)
  | TxtNoFilesYet | TxtRecentUploads | TxtNoTrendingFiles | TxtTopTrending
  | TxtYourAccount (used remaining limit : Z)
  | LblJoinChannel | LblIHaveJoined | LblSave | LblCancel | LblFavorite
  | LblFile (file_size clean_title : jsstring)
  | LblStar (file_size clean_title : jsstring)
  | LblFire (file_size clean_title : jsstring)
  | LblPageOf (page pages : Z)
  | LblPrev | LblNext.

Inductive Button :=
  | CallbackButton (text : Text) (callback_data : jsstring)
  | UrlButton (text : Text) (url : jsstring).

Abbreviation Keyboard := (list (list Button)).

(** A chat is addressed by its numeric id ([msg.chat.id]) or by a string
    (the broadcast loop passes [user.userId]). *)
Inductive ChatRef :=
  | ChatId (id : Z)
  | ChatStr (id : jsstring).

Inductive Call :=
  | sendMessage (chat : ChatRef) (text : Text) (inline_keyboard : Keyboard)
  | editMessageText (text : Text) (chat : ChatRef) (message_id : Z)
      (inline_keyboard : Keyboard)
  | answerCallbackQuery (id : jsstring) (text : Text) (show_alert : bool)
  | sendVideo (chat : ChatRef) (file_id : jsstring) (caption : Text)
      (inline_keyboard : Keyboard)
  | sendDocument (chat : ChatRef) (file_id : jsstring) (caption : Text)
      (inline_keyboard : Keyboard)
  | copyMessage (chat : ChatRef) (from_chat : ChatRef) (message_id : Z)
  | deleteMessage (chat : ChatRef) (message_id : Z).

(** The promise of a call resolves with the message sent, of which the bot
    reads [message_id] only, or rejects with an error, of which the bot
    reads [err.response.statusCode] only ([None]: no response). *)
Inductive Reply :=
  | Resolved (message_id : Z)
  | Rejected (statusCode : option Z).

(** What a handler can be rejected with.  [Unawaited] is the rejection
    of a call whose promise the handler has returned without waiting for
    it: the handler has left its [try] blocks by then. *)
Inductive Error :=
  | TelegramError (statusCode : option Z)
  | DuplicateKey
  | BadRequest
  | CastError
  | Unawaited (statusCode : option Z).

Inductive Effect :=
  | Called (c : Call) (r : Reply)
  | Timer (delayMs : Z) (c : Call)
  | Sleep (delayMs : Z)
  | ConsoleError (label : jsstring).

(** ** The environment of one handler invocation

    Everything a handler obtains from outside the store: the clock, the
    identifier the store gives to a new pending upload, the answers of
    Telegram, and the host functions whose results the bot only passes
    on ([formatSize] works on floating-point numbers, [Number] parses the
    page of a [PAGE:] action, the case mappings of Unicode apply to the
    strings that hold a code unit beyond ASCII, and the driver of the
    store decides which strings it takes for an [ObjectId]). *)
Record Env := {
  date_on_peek : jsstring;       (* [new Date().toISOString().slice(0, 10)] in [getUserLimitCount] *)
  date_on_increment : jsstring;  (* the same expression in [incrementAndGetLimit] *)
  date_on_stats : jsstring;      (* the same expression in the [/stats] handler *)
  now : Z;                       (* [Date.now] *)
  fresh_id : jsstring;           (* [_id] of the next [Pending] document *)
  telegram : Call -> Reply;
  chatMemberStatus : jsstring -> jsstring -> option jsstring;  (* [None]: [getChatMember] rejects *)
  inviteLink : jsstring -> option jsstring;                    (* [None]: [exportChatInviteLink] rejects *)
  formatSize : option Z -> jsstring;
  Number_of : jsstring -> option Z;
  toLowerCase_of : jsstring -> jsstring;  (* [s.toLowerCase()], asked for [s] beyond ASCII *)
  toUpperCase_of : jsstring -> jsstring;  (* [s.toUpperCase()], asked for [s] beyond ASCII *)
  isObjectId : jsstring -> bool           (* the cast of a string to an [ObjectId] succeeds *)
}.

(** [text.toLowerCase()] and [text.toUpperCase()].  On a string of ASCII
    code units the case mapping of Unicode is the folding of the ASCII
    letters; on any other string (where it may also change the length)
    the result is the host's. *)
Definition toLowerCase (env : Env) (s : jsstring) : jsstring :=
  if is_ascii s then map Char.to_lower s else toLowerCase_of env s.
Definition toUpperCase (env : Env) (s : jsstring) : jsstring :=
  if is_ascii s then map Char.to_upper s else toUpperCase_of env s.

(** [generateAttributes]: [text.toLowerCase().split(' ').filter(t => t.length > 0)] *)
Definition generateAttributes (env : Env) (text : jsstring) : list jsstring :=
  filter (fun t => (0 <? length t)%nat = true) (split Char.space (toLowerCase env text)).

(** ** The monad of handlers

    An [async] function is a computation that reads the environment,
    updates the store, appends to the trace of effects, and either returns
    or throws.  What was written to the store before a throw stays
    written. *)

Inductive Res (A : Type) :=
  | Return (a : A)
  | Throw (e : Error).
Arguments Return {A} a.
Arguments Throw {A} e.

Definition M (A : Type) : Type := Env -> Db -> Res A * Db * list Effect.

Definition ret {A} (a : A) : M A := fun _ d => (Return a, d, []).

Definition bind {A B} (m : M A) (k : A -> M B) : M B :=
  fun env d =>
    match m env d with
    | (Return a, d', l) =>
        let '(r, d'', l') := k a env d' in (r, d'', l ++ l')
    | (Throw e, d', l) => (Throw e, d', l)
    end.

#[global] Instance M_ret : MRet M := @ret.
#[global] Instance M_bind : MBind M := fun A B k m => bind m k.

Definition throw {A} (e : Error) : M A := fun _ d => (Throw e, d, []).

(** [try { m } catch (err) { h err }]: what is thrown in the block is
    caught; the rejection of a promise that the block has returned is
    not. *)
Definition try_catch {A} (m : M A) (h : Error -> M A) : M A :=
  fun env d =>
    match m env d with
    | (Throw (Unawaited s), d', l) => (Throw (Unawaited s), d', l)
    | (Throw e, d', l) =>
        let '(r, d'', l') := h e env d' in (r, d'', l ++ l')
    | done => done
    end.

Definition ask : M Env := fun env d => (Return env, d, []).
Definition get : M Db := fun _ d => (Return d, d, []).
Definition modify (f : Db -> Db) : M unit := fun _ d => (Return tt, f d, []).
Definition emit (e : Effect) : M unit := fun _ d => (Return tt, d, [e]).

(** [await bot.call(...)]: the message id of the message sent, or the
    rejection thrown. *)
Definition await (c : Call) : M Z :=
  fun env d =>
    match telegram env c with
    | Resolved id => (Return id, d, [Called c (Resolved id)])
    | Rejected s => (Throw (TelegramError s), d, [Called c (Rejected s)])
    end.

(** A call whose promise the handler neither waits for nor returns:
    [bot.call(...)] as a statement, alone or with [.catch(() => {})].
    The handler goes on whatever becomes of the call. *)
Definition fire (c : Call) : M unit :=
  fun env d => (Return tt, d, [Called c (telegram env c)]).

(** How the promise of a handler settles when the handler has returned
    the promise of a call. *)
Definition settled (r : Reply) : Res unit :=
  match r with
  | Resolved _ => Return tt
  | Rejected s => Throw (Unawaited s)
  end.

(** [return bot.call(...)]: the handler ends with the call and its
    promise settles as the promise of the call does.  A rejection is the
    handler's own: no [catch] block of the handler sees it. *)
Definition return_call (c : Call) : M unit :=
  fun env d => (settled (telegram env c), d, [Called c (telegram env c)]).

(** [autoDeleteMessage(bot, chatId, messageId, delayMs = 60000)] *)
Definition autoDeleteMessage (chatId : ChatRef) (messageId : Z) (delayMs : Z) : M unit :=
  emit (Timer delayMs (deleteMessage chatId messageId)).

(** ** Queries and updates on the collections *)

Fixpoint remove_first {A} (p : A -> bool) (l : list A) : list A :=
  match l with
  | [] => []
  | x :: t => if p x then t else x :: remove_first p t
  end.

Definition count_if {A} (p : A -> bool) (l : list A) : nat :=
  length (List.filter p l).

Module Files.
Definition has_customId (cid : jsstring) (f : File.doc) : bool :=
  jseq (File.customId f) cid.
Definition has_file_id (fid : jsstring) (f : File.doc) : bool :=
  jseq (File.file_id f) fid.

(** [File.findOne({ customId })]: the first match, with its position
    (the document's [_id]). *)
Fixpoint findOne_from (i : nat) (cid : jsstring) (l : list File.doc)
  : option (nat * File.doc) :=
  match l with
  | [] => None
  | f :: t => if has_customId cid f then Some (i, f) else findOne_from (S i) cid t
  end.
Definition findOne : jsstring -> list File.doc -> option (nat * File.doc) :=
  findOne_from 0.

(** [File.exists({ file_id })] *)
Definition exists_file_id (fid : jsstring) (l : list File.doc) : bool :=
  existsb (has_file_id fid) l.

(** [{ attributes: { $all: keywords } }] *)
Definition matches (keywords : list jsstring) (f : File.doc) : bool :=
  forallb (fun k => existsb (jseq k) (File.attributes f)) keywords.

(** [.sort({ key: -1 })], by insertion; documents of equal key keep
    their relative order. *)
Fixpoint insert_by (key : File.doc -> Z) (f : File.doc) (l : list File.doc)
  : list File.doc :=
  match l with
  | [] => [f]
  | g :: t => if key g <? key f then f :: l else g :: insert_by key f t
  end.
Definition sort_desc (key : File.doc -> Z) (l : list File.doc) : list File.doc :=
  fold_right (insert_by key) [] l.
Definition sort_recent : list File.doc -> list File.doc := sort_desc File.uploaded_at.
Definition sort_trending : list File.doc -> list File.doc := sort_desc File.downloads.

(** [.skip(n)] and [.limit(n)]; a negative [skip] is refused by the
    store, which the callers check before. *)
Definition skip (n : Z) (l : list File.doc) : list File.doc := drop (Z.to_nat n) l.
Definition limit (n : Z) (l : list File.doc) : list File.doc :=
  take (Z.to_nat (Z.abs n)) l.
End Files.

Module Favorites.
Definition is_pair (userId customId : jsstring) (f : Favorite.doc) : bool :=
  jseq (Favorite.userId f) userId && jseq (Favorite.customId f) customId.
Definition of_user (userId : jsstring) (f : Favorite.doc) : bool :=
  jseq (Favorite.userId f) userId.

(** [Favorite.findOne({ userId, customId })] *)
Definition findOne (userId customId : jsstring) (l : list Favorite.doc)
  : option Favorite.doc :=
  List.find (is_pair userId customId) l.

(** [Favorite.countDocuments({ userId })] *)
Definition countDocuments (userId : jsstring) (l : list Favorite.doc) : Z :=
  Z.of_nat (count_if (of_user userId) l).

(** [Favorite.find({ userId })] *)
Definition find (userId : jsstring) (l : list Favorite.doc) : list Favorite.doc :=
  List.filter (of_user userId) l.
End Favorites.

Section Bot.

Variable cfg : Config.

(** [ADMIN_SET.has(id)] *)
Definition is_admin (id : jsstring) : bool := bool_decide (id ∈ ADMIN_SET cfg).

(** *** Store operations used by the handlers *)

(** [Counter.findOneAndUpdate({ _id }, { $inc: { seq: 1 } }, { upsert, new })] *)
Definition Counter_inc (name : jsstring) : M Z :=
  d ← get;
  let seq := default 0 (counters d !! name) + 1 in
  modify (set_counters (<[name := seq]> (counters d)));;
  mret seq.

(** [Limit.findOneAndUpdate({ userId, date }, { $inc: { count: 1 } },
    { upsert, new, setDefaultsOnInsert })] *)
Definition Limit_inc (userId date : jsstring) : M Z :=
  d ← get;
  let count := default 0 (limits d !! (userId, date)) + 1 in
  modify (set_limits (<[(userId, date) := count]> (limits d)));;
  mret count.

(** [File.create(doc)], under the unique indexes on [customId] and
    [file_id]; [uploaded_at] defaults to [Date.now], [downloads] to 0. *)
Definition File_create (f : File.doc) : M unit :=
  d ← get;
  if existsb (Files.has_customId (File.customId f)) (files d)
     || existsb (Files.has_file_id (File.file_id f)) (files d)
  then throw DuplicateKey
  else modify (set_files (files d ++ [f])).

(** [File.updateOne({ _id }, { $inc: { downloads: 1 } })] *)
Definition File_inc_downloads (_id : nat) : M unit :=
  d ← get;
  modify (set_files (alter File.inc_downloads _id (files d))).

(** [File.deleteOne({ customId })], returning [deletedCount]. *)
Definition File_deleteOne (customId : jsstring) : M Z :=
  d ← get;
  if existsb (Files.has_customId customId) (files d)
  then modify (set_files (remove_first (Files.has_customId customId) (files d)));;
       mret 1
  else mret 0.

(** [Favorite.create({ userId, customId })], under the unique index on
    the pair. *)
Definition Favorite_create (userId customId : jsstring) : M unit :=
  d ← get; env ← ask;
  if existsb (Favorites.is_pair userId customId) (favorites d)
  then throw DuplicateKey
  else modify (set_favorites
                 (favorites d ++
                    [{| Favorite.userId := userId; Favorite.customId := customId;
                        Favorite.savedAt := now env |}])).

(** [Favorite.deleteOne({ userId, customId })] *)
Definition Favorite_deleteOne (userId customId : jsstring) : M unit :=
  d ← get;
  modify (set_favorites (remove_first (Favorites.is_pair userId customId) (favorites d))).

(** [Pending.create(doc)]: the store assigns [_id]. *)
Definition Pending_create (p : Pending.doc) : M jsstring :=
  d ← get; env ← ask;
  match pendings d !! fresh_id env with
  | Some _ => throw DuplicateKey
  | None =>
      modify (set_pendings (<[fresh_id env := p]> (pendings d)));;
      mret (fresh_id env)
  end.

(** [Pending.findById(id)] and [Pending.deleteOne({ _id })].  The
    store casts the identifier to an [ObjectId] and throws when the
    string is none.  A document is kept under an [ObjectId], so the cast
    of the key of a document succeeds: the model asks for it when the
    identifier names no document. *)
Definition Pending_findById (_id : jsstring) : M (option Pending.doc) :=
  d ← get; env ← ask;
  match pendings d !! _id with
  | Some pending => mret (Some pending)
  | None => if isObjectId env _id then mret None else throw CastError
  end.

Definition Pending_deleteOne (_id : jsstring) : M unit :=
  d ← get; env ← ask;
  match pendings d !! _id with
  | Some _ => modify (set_pendings (delete _id (pendings d)))
  | None => if isObjectId env _id then mret tt else throw CastError
  end.

(** The index [{ created_at: 1 }, { expireAfterSeconds: 600 }]: a sweep
    of the store removes the pending uploads created 600 seconds ago or
    earlier. *)
Definition Pending_ttl_sweep : M unit :=
  env ← ask; d ← get;
  modify (set_pendings
            (filter (fun kv => now env < Pending.created_at kv.2 + 600 * 1000)
               (pendings d))).

(** [redis.get], [redis.set(key, value, 'EX', seconds)] and [redis.del]
    on the keys [isMember:<userId>] and [search:<userId>]; an entry is
    kept with the time at which it expires. *)
Definition live {A} (t : Z) (entry : option (A * Z)) : option A :=
  match entry with
  | Some (v, expires) => if t <? expires then Some v else None
  | None => None
  end.

Definition redis_get_isMember (userId : jsstring) : M (option jsstring) :=
  env ← ask; d ← get; mret (live (now env) (isMember d !! userId)).
Definition redis_set_isMember (userId value : jsstring) (seconds : Z) : M unit :=
  env ← ask; d ← get;
  modify (set_isMember (<[userId := (value, now env + seconds * 1000)]> (isMember d))).
Definition redis_del_isMember (userId : jsstring) : M unit :=
  d ← get; modify (set_isMember (delete userId (isMember d))).
Definition redis_get_search (userId : jsstring) : M (option (list jsstring)) :=
  env ← ask; d ← get; mret (live (now env) (search d !! userId)).
Definition redis_set_search (userId : jsstring) (keywords : list jsstring) (seconds : Z)
  : M unit :=
  env ← ask; d ← get;
  modify (set_search (<[userId := (keywords, now env + seconds * 1000)]> (search d))).

(** *** Helpers of bot.js *)

(** [nextSequence(name = 'file')] *)
Definition nextSequence : M jsstring :=
  seq ← Counter_inc (str "file");
  mret (str "F" ++ padStart 4 48%N (String_of_Z seq)).

(** [incrementAndGetLimit(userId)] *)
Definition incrementAndGetLimit (userId : jsstring) : M Z :=
  env ← ask;
  Limit_inc userId (date_on_increment env).

(** [getUserLimitCount(userId)]: [doc?.count || 0] *)
Definition getUserLimitCount (userId : jsstring) : M Z :=
  env ← ask; d ← get;
  mret (default 0 (limits d !! (userId, date_on_peek env))).

(** [{ $set: { username: value } }]: a value that is [undefined] is left
    out of the update, and the field stays as it is. *)
Definition set_field (value old : option jsstring) : option jsstring :=
  match value with
  | Some v => Some v
  | None => old
  end.

(** [User.updateOne({ userId }, { $set, $setOnInsert }, { upsert })]:
    the first document of that [userId] is updated, [joinedAt] being set
    on insert only. *)
Fixpoint upsert_user (userId firstName : jsstring) (username : option jsstring)
    (joined : Z) (l : list User.doc) : list User.doc :=
  match l with
  | [] => [{| User.userId := userId; User.firstName := firstName;
              User.username := username; User.joinedAt := joined |}]
  | u :: t =>
      if jseq (User.userId u) userId
      then {| User.userId := userId; User.firstName := firstName;
              User.username := set_field username (User.username u);
              User.joinedAt := User.joinedAt u |} :: t
      else u :: upsert_user userId firstName username joined t
  end.

(** [saveUser(msg)], for a message that has a sender. *)
Definition saveUser (from_id : Z) (first_name : jsstring) (username : option jsstring)
  : M unit :=
  env ← ask; d ← get;
  modify (set_users
            (upsert_user (String_of_Z from_id) first_name username (now env) (users d))).

(** [s.replace('@', '')]: the first occurrence only. *)
Definition drop_first_at (s : jsstring) : jsstring :=
  remove_first (N.eqb Char.at_sign) s.

Definition member_statuses : list jsstring :=
  map str ["creator"; "administrator"; "member"]%string.

(** [String(isMember)] *)
Definition String_of_bool (b : bool) : jsstring :=
  if b then str "true" else str "false".

Definition join_keyboard (channelLink : option jsstring) : Keyboard :=
  [ [UrlButton LblJoinChannel (or_default channelLink (str "https://t.me/"))];
    [CallbackButton LblIHaveJoined (str "CHECK_JOIN")] ].

(** The prompt sent to a user who is not a member: the link is built
    from a public channel name, or else asked from Telegram with
    [.catch(() => null)]. *)
Definition join_prompt (env : Env) (chatId : Z) : Call :=
  let channel := default [] (FORCE_CHANNEL_ID cfg) in
  let channelLink :=
    if startsWith (str "@") channel
    then Some (str "https://t.me/" ++ drop_first_at channel)
    else inviteLink env channel in
  sendMessage (ChatId chatId) TxtJoinPrompt (join_keyboard channelLink).

(** [verifyJoin(chatId, userId)] *)
Definition verifyJoin (chatId : Z) (userId : jsstring) : M bool :=
  if negb (truthy (FORCE_CHANNEL_ID cfg)) then mret true
  else if is_admin userId then mret true
  else
    cached ← redis_get_isMember userId;
    if truthy cached then mret (jseq (default [] cached) (str "true"))
    else
      try_catch
        (env ← ask;
         match chatMemberStatus env (default [] (FORCE_CHANNEL_ID cfg)) userId with
         | None => throw (TelegramError None)
         | Some status =>
             let isMember := existsb (jseq status) member_statuses in
             redis_set_isMember userId (String_of_bool isMember)
               (if isMember then 300 else 60);;
             if negb isMember then
               await (join_prompt env chatId);;
               mret false
             else mret true
         end)
        (fun _ => emit (ConsoleError (str "Force Join Error:"));; mret true).

(** ** Updates received from Telegram *)

(** [msg.video] or [msg.document] *)
Record Attachment := {
  att_file_id : jsstring;
  att_file_name : option jsstring;
  att_file_size : option Z
}.

(** A message; the handlers read [msg.from.id], so the model takes the
    messages that have a sender. *)
Record Message := {
  msg_chat_id : Z;
  msg_from_id : Z;
  msg_first_name : jsstring;
  msg_username : option jsstring;
  msg_message_id : Z;
  msg_text : option jsstring;
  msg_caption : option jsstring;
  msg_video : option Attachment;
  msg_document : option Attachment;
  msg_reply_to_message : option Z     (* [msg.reply_to_message.message_id] *)
}.

(** A callback query [q]. *)
Record Query := {
  q_id : jsstring;
  q_from_id : Z;
  q_chat_id : Z;          (* [q.message.chat.id] *)
  q_message_id : Z;       (* [q.message.message_id] *)
  q_data : jsstring
}.

(** [data.split(':')[1]] *)
Definition field1 (data : jsstring) : jsstring :=
  default [] (split Char.colon data !! 1%nat).

(** [/^F\d{4}$/i.test(text)] *)
Definition is_catalog_id (text : jsstring) : bool :=
  match text with
  | f :: digits =>
      (Char.to_upper f =? 70)%N && (length digits =? 4)%nat
      && forallb Char.is_digit digits
  | [] => false
  end.

Definition file_button (label : jsstring -> jsstring -> Text) (f : File.doc)
  : list Button :=
  [CallbackButton (label (File.file_size f) (File.clean_title f))
     (str "GET:" ++ File.customId f)].

(** The delivery of a file, as both download paths write it: caption,
    favorite button, [sendVideo] or [sendDocument] by the record's type,
    and the deferred deletion of the message sent. *)
Definition file_call (chatId : Z) (file : File.doc) : Call :=
  let caption :=
    TxtCaption (File.clean_title file) (File.file_size file) (File.customId file) in
  let keyboard := [[CallbackButton LblFavorite (str "FAV:" ++ File.customId file)]] in
  if jseq (File.type file) (str "video")
  then sendVideo (ChatId chatId) (File.file_id file) caption keyboard
  else sendDocument (ChatId chatId) (File.file_id file) caption keyboard.

Definition send_file (chatId : Z) (file : File.doc) : M unit :=
  sent ← await (file_call chatId file);
  autoDeleteMessage (ChatId chatId) sent 60000.

(** [Math.ceil(total / RESULTS_PER_PAGE_NUM)] *)
Definition page_count (total : Z) : Z := - ((- total) / RESULTS_PER_PAGE_NUM cfg).

(** ** [bot.on('message', ...)]: admin upload and search *)

Definition on_message (msg : Message) : M unit :=
  let chatId := msg_chat_id msg in
  let fromId := String_of_Z (msg_from_id msg) in
  let text := trim <$> msg_text msg in
  if truthy text && startsWith (str "/") (default [] text) then mret tt
  else
    match (if is_admin fromId
           then (match msg_video msg with Some v => Some v | None => msg_document msg end)
           else None) with
    | Some file =>
        (* 1. admin file upload *)
        env ← ask;
        let rawName :=
          or_default (or_else (msg_caption msg) (att_file_name file)) (str "Unknown") in
        let clean := cleanFileName rawName in
        let size := formatSize env (att_file_size file) in
        let attrs := generateAttributes env clean in
        pending_id ← Pending_create
          {| Pending.adminId := fromId;
             Pending.chatId := String_of_Z chatId;
             Pending.messageId := msg_message_id msg;
             Pending.file_id := att_file_id file;
             Pending.file_name := rawName;
             Pending.type := (match msg_video msg with
                              | Some _ => str "video"
                              | None => str "document"
                              end);
             Pending.clean_title := clean;
             Pending.attributes := attrs;
             Pending.file_size := size;
             Pending.created_at := now env |};
        await (sendMessage (ChatId chatId) (TxtReviewUpload clean size)
                 [[CallbackButton LblSave (str "CONFIRM:" ++ pending_id);
                   CallbackButton LblCancel (str "CANCEL:" ++ pending_id)]]);;
        mret tt
    | None =>
        if negb (truthy text) then mret tt
        else
          (* 2. user search *)
          let text := default [] text in
          saveUser (msg_from_id msg) (msg_first_name msg) (msg_username msg);;
          joined ← verifyJoin chatId fromId;
          if negb joined then mret tt
          else
          env ← ask;
          if is_catalog_id text then
            (* A. search by id *)
            let customId := toUpperCase env text in
            d ← get;
            match Files.findOne customId (files d) with
            | None =>
                temp ← await (sendMessage (ChatId chatId) TxtFileNotFound []);
                autoDeleteMessage (ChatId chatId) temp 3000
            | Some (_id, file) =>
                used ← getUserLimitCount fromId;
                if DAILY_LIMIT_NUM cfg <=? used
                then return_call (sendMessage (ChatId chatId) TxtDailyLimitReached [])
                else
                  incrementAndGetLimit fromId;;
                  File_inc_downloads _id;;
                  send_file chatId file
            end
          else
            (* B. keyword search *)
            let keywords :=
              filter (fun k => truthy (Some k) = true)
                (split Char.space (toLowerCase env text)) in
            if (length keywords =? 0)%nat then mret tt
            else
              d ← get;
              let found := List.filter (Files.matches keywords) (files d) in
              let total := Z.of_nat (length found) in
              let page := Files.limit (RESULTS_PER_PAGE_NUM cfg) (Files.sort_recent found) in
              if (length page =? 0)%nat then
                sent ← await (sendMessage (ChatId chatId) (TxtNoResults text) []);
                autoDeleteMessage (ChatId chatId) sent 5000
              else
                redis_set_search fromId keywords 300;;
                let keyboard := map (file_button LblFile) page in
                let keyboard :=
                  if RESULTS_PER_PAGE_NUM cfg <? total
                  then keyboard ++
                         [[CallbackButton (LblPageOf 1 (page_count total)) (str "PAGE:1")]]
                  else keyboard in
                sent ← await (sendMessage (ChatId chatId) (TxtFound total text) keyboard);
                autoDeleteMessage (ChatId chatId) sent 60000;;
                autoDeleteMessage (ChatId chatId) (msg_message_id msg) 2000
    end.

(** ** [bot.on('callback_query', ...)] *)

(** The branch [CONFIRM:<pendingId>] *)
Definition confirm (q : Query) : M unit :=
  let pendingId := field1 (q_data q) in
  found ← Pending_findById pendingId;
  match found with
  | None => return_call (answerCallbackQuery (q_id q) TxtExpired false)
  | Some pending =>
      d ← get;
      if Files.exists_file_id (Pending.file_id pending) (files d) then
        Pending_deleteOne pendingId;;
        return_call
          (editMessageText TxtFileAlreadyExists (ChatId (q_chat_id q)) (q_message_id q) [])
      else
        customId ← nextSequence;
        env ← ask;
        File_create
          {| File.customId := customId;
             File.file_id := Pending.file_id pending;
             File.file_name := Pending.file_name pending;
             File.type := Pending.type pending;
             File.uploader_id := Pending.adminId pending;
             File.uploaded_at := now env;
             File.downloads := 0;
             File.file_size := Pending.file_size pending;
             File.clean_title := Pending.clean_title pending;
             File.attributes := Pending.attributes pending |};;
        Pending_deleteOne pendingId;;
        await (editMessageText (TxtPublished customId (Pending.clean_title pending))
                 (ChatId (q_chat_id q)) (q_message_id q) []);;
        mret tt
  end.

(** The branch [CANCEL:<pendingId>] *)
Definition cancel (q : Query) : M unit :=
  Pending_deleteOne (field1 (q_data q));;
  await (editMessageText TxtCancelled (ChatId (q_chat_id q)) (q_message_id q) []);;
  mret tt.

(** The branch [GET:<customId>] *)
Definition download (q : Query) : M unit :=
  let fromId := String_of_Z (q_from_id q) in
  let customId := field1 (q_data q) in
  d ← get;
  match Files.findOne customId (files d) with
  | None => return_call (answerCallbackQuery (q_id q) TxtFileNotFoundDeleted false)
  | Some (_id, file) =>
      used ← getUserLimitCount fromId;
      if DAILY_LIMIT_NUM cfg <=? used
      then return_call (answerCallbackQuery (q_id q) TxtDailyLimitExceeded true)
      else
        await (answerCallbackQuery (q_id q) TxtSendingFile false);;
        incrementAndGetLimit fromId;;
        File_inc_downloads _id;;
        send_file (q_chat_id q) file
  end.

(** The branch [PAGE:<n>] *)
Definition paginate (q : Query) : M unit :=
  let fromId := String_of_Z (q_from_id q) in
  env ← ask;
  rawKeywords ← redis_get_search fromId;
  match rawKeywords with
  | None => return_call (answerCallbackQuery (q_id q) TxtSearchExpired false)
  | Some keywords =>
      match Number_of env (field1 (q_data q)) with
      | None => throw BadRequest
      | Some page =>
          if page <? 0 then throw BadRequest
          else
            d ← get;
            let found := List.filter (Files.matches keywords) (files d) in
            let total := Z.of_nat (length found) in
            let shown :=
              Files.limit (RESULTS_PER_PAGE_NUM cfg)
                (Files.skip (page * RESULTS_PER_PAGE_NUM cfg) (Files.sort_recent found)) in
            let keyboard := map (file_button LblFile) shown in
            let maxPage := page_count total - 1 in
            let navRow :=
              (if 0 <? page
               then [CallbackButton LblPrev (str "PAGE:" ++ String_of_Z (page - 1))]
               else [])
              ++ (if page <? maxPage
                  then [CallbackButton LblNext (str "PAGE:" ++ String_of_Z (page + 1))]
                  else []) in
            let keyboard :=
              match navRow with [] => keyboard | _ => keyboard ++ [navRow] end in
            await (editMessageText (TxtResultsPage (page + 1) (maxPage + 1))
                     (ChatId (q_chat_id q)) (q_message_id q) keyboard);;
            mret tt
      end
  end.

(** The branch [FAV:<customId>] *)
Definition toggle_favorite (q : Query) : M unit :=
  let fromId := String_of_Z (q_from_id q) in
  let customId := field1 (q_data q) in
  d ← get;
  match Favorites.findOne fromId customId (favorites d) with
  | Some _ =>
      Favorite_deleteOne fromId customId;;
      await (answerCallbackQuery (q_id q) TxtRemovedFromFavorites false);;
      mret tt
  | None =>
      if 50 <=? Favorites.countDocuments fromId (favorites d)
      then return_call (answerCallbackQuery (q_id q) TxtMax50Favorites false)
      else
        Favorite_create fromId customId;;
        await (answerCallbackQuery (q_id q) TxtAddedToFavorites false);;
        mret tt
  end.

(** The [try] block of the handler: the action named by the data. *)
Definition dispatch (q : Query) : M unit :=
  let data := q_data q in
  if startsWith (str "CONFIRM:") data then confirm q
  else if startsWith (str "CANCEL:") data then cancel q
  else if startsWith (str "GET:") data then download q
  else if startsWith (str "PAGE:") data then paginate q
  else if startsWith (str "FAV:") data then toggle_favorite q
  else mret tt.

(** The [catch] block of the handler. *)
Definition callback_error (q : Query) (err : Error) : M unit :=
  emit (ConsoleError (str "Callback Error:"));;
  fire (answerCallbackQuery (q_id q) TxtErrorOccurred false).

Definition on_callback_query (q : Query) : M unit :=
  let chatId := q_chat_id q in
  let fromId := String_of_Z (q_from_id q) in
  let data := q_data q in
  if jseq data (str "CHECK_JOIN") then
    redis_del_isMember fromId;;
    joined ← verifyJoin chatId fromId;
    if (joined : bool) then
      fire (sendMessage (ChatId chatId) TxtThanksForJoining []);;
      fire (deleteMessage (ChatId chatId) (q_message_id q))
    else
      fire (answerCallbackQuery (q_id q) TxtStillNotJoined true)
  else
    joined ← verifyJoin chatId fromId;
    if negb joined
    then return_call (answerCallbackQuery (q_id q) TxtMustJoinFirst true)
    else try_catch (dispatch q) (callback_error q).

(** ** Commands *)

(** [bot.onText(/\/start/, ...)] *)
Definition on_start (msg : Message) : M unit :=
  saveUser (msg_from_id msg) (msg_first_name msg) (msg_username msg);;
  joined ← verifyJoin (msg_chat_id msg) (String_of_Z (msg_from_id msg));
  if negb joined then mret tt
  else
    await (sendMessage (ChatId (msg_chat_id msg)) (TxtWelcome (msg_first_name msg)) []);;
    mret tt.

(** [bot.onText(/\/help/, ...)] *)
Definition on_help (msg : Message) : M unit :=
  let isAdmin := is_admin (String_of_Z (msg_from_id msg)) in
  await (sendMessage (ChatId (msg_chat_id msg)) (TxtHelp isAdmin) []);;
  mret tt.

(** [bot.onText(/\/stats/, ...)] *)
Definition on_stats (msg : Message) : M unit :=
  if negb (is_admin (String_of_Z (msg_from_id msg))) then mret tt
  else
    env ← ask; d ← get;
    let totalFiles := length (files d) in
    let totalUsers := length (users d) in
    let activeUsers :=
      size (filter (fun kv => kv.1.2 = date_on_stats env) (limits d)) in
    await (sendMessage (ChatId (msg_chat_id msg))
             (TxtStats totalFiles totalUsers activeUsers) []);;
    mret tt.

(** [err.response && err.response.statusCode === 403] *)
Definition is_blocked (err : Error) : bool :=
  match err with
  | TelegramError (Some statusCode) => statusCode =? 403
  | _ => false
  end.

(** What the loop sends to one user: a copy of the message replied to,
    or else the text. *)
Definition broadcast_call (chatId : Z) (text : option jsstring) (replyMsg : option Z)
    (user : User.doc) : Call :=
  match replyMsg with
  | Some message_id => copyMessage (ChatStr (User.userId user)) (ChatId chatId) message_id
  | None => sendMessage (ChatStr (User.userId user)) (TxtLiteral (default [] text)) []
  end.

(** The loop of the [/broadcast] handler, with its two tallies. *)
Fixpoint broadcast_loop (chatId : Z) (text : option jsstring) (replyMsg : option Z)
    (recipients : list User.doc) (success blocked : Z) : M (Z * Z) :=
  match recipients with
  | [] => mret (success, blocked)
  | user :: rest =>
      tallies ← try_catch
        (await (broadcast_call chatId text replyMsg user);;
         mret (success + 1, blocked))
        (fun err =>
           if is_blocked err then mret (success, blocked + 1)
           else mret (success, blocked));
      emit (Sleep 50);;
      broadcast_loop chatId text replyMsg rest tallies.1 tallies.2
  end.

(** [bot.onText(/\/broadcast(?: (.+))?/, ...)]; [text] is [match[1]]. *)
Definition on_broadcast (msg : Message) (text : option jsstring) : M unit :=
  let chatId := msg_chat_id msg in
  let fromId := String_of_Z (msg_from_id msg) in
  if negb (is_admin fromId) then mret tt
  else
    let replyMsg := msg_reply_to_message msg in
    if negb (truthy text) && negb (bool_decide (is_Some replyMsg))
    then return_call (sendMessage (ChatId chatId) TxtBroadcastUsage [])
    else
      d ← get;
      let recipients := users d in
      sentMsg ← await (sendMessage (ChatId chatId) (TxtBroadcasting (length recipients)) []);
      tallies ← broadcast_loop chatId text replyMsg recipients 0 0;
      fire (editMessageText (TxtBroadcastComplete tallies.1 tallies.2)
              (ChatId chatId) sentMsg []).

(** The list shown by [/recent] and [/trending]. *)
Definition show_files (msg : Message) (sorted : list File.doc -> list File.doc)
    (none title : Text) (label : jsstring -> jsstring -> Text) : M unit :=
  saveUser (msg_from_id msg) (msg_first_name msg) (msg_username msg);;
  joined ← verifyJoin (msg_chat_id msg) (String_of_Z (msg_from_id msg));
  if negb joined then mret tt
  else
    d ← get;
    let found := take 10 (sorted (files d)) in
    if (length found =? 0)%nat
    then return_call (sendMessage (ChatId (msg_chat_id msg)) none [])
    else
      sent ← await (sendMessage (ChatId (msg_chat_id msg)) title
                      (map (file_button label) found));
      autoDeleteMessage (ChatId (msg_chat_id msg)) sent 60000.

(** [bot.onText(/\/recent/, ...)] and [bot.onText(/\/trending/, ...)] *)
Definition on_recent (msg : Message) : M unit :=
  show_files msg Files.sort_recent TxtNoFilesYet TxtRecentUploads LblFile.
Definition on_trending (msg : Message) : M unit :=
  show_files msg Files.sort_trending TxtNoTrendingFiles TxtTopTrending LblFire.

(** [bot.onText(/\/favorites/, ...)] *)
Definition on_favorites (msg : Message) : M unit :=
  let chatId := msg_chat_id msg in
  saveUser (msg_from_id msg) (msg_first_name msg) (msg_username msg);;
  joined ← verifyJoin chatId (String_of_Z (msg_from_id msg));
  if negb joined then mret tt
  else
    let userId := String_of_Z (msg_from_id msg) in
    d ← get;
    let favs := Favorites.find userId (favorites d) in
    if (length favs =? 0)%nat
    then return_call (sendMessage (ChatId chatId) TxtNoFavoritesYet [])
    else
      let fileIds := map Favorite.customId favs in
      let found :=
        List.filter (fun f => existsb (jseq (File.customId f)) fileIds) (files d) in
      if (length found =? 0)%nat
      then return_call (sendMessage (ChatId chatId) TxtFavoritesEmpty [])
      else
        let keyboard := map (file_button LblStar) (take 10 found) in
        sent ← await (sendMessage (ChatId chatId) (TxtYourFavorites (length found)) keyboard);
        autoDeleteMessage (ChatId chatId) sent 60000.

(** [bot.onText(/\/myaccount/, ...)] *)
Definition on_myaccount (msg : Message) : M unit :=
  saveUser (msg_from_id msg) (msg_first_name msg) (msg_username msg);;
  used ← getUserLimitCount (String_of_Z (msg_from_id msg));
  let remaining := Z.max (DAILY_LIMIT_NUM cfg - used) 0 in
  await (sendMessage (ChatId (msg_chat_id msg))
           (TxtYourAccount used remaining (DAILY_LIMIT_NUM cfg)) []);;
  mret tt.

(** [bot.onText(/\/delete (.+)/, ...)]; [arg] is [match[1]]. *)
Definition on_delete (msg : Message) (arg : jsstring) : M unit :=
  if negb (is_admin (String_of_Z (msg_from_id msg))) then mret tt
  else
    env ← ask;
    let customId := toUpperCase env (trim arg) in
    deletedCount ← File_deleteOne customId;
    fire (sendMessage (ChatId (msg_chat_id msg))
            (if deletedCount =? 0 then TxtNotFound else TxtDeleted customId) []).

(** ** The bot as a transition system

    One event is one invocation of a handler, or one sweep of the
    store's expiry of pending uploads.  Each event comes with the
    environment it runs in. *)

Inductive Event :=
  | EvMessage (msg : Message)
  | EvCallbackQuery (q : Query)
  | EvStart (msg : Message)
  | EvHelp (msg : Message)
  | EvStats (msg : Message)
  | EvBroadcast (msg : Message) (text : option jsstring)
  | EvRecent (msg : Message)
  | EvTrending (msg : Message)
  | EvFavorites (msg : Message)
  | EvMyAccount (msg : Message)
  | EvDelete (msg : Message) (arg : jsstring)
  | EvPendingTtl.

Definition handler (ev : Event) : M unit :=
  match ev with
  | EvMessage msg => on_message msg
  | EvCallbackQuery q => on_callback_query q
  | EvStart msg => on_start msg
  | EvHelp msg => on_help msg
  | EvStats msg => on_stats msg
  | EvBroadcast msg text => on_broadcast msg text
  | EvRecent msg => on_recent msg
  | EvTrending msg => on_trending msg
  | EvFavorites msg => on_favorites msg
  | EvMyAccount msg => on_myaccount msg
  | EvDelete msg arg => on_delete msg arg
  | EvPendingTtl => Pending_ttl_sweep
  end.

(** The store and the trace after a handler has run. *)
Definition step (env : Env) (ev : Event) (d : Db) : Db * list Effect :=
  let '(_, d', l) := handler ev env d in (d', l).

Fixpoint run (evs : list (Env * Event)) (d : Db) : Db * list Effect :=
  match evs with
  | [] => (d, [])
  | (env, ev) :: rest =>
      let '(d', l) := step env ev d in
      let '(d'', l') := run rest d' in
      (d'', l ++ l')
  end.

End Bot.

(** ** A concrete deployment, for the examples

    One administrator (id 1), a daily limit of 100 downloads, pages of 10
    results and the required channel [@movies]. *)

Module Demo.

Definition cfg : Config :=
  {| ADMIN_SET := {[ str "1" ]};
     DAILY_LIMIT_NUM := 100;
     RESULTS_PER_PAGE_NUM := 10;
     FORCE_CHANNEL_ID := Some (str "@movies") |}.

(** No channel configured. *)
Definition cfg_open : Config :=
  {| ADMIN_SET := {[ str "1" ]};
     DAILY_LIMIT_NUM := 100;
     RESULTS_PER_PAGE_NUM := 10;
     FORCE_CHANNEL_ID := None |}.

(** The case mappings of Unicode on the code units of Latin-1, unit by
    unit: the letters [À] to [Þ] fold like the ASCII letters, [ß], [ÿ]
    and the micro sign have their capital outside Latin-1.  The texts of
    the examples stay within Latin-1. *)
Definition lower_latin1 (c : N) : N :=
  if (Char.is_upper c || ((192 <=? c) && (c <=? 222) && negb (c =? 215)))%N
  then (c + 32)%N else c.
Definition upper_latin1 (c : N) : list N :=
  if (Char.is_lower c || ((224 <=? c) && (c <=? 254) && negb (c =? 247)))%N
  then [(c - 32)%N]
  else if (c =? 223)%N then [83%N; 83%N]
  else if (c =? 255)%N then [376%N]
  else if (c =? 181)%N then [924%N]
  else [c].

(** The strings that the driver takes for an [ObjectId]: 24 hexadecimal
    digits. *)
Definition is_hex (c : N) : bool :=
  (Char.is_digit c || ((97 <=? c) && (c <=? 102)) || ((65 <=? c) && (c <=? 70)))%N.
Definition hex24 (s : jsstring) : bool := (length s =? 24)%nat && forallb is_hex s.

(** An environment in which every call to Telegram succeeds and every
    user is a member of the channel. *)
Definition env : Env :=
  {| date_on_peek := str "2024-05-01";
     date_on_increment := str "2024-05-01";
     date_on_stats := str "2024-05-01";
     now := 1000;
     fresh_id := str "665f1c2ab7e4a90012345678";
     telegram := fun _ => Resolved 77;
     chatMemberStatus := fun _ _ => Some (str "member");
     inviteLink := fun _ => None;
     formatSize := fun _ => str "1.4 GB";
     Number_of := fun s => Z.of_int <$> NilZero.int_of_string (unstr s);
     toLowerCase_of := map lower_latin1;
     toUpperCase_of := flat_map upper_latin1;
     isObjectId := hex24 |}.

Definition with_telegram (t : Call -> Reply) (e : Env) : Env :=
  {| date_on_peek := date_on_peek e; date_on_increment := date_on_increment e;
     date_on_stats := date_on_stats e; now := now e; fresh_id := fresh_id e;
     telegram := t; chatMemberStatus := chatMemberStatus e;
     inviteLink := inviteLink e; formatSize := formatSize e;
     Number_of := Number_of e; toLowerCase_of := toLowerCase_of e;
     toUpperCase_of := toUpperCase_of e; isObjectId := isObjectId e |}.

Definition with_status (s : option jsstring) (e : Env) : Env :=
  {| date_on_peek := date_on_peek e; date_on_increment := date_on_increment e;
     date_on_stats := date_on_stats e; now := now e; fresh_id := fresh_id e;
     telegram := telegram e; chatMemberStatus := fun _ _ => s;
     inviteLink := inviteLink e; formatSize := formatSize e;
     Number_of := Number_of e; toLowerCase_of := toLowerCase_of e;
     toUpperCase_of := toUpperCase_of e; isObjectId := isObjectId e |}.

(** The same environment at another time. *)
Definition at_time (t : Z) (e : Env) : Env :=
  {| date_on_peek := date_on_peek e; date_on_increment := date_on_increment e;
     date_on_stats := date_on_stats e; now := t; fresh_id := fresh_id e;
     telegram := telegram e; chatMemberStatus := chatMemberStatus e;
     inviteLink := inviteLink e; formatSize := formatSize e;
     Number_of := Number_of e; toLowerCase_of := toLowerCase_of e;
     toUpperCase_of := toUpperCase_of e; isObjectId := isObjectId e |}.

(** Every call to Telegram is rejected with the given status code. *)
Definition offline (code : option Z) : Env := with_telegram (fun _ => Rejected code) env.

Definition text_message (from : Z) (text : string) : Message :=
  {| msg_chat_id := from; msg_from_id := from; msg_first_name := str "Ann";
     msg_username := None; msg_message_id := 5; msg_text := Some (str text);
     msg_caption := None; msg_video := None; msg_document := None;
     msg_reply_to_message := None |}.

Definition video_message (from : Z) (file_id name : string) : Message :=
  {| msg_chat_id := from; msg_from_id := from; msg_first_name := str "Ann";
     msg_username := None; msg_message_id := 5; msg_text := None;
     msg_caption := None;
     msg_video := Some {| att_file_id := str file_id;
                          att_file_name := Some (str name);
                          att_file_size := Some 1400000000 |};
     msg_document := None; msg_reply_to_message := None |}.

Definition press (from : Z) (data : string) : Query :=
  {| q_id := str "q1"; q_from_id := from; q_chat_id := from; q_message_id := 9;
     q_data := str data |}.

Definition iron_man : File.doc :=
  {| File.customId := str "F0001"; File.file_id := str "BAAD-iron-man";
     File.file_name := str "Iron.Man.2008.1080p.mkv"; File.type := str "video";
     File.uploader_id := str "1"; File.uploaded_at := 1000; File.downloads := 0;
     File.file_size := str "1.4 GB"; File.clean_title := str "Iron Man 2008 1080p";
     File.attributes := map str ["iron"; "man"; "2008"; "1080p"]%string |}.

(** The catalog after one publication. *)
Definition one_file : Db :=
  set_counters {[ str "file" := 1 ]} (set_files [iron_man] empty_db).

(** A pending upload of the file that [one_file] already holds. *)
Definition pending_iron_man : Pending.doc :=
  {| Pending.adminId := str "1"; Pending.chatId := str "1"; Pending.messageId := 5;
     Pending.file_id := str "BAAD-iron-man";
     Pending.file_name := str "Iron.Man.2008.1080p.mkv";
     Pending.type := str "video"; Pending.clean_title := str "Iron Man 2008 1080p";
     Pending.attributes := map str ["iron"; "man"; "2008"; "1080p"]%string;
     Pending.file_size := str "1.4 GB"; Pending.created_at := 1000 |}.

(** A user who has left the channel, at a moment when Telegram rejects
    what the bot sends with the status code 403. *)
Definition env_left_offline : Env :=
  with_status (Some (str "left")) (offline (Some 403)).

(** A user who has left the channel; the calls succeed. *)
Definition env_left : Env := with_status (Some (str "left")) env.

(** The membership query itself is rejected. *)
Definition env_blind : Env := with_status None env.

(** A store whose cache holds the verdict [false] for the user 2 until
    the time 5000. *)
Definition cached_false : Db :=
  set_isMember {[ str "2" := (str "false", 5000) ]} empty_db.

(** The catalog of [one_file] with that upload pending review. *)
Definition resubmitted : Db :=
  set_pendings {[ str "665f1c2ab7e4a90012345678" := pending_iron_man ]} one_file.

(** The empty catalog with the upload of the administrator pending
    review. *)
Definition submitted : Db :=
  set_pendings {[ str "665f1c2ab7e4a90012345678" := pending_iron_man ]} empty_db.

(** Telegram accepts everything but the files. *)
Definition env_undeliverable : Env :=
  with_telegram
    (fun c => match c with
              | sendVideo _ _ _ _ | sendDocument _ _ _ _ => Rejected (Some 400)
              | _ => Resolved 77
              end) env.

(** The user 2 has used the 100 downloads of the day. *)
Definition exhausted : Db :=
  set_limits {[ (str "2", str "2024-05-01") := 100 ]} one_file.

Definition favorite (userId : string) (n : nat) : Favorite.doc :=
  {| Favorite.userId := str userId;
     Favorite.customId := str "F" ++ padStart 4 48%N (String_of_Z (Z.of_nat n));
     Favorite.savedAt := 1000 |}.

(** The user 2 has 50 favorites, [F0001] to [F0050]. *)
Definition full : Db :=
  set_favorites (map (favorite "2") (seq 1 50)) one_file.

(** The user 2 has [F0001] as only favorite. *)
Definition one_favorite : Db := set_favorites [favorite "2" 1] one_file.

(** The same after the deletion of [F0001] from the catalog. *)
Definition dangling : Db := set_favorites [favorite "2" 1] empty_db.

(** The administrator publishes a file, deletes it, publishes it again
    and submits a second file. *)
Definition republish : list (Env * Event) :=
  [ (env, EvMessage (video_message 1 "BAAD-iron-man" "Iron.Man.2008.1080p.mkv"));
    (env, EvCallbackQuery (press 1 "CONFIRM:665f1c2ab7e4a90012345678"));
    (env, EvDelete (text_message 1 "/delete F0001") (str "F0001"));
    (env, EvMessage (video_message 1 "BAAD-iron-man" "Iron.Man.2008.1080p.mkv"));
    (env, EvCallbackQuery (press 1 "CONFIRM:665f1c2ab7e4a90012345678"));
    (env, EvMessage (video_message 1 "BAAD-thor" "Thor.2011.mkv")) ].

Definition pending_thor : Pending.doc :=
  {| Pending.adminId := str "1"; Pending.chatId := str "1"; Pending.messageId := 5;
     Pending.file_id := str "BAAD-thor"; Pending.file_name := str "Thor.2011.mkv";
     Pending.type := str "video"; Pending.clean_title := str "Thor 2011";
     Pending.attributes := map str ["thor"; "2011"]%string;
     Pending.file_size := str "1.4 GB"; Pending.created_at := 1000 |}.

Definition user (userId : string) : User.doc :=
  {| User.userId := str userId; User.firstName := str "Ann"; User.username := None;
     User.joinedAt := 1000 |}.

(** Three users are known to the bot. *)
Definition audience : Db := set_users [user "2"; user "3"; user "4"] empty_db.

(** The user 2 is the only user known to the bot. *)
Definition single : Db := set_users [user "2"] empty_db.

(** The user 3 has blocked the bot (403) and the chat of user 4 is not
    found (400); everything else is accepted. *)
Definition env_mixed : Env :=
  with_telegram
    (fun c => match c with
              | sendMessage (ChatStr [51%N]) _ _ => Rejected (Some 403)
              | sendMessage (ChatStr [52%N]) _ _ => Rejected (Some 400)
              | _ => Resolved 77
              end) env.

(** The chats of the users are not found (400). *)
Definition env_not_found : Env :=
  with_telegram
    (fun c => match c with
              | sendMessage (ChatStr _) _ _ => Rejected (Some 400)
              | _ => Resolved 77
              end) env.

End Demo.

(** ** Observations on an outcome

    The properties below speak of the result, the store and the trace that
    a computation leaves, and of what the trace shows: the files delivered,
    the catalog ids published, the buttons displayed. *)

Definition result {A} (out : Res A * Db * list Effect) : Res A := out.1.1.
Definition store {A} (out : Res A * Db * list Effect) : Db := out.1.2.
Definition trace {A} (out : Res A * Db * list Effect) : list Effect := out.2.

(** The [file_id]s of the files that reached a chat: the calls to
    [sendVideo] and [sendDocument] that resolved. *)
Definition delivered_by (e : Effect) : list jsstring :=
  match e with
  | Called (sendVideo _ file_id _ _) (Resolved _) => [file_id]
  | Called (sendDocument _ file_id _ _) (Resolved _) => [file_id]
  | _ => []
  end.
Definition delivered (l : list Effect) : list jsstring := flat_map delivered_by l.

(** The [file_id]s whose delivery was attempted. *)
Definition attempted_by (e : Effect) : list jsstring :=
  match e with
  | Called (sendVideo _ file_id _ _) _ => [file_id]
  | Called (sendDocument _ file_id _ _) _ => [file_id]
  | _ => []
  end.
Definition attempted (l : list Effect) : list jsstring := flat_map attempted_by l.

(** The catalog ids announced as published, in the order of the trace. *)
Definition published_by (e : Effect) : list jsstring :=
  match e with
  | Called (editMessageText (TxtPublished customId _) _ _ _) _ => [customId]
  | _ => []
  end.
Definition published (l : list Effect) : list jsstring := flat_map published_by l.

(** The notices sent, whatever the call that carries them. *)
Definition notice_of (e : Effect) : list Text :=
  match e with
  | Called (sendMessage _ text _) _ => [text]
  | Called (editMessageText text _ _ _) _ => [text]
  | Called (answerCallbackQuery _ text _) _ => [text]
  | _ => []
  end.
Definition notices (l : list Effect) : list Text := flat_map notice_of l.

(** The [callback_data] of the buttons displayed by the messages sent. *)
Definition button_data (b : Button) : list jsstring :=
  match b with
  | CallbackButton _ data => [data]
  | UrlButton _ _ => []
  end.
Definition buttons_of (e : Effect) : list jsstring :=
  match e with
  | Called (sendMessage _ _ keyboard) _ => flat_map button_data (concat keyboard)
  | _ => []
  end.
Definition displayed (l : list Effect) : list jsstring := flat_map buttons_of l.

(** The recipients of the messages a broadcast tried to deliver: the
    chats addressed by string. *)
Definition recipient_of (e : Effect) : list jsstring :=
  match e with
  | Called (sendMessage (ChatStr u) _ _) _ => [u]
  | Called (copyMessage (ChatStr u) _ _) _ => [u]
  | _ => []
  end.
Definition recipients (l : list Effect) : list jsstring := flat_map recipient_of l.

(** The catalog id of sequence number [n], as [nextSequence] formats it. *)
Definition catalog_id (n : Z) : jsstring :=
  str "F" ++ padStart 4 48%N (String_of_Z n).

(** The value of the sequence counter ['file'], zero before its first use. *)
Definition file_seq (d : Db) : Z := default 0 (counters d !! str "file").

(** Today's quota count of a user and the download count of a catalog id. *)
Definition quota (d : Db) (userId date : jsstring) : Z :=
  default 0 (limits d !! (userId, date)).
Definition downloads_of (d : Db) (customId : jsstring) : option Z :=
  File.downloads <$> (snd <$> Files.findOne customId (files d)).

(** Number of favorites of a user. *)
Definition favorites_of (d : Db) (userId : jsstring) : nat :=
  count_if (Favorites.of_user userId) (favorites d).

(** A relation between the store before, the store after and the trace
    is respected by a computation when every run of it is in the
    relation. *)
Definition respects (R : Db -> Db -> list Effect -> Prop) {A} (m : M A) : Prop :=
  forall env d, R d (store (m env d)) (trace (m env d)).

(** A computation keeps a component of the store when it leaves it as it
    found it. *)
Definition keeps {X} (proj : Db -> X) : Db -> Db -> list Effect -> Prop :=
  fun d d' _ => proj d' = proj d.

(** The durable collections other than [User]: what neither [saveUser]
    nor the membership gate may touch. *)
Definition ledgers (d : Db) :=
  (files d, counters d, limits d, favorites d, pendings d).

(** An invariant of the store, as a relation between the stores before
    and after a computation. *)
Definition preserves (I : Db -> Prop) : Db -> Db -> list Effect -> Prop :=
  fun d d' _ => I d -> I d'.

(** No two records of the catalog hold the same [file_id]. *)
Definition file_ids_unique (d : Db) : Prop := NoDup (map File.file_id (files d)).

(** The store after a download has been charged: the quota count of the
    user for the day read by [incrementAndGetLimit] and the download count
    of the record at position [_id] are one more. *)
Definition charged (env : Env) (userId : jsstring) (_id : nat) (d : Db) : Db :=
  set_files (alter File.inc_downloads _id (files d))
    (set_limits
       (<[(userId, date_on_increment env) := quota d userId (date_on_increment env) + 1]>
          (limits d)) d).

(** A record [f'] continues a record [f]: the same catalog id and file,
    with a download count at least as large. *)
Definition continues (f f' : File.doc) : Prop :=
  File.customId f' = File.customId f /\ File.file_id f' = File.file_id f
  /\ File.downloads f <= File.downloads f'.

(** Download counts never decrease: every record of the catalog after
    continues a record of the catalog before, or is new: it bears an id
    that the counter has issued since, and its count is not negative. *)
Definition downloads_grow : Db -> Db -> list Effect -> Prop :=
  fun d d' _ =>
    file_seq d <= file_seq d'
    /\ forall f', f' ∈ files d' ->
                  (exists f, f ∈ files d /\ continues f f')
                  \/ (exists n, file_seq d < n <= file_seq d'
                                /\ File.customId f' = catalog_id n
                                /\ 0 <= File.downloads f').

(** No file is sent by the computation. *)
Definition sends_no_file : Db -> Db -> list Effect -> Prop :=
  fun _ _ l => attempted l = [].

Definition resolves (r : Reply) : bool :=
  match r with
  | Resolved _ => true
  | Rejected _ => false
  end.

(** The bound on the favorites of every user, and the uniqueness of the
    pairs [(userId, customId)]. *)
Definition favorites_bounded (d : Db) : Prop :=
  forall userId, (favorites_of d userId <= 50)%nat.

Definition favorite_pairs_unique (d : Db) : Prop :=
  NoDup (map (fun f => (Favorite.userId f, Favorite.customId f)) (favorites d)).

(** The sequence number that a catalog id spells: the decimal digits
    after the letter, leading zeros ignored. *)
Definition id_number (id : jsstring) : option Z :=
  match id with
  | [] => None
  | _ :: digits => Z.of_uint <$> NilEmpty.uint_of_string (unstr digits)
  end.

(** The records of the catalog bear ids issued by the counter. *)
Definition ids_issued (d : Db) : Prop :=
  0 <= file_seq d
  /\ Forall (fun f => exists n, 1 <= n <= file_seq d /\ File.customId f = catalog_id n)
       (files d).

(** The ids published along a trace are those of increasing sequence
    numbers, all issued between the counter before and the counter
    after. *)
Definition issues_increasing : Db -> Db -> list Effect -> Prop :=
  fun d d' l =>
    file_seq d <= file_seq d'
    /\ exists ns, published l = map catalog_id ns
                  /\ StronglySorted Z.lt ns
                  /\ Forall (fun n => file_seq d < n <= file_seq d') ns.

(** The record that [CONFIRM:] creates from a pending upload. *)
Definition published_file (env : Env) (customId : jsstring) (p : Pending.doc) : File.doc :=
  {| File.customId := customId;
     File.file_id := Pending.file_id p;
     File.file_name := Pending.file_name p;
     File.type := Pending.type p;
     File.uploader_id := Pending.adminId p;
     File.uploaded_at := now env;
     File.downloads := 0;
     File.file_size := Pending.file_size p;
     File.clean_title := Pending.clean_title p;
     File.attributes := Pending.attributes p |}.

(** The three outcomes of a send of the broadcast loop, and their numbers
    over the users. *)
Definition is_sent (r : Reply) : bool := resolves r.
Definition is_403 (r : Reply) : bool :=
  match r with
  | Rejected (Some statusCode) => statusCode =? 403
  | _ => false
  end.
Definition is_other_failure (r : Reply) : bool := negb (is_sent r) && negb (is_403 r).

Definition outcomes (env : Env) (chatId : Z) (text : option jsstring) (replyMsg : option Z)
    (recipients : list User.doc) : list Reply :=
  map (fun user => telegram env (broadcast_call chatId text replyMsg user)) recipients.

Definition tally (p : Reply -> bool) (rs : list Reply) : Z := Z.of_nat (count_if p rs).


(** ** Further observations *)

(** [words.join(' ')]: the inverse of the tokenization of a title. *)
Fixpoint unwords (words : list jsstring) : jsstring :=
  match words with
  | [] => []
  | [w] => w
  | w :: rest => w ++ Char.space :: unwords rest
  end.

(** The keywords of a search: [text.toLowerCase().split(' ').filter(Boolean)]. *)
Definition search_keywords (env : Env) (text : jsstring) : list jsstring :=
  filter (fun k => truthy (Some k) = true) (split Char.space (toLowerCase env text)).

(** The records that hold every keyword, in the order of the answer:
    [File.find({ attributes: { $all: keywords } }).sort({ uploaded_at: -1 })]. *)
Definition matching (keywords : list jsstring) (d : Db) : list File.doc :=
  Files.sort_recent (List.filter (Files.matches keywords) (files d)).

(** The records shown on a page of results:
    [.skip(page * RESULTS_PER_PAGE_NUM).limit(RESULTS_PER_PAGE_NUM)]. *)
Definition page_of (cfg : Config) (page : Z) (l : list File.doc) : list File.doc :=
  Files.limit (RESULTS_PER_PAGE_NUM cfg) (Files.skip (page * RESULTS_PER_PAGE_NUM cfg) l).

(** The store after [saveUser] has recorded the sender of a message. *)
Definition saved (env : Env) (msg : Message) (d : Db) : Db :=
  set_users
    (upsert_user (String_of_Z (msg_from_id msg)) (msg_first_name msg) (msg_username msg)
       (now env) (users d)) d.

(** A list of records in decreasing order of a key. *)
Definition descending (key : File.doc -> Z) (l : list File.doc) : Prop :=
  StronglySorted (fun a b => key b <= key a) l.

(** The button of a record in a list of results. *)
Definition get_button (f : File.doc) : jsstring := str "GET:" ++ File.customId f.

(** The row of navigation buttons under a page of results, and the
    keyboard of the page. *)
Definition nav_row (page maxPage : Z) : list Button :=
  (if 0 <? page then [CallbackButton LblPrev (str "PAGE:" ++ String_of_Z (page - 1))] else [])
  ++ (if page <? maxPage
      then [CallbackButton LblNext (str "PAGE:" ++ String_of_Z (page + 1))]
      else []).

Definition page_keyboard (cfg : Config) (page : Z) (found : list File.doc) : Keyboard :=
  map (file_button LblFile) (page_of cfg page found)
  ++ match nav_row page (page_count cfg (Z.of_nat (length found)) - 1) with
     | [] => []
     | row => [row]
     end.

(** The message that shows a page of results. *)
Definition page_view (cfg : Config) (q : Query) (page : Z) (found : list File.doc) : Call :=
  editMessageText
    (TxtResultsPage (page + 1) (page_count cfg (Z.of_nat (length found)) - 1 + 1))
    (ChatId (q_chat_id q)) (q_message_id q) (page_keyboard cfg page found).

(** [shown] is the head of a ranking of the catalog by decreasing [key]:
    the ten records of largest key, or all of them when there are fewer. *)
Definition top_ten (key : File.doc -> Z) (d : Db) (shown : list File.doc) : Prop :=
  exists rest,
    shown ++ rest ≡ₚ files d
    /\ descending key (shown ++ rest)
    /\ length shown = Nat.min 10 (length (files d)).

(** No two records of the catalog bear the same catalog id, and no two
    users known to the bot the same user id. *)
Definition customIds_unique (d : Db) : Prop := NoDup (map File.customId (files d)).
Definition users_unique (d : Db) : Prop := NoDup (map User.userId (users d)).

(** The users stay: a user known before is known after, under the same
    id and with the same date of joining. *)
Definition users_stay : Db -> Db -> list Effect -> Prop :=
  fun d d' _ =>
    forall u, u ∈ users d ->
              exists u', u' ∈ users d' /\ User.userId u' = User.userId u
                         /\ User.joinedAt u' = User.joinedAt u.

(** The pending uploads and the records of the catalog come from
    administrators. *)
Definition from_admins (cfg : Config) (d : Db) : Prop :=
  map_Forall (fun _ p => Pending.adminId p ∈ ADMIN_SET cfg) (pendings d)
  /\ Forall (fun f => File.uploader_id f ∈ ADMIN_SET cfg) (files d).

(** The records stay: a record of the catalog before is continued by a
    record of the catalog after. *)
Definition files_stay : Db -> Db -> list Effect -> Prop :=
  fun d d' _ => forall f, f ∈ files d -> exists f', f' ∈ files d' /\ continues f f'.

(** The deletion that the bot schedules when a message has been sent:
    after 60 seconds for a file and for a list of records, after 5
    seconds for the notice of a search without result and after 3 for
    the notice of an unknown id ([autoDeleteMessage] and its callers). *)
Definition deletion_due (c : Call) (message_id : Z) : option Effect :=
  match c with
  | sendVideo chat _ _ _ | sendDocument chat _ _ _ =>
      Some (Timer 60000 (deleteMessage chat message_id))
  | sendMessage chat text _ =>
      match text with
      | TxtRecentUploads | TxtTopTrending | TxtYourFavorites _ | TxtFound _ _ =>
          Some (Timer 60000 (deleteMessage chat message_id))
      | TxtNoResults _ => Some (Timer 5000 (deleteMessage chat message_id))
      | TxtFileNotFound => Some (Timer 3000 (deleteMessage chat message_id))
      | _ => None
      end
  | _ => None
  end.

(** In a trace, each message sent is followed at once by the deletion
    due for it. *)
Fixpoint scheduled (l : list Effect) : Prop :=
  match l with
  | [] => True
  | Called c (Resolved m) :: rest =>
      match deletion_due c m with
      | Some timer => head rest = Some timer
      | None => True
      end /\ scheduled rest
  | _ :: rest => scheduled rest
  end.

(** The same as a relation between the stores of a computation and its
    trace. *)
Definition scheduling : Db -> Db -> list Effect -> Prop := fun _ _ l => scheduled l.

(** No count of the quota ledger is above the daily limit. *)
Definition quota_bounded (cfg : Config) (d : Db) : Prop :=
  forall userId date, quota d userId date <= Z.max 0 (DAILY_LIMIT_NUM cfg).

(** A computation in one environment: [respects], for the properties
    that depend on what the environment answers. *)
Definition respects_at (env : Env) (R : Db -> Db -> list Effect -> Prop) {A} (m : M A)
  : Prop :=
  forall d, R d (store (m env d)) (trace (m env d)).

(** The handler reads the same date when it looks up the count and when
    it increments it: no midnight between the two. *)
Definition same_day (env : Env) : Prop := date_on_peek env = date_on_increment env.

(** [User.findOne({ userId })] *)
Definition find_user (userId : jsstring) (l : list User.doc) : option User.doc :=
  List.find (fun u => jseq (User.userId u) userId) l.

(** ** The configuration and the patterns of the commands *)

(** [new Set(ADMIN_IDS.split(',').map(s => s.trim()).filter(Boolean))] *)
Definition ADMIN_SET_of (ADMIN_IDS : jsstring) : gset jsstring :=
  list_to_set (filter (fun s => truthy (Some s) = true) (map trim (split 44%N ADMIN_IDS))).

(** The code units that [.] does not match: the line terminators. *)
Definition is_line_terminator (c : N) : bool :=
  (c =? 10)%N || (c =? 13)%N || (c =? 8232)%N || (c =? 8233)%N.

(** [(.+)] at the head of a string: the longest prefix without a line
    terminator, when it is not empty. *)
Fixpoint line_prefix (s : jsstring) : jsstring :=
  match s with
  | [] => []
  | c :: t => if is_line_terminator c then [] else c :: line_prefix t
  end.
Definition dot_plus (s : jsstring) : option jsstring :=
  match line_prefix s with
  | [] => None
  | p => Some p
  end.

(** What follows the first occurrence of a literal. *)
Fixpoint after_first (literal s : jsstring) : option jsstring :=
  if startsWith literal s then Some (drop (length literal) s)
  else match s with
       | [] => None
       | _ :: t => after_first literal t
       end.

(** [/\/broadcast(?: (.+))?/.exec(text)]: [None] when the pattern does
    not match, else [match[1]], which is undefined when the optional
    group did not take part. *)
Definition broadcast_match (text : jsstring) : option (option jsstring) :=
  rest ← after_first (str "/broadcast") text;
  Some (match rest with
        | c :: r => if (c =? Char.space)%N then dot_plus r else None
        | [] => None
        end).

(** [/\/delete (.+)/.exec(text)]: [match[1]] of the leftmost match. *)
Fixpoint delete_match (text : jsstring) : option jsstring :=
  match (if startsWith (str "/delete ") text then dot_plus (drop 8 text) else None) with
  | Some arg => Some arg
  | None => match text with
            | [] => None
            | _ :: t => delete_match t
            end
  end.

(** [bot.onText(pattern, handler)]: the handler runs on a text message
    that the pattern matches, with the match. *)
Definition on_text_broadcast (cfg : Config) (msg : Message) : M unit :=
  match msg_text msg ≫= broadcast_match with
  | Some text => on_broadcast cfg msg text
  | None => mret tt
  end.
Definition on_text_delete (cfg : Config) (msg : Message) : M unit :=
  match msg_text msg ≫= delete_match with
  | Some arg => on_delete cfg msg arg
  | None => mret tt
  end.

(** Every count of the quota ledger stands for a download that was
    charged: no document of [Limit] holds a count below one. *)
Definition counts_positive (d : Db) : Prop :=
  map_Forall (fun _ count => 1 <= count) (limits d).

(** The users with a document of [Limit] for a date. *)
Definition active_on (date : jsstring) (d : Db) : nat :=
  size (filter (fun kv : jsstring * jsstring * Z => kv.1.2 = date) (limits d)).

(** A text message of two lines. *)
Definition two_line_message (from : Z) (first second : string) : Message :=
  {| msg_chat_id := from; msg_from_id := from; msg_first_name := str "Ann";
     msg_username := None; msg_message_id := 5;
     msg_text := Some (str first ++ 10%N :: str second);
     msg_caption := None; msg_video := None; msg_document := None;
     msg_reply_to_message := None |}.
(** * Properties *)

(** ** The filename normalizer *)

Example cleanFileName_iron_man :
  cleanFileName (str "Iron.Man.2008.1080p.mkv") = str "Iron Man 2008 1080p".
Proof. vm_compute. reflexivity. Qed.

Example generateAttributes_iron_man (env : Env) :
  generateAttributes env (str "Iron Man 2008 1080p")
  = map str ["iron"; "man"; "2008"; "1080p"]%string.
Proof. vm_compute. reflexivity. Qed.

(** A title beyond ASCII goes through the case mapping of the host. *)
Example generateAttributes_ecole :
  generateAttributes Demo.env (201%N :: str "COLE") = [233%N :: str "cole"].
Proof. vm_compute. reflexivity. Qed.

Example cleanFileName_mention :
  cleanFileName (str "[@MovieHub] The_Matrix (1999).MKV") = str "The Matrix 1999".
Proof. vm_compute. reflexivity. Qed.


Section Normalizer.

Local Ltac bool_crush :=
  repeat match goal with
    | H : _ && _ = true |- _ => apply andb_prop in H; destruct H
    | H : negb _ = true |- _ => apply negb_true_iff in H
    | |- _ && _ = true => apply andb_true_intro; split
    end.

Lemma space_not_word c : Char.is_space c = true -> Char.is_word c = false.
Proof.
  unfold Char.is_space, Char.is_word, Char.is_digit, Char.is_upper, Char.is_lower.
  intros H. repeat (apply orb_prop in H; destruct H as [H|H]);
    bool_crush; repeat match goal with
      | H : (_ <=? _)%N = true |- _ => apply N.leb_le in H
      | H : (_ =? _)%N = true |- _ => apply N.eqb_eq in H
      end;
    repeat (apply orb_false_intro); try apply andb_false_iff;
    try (left; apply N.leb_gt; lia); try (right; apply N.leb_gt; lia);
    try (apply N.eqb_neq; lia).
Qed.

Lemma space_char_facts :
  Char.is_space Char.space = true /\ Char.is_punct Char.space = false
  /\ Char.is_word Char.space = false /\ Char.is_punct Char.dot = true
  /\ Char.is_punct Char.at_sign = false.
Proof. vm_compute. tauto. Qed.

Lemma space_not_punct c : Char.is_space c = true -> Char.is_punct c = false.
Proof.
  intros H. destruct (Char.is_punct c) eqn:E; [|reflexivity].
  unfold Char.is_punct in E. apply existsb_exists in E.
  destruct E as (x & Hin & Hx). apply N.eqb_eq in Hx. subst x.
  vm_compute in Hin.
  repeat (destruct Hin as [Hin|Hin]; [subst c; vm_compute in H; discriminate|]).
  destruct Hin.
Qed.

(** **** What each stage establishes *)

Lemma remove_mentions_head s :
  head_is_word (remove_mentions_from true s) = false.
Proof.
  induction s as [|c t IH]; simpl; [reflexivity|].
  destruct (Char.is_word c) eqn:Hw; simpl; [exact IH|].
  destruct ((c =? Char.at_sign)%N && head_is_word t); [exact IH|].
  simpl. exact Hw.
Qed.

Lemma remove_mentions_free b s :
  mention_free (remove_mentions_from b s) = true.
Proof.
  revert b. induction s as [|c t IH]; intros b; simpl; [reflexivity|].
  destruct (b && Char.is_word c); [apply IH|].
  destruct ((c =? Char.at_sign)%N && head_is_word t) eqn:E; [apply IH|].
  simpl. rewrite IH, andb_true_r. apply negb_true_iff.
  destruct (c =? Char.at_sign)%N eqn:Ec; [|reflexivity]. simpl in *.
  destruct t as [|d t']; simpl in *; [reflexivity|].
  destruct ((d =? Char.at_sign)%N && head_is_word t').
  - apply remove_mentions_head.
  - simpl. exact E.
Qed.

Lemma punct_to_space_no_punct s : no_punct (punct_to_space s) = true.
Proof.
  induction s as [|c t IH]; simpl; [reflexivity|].
  rewrite IH, andb_true_r.
  destruct (Char.is_punct c) eqn:E; [reflexivity|]. now rewrite E.
Qed.

Lemma punct_to_space_head s :
  head_is_word (punct_to_space s) = true -> head_is_word s = true.
Proof.
  destruct s as [|c t]; simpl; [trivial|].
  destruct (Char.is_punct c); [discriminate|trivial].
Qed.

Lemma punct_to_space_free s :
  mention_free s = true -> mention_free (punct_to_space s) = true.
Proof.
  induction s as [|c t IH]; simpl; [trivial|].
  intros H. bool_crush; [|now apply IH].
  apply negb_true_iff.
  destruct (Char.is_punct c) eqn:Ep; [reflexivity|].
  destruct (c =? Char.at_sign)%N; [|reflexivity]. simpl in *.
  destruct (head_is_word (punct_to_space t)) eqn:E; [|reflexivity].
  apply punct_to_space_head in E. congruence.
Qed.

Lemma collapse_spaces_no_punct b s :
  no_punct s = true -> no_punct (collapse_spaces_from b s) = true.
Proof.
  revert b. induction s as [|c t IH]; intros b; simpl; [trivial|].
  intros H. bool_crush.
  destruct (Char.is_space c); [destruct b|]; simpl; rewrite ?IH; auto.
  now rewrite H.
Qed.

Lemma collapse_spaces_head_word s :
  head_is_word (collapse_spaces_from false s) = head_is_word s.
Proof.
  destruct s as [|c t]; simpl; [reflexivity|].
  destruct (Char.is_space c) eqn:E; simpl; [|reflexivity].
  symmetry. now apply space_not_word.
Qed.

Lemma collapse_spaces_free b s :
  mention_free s = true -> mention_free (collapse_spaces_from b s) = true.
Proof.
  revert b. induction s as [|c t IH]; intros b; simpl; [trivial|].
  intros H. bool_crush.
  destruct (Char.is_space c) eqn:E; [destruct b|]; simpl; rewrite ?IH; auto.
  rewrite collapse_spaces_head_word, H. reflexivity.
Qed.

Lemma collapse_spaces_head_space s :
  head_is_space (collapse_spaces_from true s) = false.
Proof.
  induction s as [|c t IH]; simpl; [reflexivity|].
  destruct (Char.is_space c) eqn:E; [exact IH|]. simpl. exact E.
Qed.

Lemma collapse_spaces_single b s :
  single_spaced (collapse_spaces_from b s) = true.
Proof.
  revert b. induction s as [|c t IH]; intros b; simpl; [reflexivity|].
  destruct (Char.is_space c) eqn:E; [destruct b|]; simpl; rewrite ?IH; auto.
  - rewrite collapse_spaces_head_space. reflexivity.
  - rewrite E. reflexivity.
Qed.

(** **** [trim] keeps the normal forms: it returns a factor of its input *)

Lemma trimStart_spec (P : jsstring -> bool) s :
  (forall c t, P (c :: t) = true -> P t = true) ->
  P s = true -> P (trimStart s) = true.
Proof.
  intros Htl. induction s as [|c t IH]; simpl; [trivial|].
  intros H. destruct (Char.is_space c); [|exact H]. apply IH. eapply Htl, H.
Qed.

Lemma trimStart_head s : head_is_space (trimStart s) = false.
Proof.
  induction s as [|c t IH]; simpl; [reflexivity|].
  destruct (Char.is_space c) eqn:E; [exact IH|]. simpl. exact E.
Qed.

Lemma trimEnd_head s : head_is_space s = false -> head_is_space (trimEnd s) = false.
Proof.
  destruct s as [|c t]; simpl; [trivial|]. intros H.
  destruct (trimEnd t); [rewrite H|]; simpl; auto.
Qed.

Lemma trimEnd_head_word s :
  head_is_word (trimEnd s) = true -> head_is_word s = true.
Proof.
  destruct s as [|c t]; simpl; [trivial|].
  destruct (trimEnd t); [destruct (Char.is_space c)|]; simpl; auto; discriminate.
Qed.

Lemma trimEnd_head_space s :
  head_is_space (trimEnd s) = true -> head_is_space s = true.
Proof.
  destruct s as [|c t]; simpl; [trivial|].
  destruct (trimEnd t); [destruct (Char.is_space c) eqn:E|]; simpl; congruence.
Qed.

Lemma trimEnd_no_punct s : no_punct s = true -> no_punct (trimEnd s) = true.
Proof.
  induction s as [|c t IH]; simpl; [trivial|].
  intros H. bool_crush. specialize (IH H0).
  destruct (trimEnd t); [destruct (Char.is_space c)|]; simpl in *; rewrite ?H; auto.
Qed.

Lemma trimEnd_free s : mention_free s = true -> mention_free (trimEnd s) = true.
Proof.
  induction s as [|c t IH]; simpl; [trivial|].
  intros H. bool_crush. specialize (IH H0).
  pose proof (trimEnd_head_word t) as Hh.
  destruct (trimEnd t) as [|d t'].
  - destruct (Char.is_space c); simpl; auto. now rewrite andb_false_r.
  - change (mention_free (c :: d :: t')) with
      (negb ((c =? Char.at_sign)%N && head_is_word (d :: t')) && mention_free (d :: t')).
    rewrite IH, andb_true_r. apply negb_true_iff.
    destruct (c =? Char.at_sign)%N; [|reflexivity]. simpl in H |- *.
    destruct (Char.is_word d) eqn:Ed; [|reflexivity].
    rewrite Hh in H; [discriminate|exact Ed].
Qed.

Lemma trimEnd_single s : single_spaced s = true -> single_spaced (trimEnd s) = true.
Proof.
  induction s as [|c t IH]; simpl; [trivial|].
  intros H. bool_crush. specialize (IH H0).
  pose proof (trimEnd_head_space t) as Hh.
  destruct (trimEnd t) as [|d t'].
  - destruct (Char.is_space c) eqn:E; simpl; auto. rewrite E. reflexivity.
  - change (single_spaced (c :: d :: t')) with
      ((if Char.is_space c
        then (c =? Char.space)%N && negb (head_is_space (d :: t')) else true)
       && single_spaced (d :: t')).
    rewrite IH, andb_true_r.
    destruct (Char.is_space c); [|reflexivity]. bool_crush; [assumption|].
    apply negb_true_iff. destruct (head_is_space (d :: t')) eqn:Ed; [|reflexivity].
    rewrite Hh in H1; [discriminate|reflexivity].
Qed.

(** **** A string in normal form is fixed by every stage *)

Lemma strip_extension_id s : no_punct s = true -> strip_extension s = s.
Proof.
  induction s as [|c t IH]; [reflexivity|].
  intros H. simpl in H. bool_crush.
  change (strip_extension (c :: t)) with
    (if is_dot_extension (c :: t) then [] else c :: strip_extension t).
  assert (is_dot_extension (c :: t) = false) as ->.
  { simpl. destruct (c =? Char.dot)%N eqn:E; [|reflexivity].
    apply N.eqb_eq in E. subst c. vm_compute in H. discriminate. }
  now rewrite IH.
Qed.

Lemma remove_mentions_id s : mention_free s = true -> remove_mentions s = s.
Proof.
  unfold remove_mentions.
  induction s as [|c t IH]; simpl; [reflexivity|].
  intros H. bool_crush. rewrite H. now rewrite IH.
Qed.

Lemma punct_to_space_id s : no_punct s = true -> punct_to_space s = s.
Proof.
  induction s as [|c t IH]; simpl; [reflexivity|].
  intros H. bool_crush. rewrite H. now rewrite IH.
Qed.

Lemma collapse_spaces_id b s :
  single_spaced s = true -> (b = true -> head_is_space s = false) ->
  collapse_spaces_from b s = s.
Proof.
  revert b. induction s as [|c t IH]; intros b; simpl; [reflexivity|].
  intros H Hb. bool_crush.
  destruct (Char.is_space c) eqn:E.
  - destruct b; [specialize (Hb eq_refl); discriminate|].
    bool_crush. apply N.eqb_eq in H. subst c.
    f_equal. apply IH; auto.
  - f_equal. apply IH; auto. discriminate.
Qed.

Lemma trimStart_id s : head_is_space s = false -> trimStart s = s.
Proof. destruct s as [|c t]; simpl; [reflexivity|]. now intros ->. Qed.

Lemma trimEnd_idem s : trimEnd (trimEnd s) = trimEnd s.
Proof.
  induction s as [|c t IH]; simpl; [reflexivity|].
  destruct (trimEnd t) as [|d t'] eqn:E.
  - destruct (Char.is_space c) eqn:Ec; simpl; [reflexivity|]. now rewrite Ec.
  - change (trimEnd (c :: d :: t')) with
      (match trimEnd (d :: t') with
       | [] => if Char.is_space c then [] else [c]
       | u => c :: u
       end).
    rewrite IH. reflexivity.
Qed.

End Normalizer.

(** The result of [cleanFileName] is in normal form. *)
Lemma cleanFileName_normal text :
  let y := cleanFileName text in
  no_punct y = true /\ mention_free y = true /\ single_spaced y = true
  /\ head_is_space y = false /\ trimEnd y = y.
Proof.
  unfold cleanFileName, trim, collapse_spaces, remove_mentions. cbv zeta.
  set (a := remove_mentions_from false (strip_extension text)).
  set (b := collapse_spaces_from false (punct_to_space a)).
  assert (no_punct b = true) as Hp
      by apply collapse_spaces_no_punct, punct_to_space_no_punct.
  assert (mention_free b = true) as Hm
      by apply collapse_spaces_free, punct_to_space_free, remove_mentions_free.
  assert (single_spaced b = true) as Hs by apply collapse_spaces_single.
  repeat split.
  - apply trimEnd_no_punct, trimStart_spec; [|exact Hp].
    intros c t H. simpl in H. now apply andb_prop in H.
  - apply trimEnd_free, trimStart_spec; [|exact Hm].
    intros c t H. simpl in H. now apply andb_prop in H.
  - apply trimEnd_single, trimStart_spec; [|exact Hs].
    intros c t H. simpl in H. now apply andb_prop in H.
  - apply trimEnd_head, trimStart_head.
  - apply trimEnd_idem.
Qed.

(** C8.  The filename normalizer is idempotent: for every input string
    [s], [cleanFileName (cleanFileName s) = cleanFileName s]. *)
Theorem cleanFileName_idempotent (s : jsstring) :
  cleanFileName (cleanFileName s) = cleanFileName s.
Proof.
  destruct (cleanFileName_normal s) as (Hp & Hm & Hs & Hh & He).
  cbv zeta in *. set (y := cleanFileName s) in *.
  unfold cleanFileName at 1. unfold trim, collapse_spaces.
  rewrite (strip_extension_id y Hp), (remove_mentions_id y Hm),
    (punct_to_space_id y Hp).
  rewrite (collapse_spaces_id false y Hs) by discriminate.
  rewrite (trimStart_id y Hh). exact He.
Qed.

(** ** Reasoning on computations *)

Lemma run_bind {A B} (m : M A) (k : A -> M B) env d :
  (m ≫= k) env d =
    match m env d with
    | (Return a, d', l) => let '(r, d'', l') := k a env d' in (r, d'', l ++ l')
    | (Throw e, d', l) => (Throw e, d', l)
    end.
Proof. reflexivity. Qed.

(** Symbolic execution: unfold the plumbing of the monad and the store
    operations, and nothing of the data they carry. *)
Ltac mrun :=
  cbv beta iota zeta delta
    [mbind M_bind bind mret M_ret ret get ask modify emit throw try_catch fire await
     return_call result store trace fst snd negb
     Counter_inc Limit_inc File_create File_inc_downloads File_deleteOne
     Favorite_create Favorite_deleteOne Pending_create Pending_findById Pending_deleteOne
     Pending_ttl_sweep redis_get_isMember redis_set_isMember redis_del_isMember
     redis_get_search redis_set_search nextSequence incrementAndGetLimit
     getUserLimitCount saveUser autoDeleteMessage].

Ltac mrun_in H :=
  cbv beta iota zeta delta
    [mbind M_bind bind mret M_ret ret get ask modify emit throw try_catch fire await
     return_call result store trace fst snd negb
     Counter_inc Limit_inc File_create File_inc_downloads File_deleteOne
     Favorite_create Favorite_deleteOne Pending_create Pending_findById Pending_deleteOne
     Pending_ttl_sweep redis_get_isMember redis_set_isMember redis_del_isMember
     redis_get_search redis_set_search nextSequence incrementAndGetLimit
     getUserLimitCount saveUser autoDeleteMessage] in H.

Section Respects.

Variable R : Db -> Db -> list Effect -> Prop.
Hypothesis R_refl : forall d, R d d [].
Hypothesis R_trans :
  forall d d' d'' l l', R d d' l -> R d' d'' l' -> R d d'' (l ++ l').

Lemma respects_ret {A} (a : A) : respects R (mret a).
Proof. intros env d. apply R_refl. Qed.

Lemma respects_throw {A} e : respects R (@throw A e).
Proof. intros env d. apply R_refl. Qed.

Lemma respects_ask : respects R ask.
Proof. intros env d. apply R_refl. Qed.

Lemma respects_get : respects R get.
Proof. intros env d. apply R_refl. Qed.

Lemma respects_bind {A B} (m : M A) (k : A -> M B) :
  respects R m -> (forall a, respects R (k a)) -> respects R (m ≫= k).
Proof.
  intros Hm Hk env d. rewrite run_bind.
  specialize (Hm env d). destruct (m env d) as [[[a|e] d'] l]; [|exact Hm].
  specialize (Hk a env d'). destruct (k a env d') as [[r d''] l'].
  eapply R_trans; eauto.
Qed.

Lemma respects_try_catch {A} (m : M A) (h : Error -> M A) :
  respects R m -> (forall e, respects R (h e)) -> respects R (try_catch m h).
Proof.
  intros Hm Hh env d. unfold try_catch.
  specialize (Hm env d). destruct (m env d) as [[[a|e] d'] l]; [exact Hm|].
  specialize (Hh e env d'). destruct (h e env d') as [[r d''] l'].
  destruct e; try exact Hm; eapply R_trans; eauto.
Qed.

Lemma respects_modify f : (forall d, R d (f d) []) -> respects R (modify f).
Proof. intros H env d. apply H. Qed.

Lemma respects_emit e : (forall d, R d d [e]) -> respects R (emit e).
Proof. intros H env d. apply H. Qed.

Lemma respects_await c : (forall d r, R d d [Called c r]) -> respects R (await c).
Proof.
  intros H env d. unfold await. destruct (telegram env c); apply H.
Qed.

Lemma respects_fire c : (forall d r, R d d [Called c r]) -> respects R (fire c).
Proof. intros H env d. apply H. Qed.

Lemma respects_return_call c :
  (forall d r, R d d [Called c r]) -> respects R (return_call c).
Proof. intros H env d. apply H. Qed.

(** The broadcast loop respects a relation that its sends and its
    pauses respect. *)
Lemma respects_broadcast_loop chatId text replyMsg recipients success blocked :
  (forall u message_id d r,
      R d d [Called (copyMessage (ChatStr u) (ChatId chatId) message_id) r]) ->
  (forall u t d r, R d d [Called (sendMessage (ChatStr u) (TxtLiteral t) []) r]) ->
  (forall d, R d d [Sleep 50]) ->
  respects R (broadcast_loop chatId text replyMsg recipients success blocked).
Proof.
  intros Hcopy Hsend Hsleep. revert success blocked.
  induction recipients as [|user rest IH]; intros success blocked; simpl.
  - apply respects_ret.
  - apply respects_bind; [| intros tallies; apply respects_bind;
                             [apply respects_emit, Hsleep | intros _; apply IH]].
    apply respects_try_catch.
    + apply respects_bind; [|intros _; apply respects_ret].
      unfold broadcast_call. destruct replyMsg; apply respects_await; auto.
    + intros err. destruct (is_blocked err); apply respects_ret.
Qed.

(** A relation respected by every handler holds along every run. *)
Lemma respects_run cfg :
  (forall ev, respects R (handler cfg ev)) ->
  forall evs d, R d (run cfg evs d).1 (run cfg evs d).2.
Proof.
  intros H evs. induction evs as [|[env ev] rest IH]; intros d; simpl.
  - apply R_refl.
  - unfold step. specialize (H ev env d). unfold store, trace in H.
    destruct (handler cfg ev env d) as [[r d'] l]. simpl in H.
    specialize (IH d'). destruct (run cfg rest d') as [d'' l']. simpl in *.
    eapply R_trans; eauto.
Qed.

End Respects.

Create HintDb bot discriminated.

#[local] Hint Unfold
  Counter_inc Limit_inc File_create File_inc_downloads File_deleteOne
  Favorite_create Favorite_deleteOne Pending_create Pending_findById Pending_deleteOne
  Pending_ttl_sweep redis_get_isMember redis_set_isMember redis_del_isMember
  redis_get_search redis_set_search nextSequence incrementAndGetLimit
  getUserLimitCount saveUser autoDeleteMessage send_file verifyJoin
  confirm cancel download paginate toggle_favorite dispatch callback_error
  on_message on_callback_query on_start on_help on_stats on_broadcast show_files
  on_recent on_trending on_favorites on_myaccount on_delete : bot.

(** One step of the proof that a computation respects a relation:
    [known] applies what is already proved of a part, else the computation
    is decomposed along its syntax; [pre] proves that the relation is
    reflexive and transitive, [leaf] settles the updates of the store and
    the effects. *)
Ltac respects_step known pre leaf :=
  first
    [ known
    | lazymatch goal with
      | |- respects _ (mret _) => apply respects_ret; pre
      | |- respects _ (throw _) => apply respects_throw; pre
      | |- respects _ ask => apply respects_ask; pre
      | |- respects _ get => apply respects_get; pre
      | |- respects _ (_ ≫= _) => apply respects_bind; [pre| |intros ?]
      | |- respects _ (try_catch _ _) => apply respects_try_catch; [pre| |intros ?]
      | |- respects _ (modify _) => apply respects_modify; intros ?; leaf
      | |- respects _ (emit _) => apply respects_emit; intros ?; leaf
      | |- respects _ (await _) => apply respects_await; intros ? ?; leaf
      | |- respects _ (fire _) => apply respects_fire; intros ? ?; leaf
      | |- respects _ (return_call _) => apply respects_return_call; intros ? ?; leaf
      | |- respects _ (if ?b then _ else _) => destruct b
      | |- respects _ (match ?x with _ => _ end) => destruct x
      | |- respects _ (let _ := _ in _) => cbv zeta
      | |- respects _ _ => progress autounfold with bot
      end ].

Ltac respects_auto known pre leaf := repeat respects_step known pre leaf.

Lemma keeps_refl {X} (proj : Db -> X) d : keeps proj d d [].
Proof. reflexivity. Qed.

Lemma keeps_trans {X} (proj : Db -> X) d d' d'' l l' :
  keeps proj d d' l -> keeps proj d' d'' l' -> keeps proj d d'' (l ++ l').
Proof. unfold keeps. congruence. Qed.

Ltac keeps_pre := first [exact (keeps_refl _) | exact (keeps_trans _)].
Ltac keeps_auto := respects_auto fail keeps_pre ltac:(reflexivity).

Lemma ledgers_eq d d' :
  ledgers d' = ledgers d ->
  files d' = files d /\ counters d' = counters d /\ limits d' = limits d
  /\ favorites d' = favorites d /\ pendings d' = pendings d.
Proof. unfold ledgers. intros H. inversion H. auto. Qed.

(** The membership gate writes to the cache only. *)
Lemma verifyJoin_keeps cfg chatId userId :
  respects (keeps (fun d => (users d, ledgers d, search d))) (verifyJoin cfg chatId userId).
Proof.
  unfold verifyJoin. keeps_auto.
Qed.

Lemma verifyJoin_frame cfg chatId userId env d :
  let gate := verifyJoin cfg chatId userId env d in
  users (store gate) = users d /\ ledgers (store gate) = ledgers d
  /\ search (store gate) = search d.
Proof.
  pose proof (verifyJoin_keeps cfg chatId userId env d) as H. unfold keeps in H.
  cbv zeta. split; [|split].
  - exact (f_equal (fun t => t.1.1) H).
  - exact (f_equal (fun t => t.1.2) H).
  - exact (f_equal (fun t => t.2) H).
Qed.

(** ** The membership gate *)

Section Gate.

Variables (cfg : Config) (env : Env) (chatId : Z) (userId : jsstring) (d : Db).

Let out := verifyJoin cfg chatId userId env d.
Let channel := default [] (FORCE_CHANNEL_ID cfg).
Let cached := live (now env) (isMember d !! userId).

Lemma verifyJoin_admin : is_admin cfg userId = true -> out = (Return true, d, []).
Proof.
  intros H. unfold out, verifyJoin. rewrite H.
  destruct (truthy (FORCE_CHANNEL_ID cfg)); reflexivity.
Qed.

Lemma verifyJoin_disabled :
  truthy (FORCE_CHANNEL_ID cfg) = false -> out = (Return true, d, []).
Proof. intros H. unfold out, verifyJoin. rewrite H. reflexivity. Qed.

Hypothesis enabled : truthy (FORCE_CHANNEL_ID cfg) = true.
Hypothesis not_admin : is_admin cfg userId = false.

Lemma verifyJoin_hit :
  truthy cached = true ->
  out = (Return (jseq (default [] cached) (str "true")), d, []).
Proof.
  intros H. unfold out, verifyJoin. rewrite enabled, not_admin. mrun.
  fold cached. rewrite H. reflexivity.
Qed.

Hypothesis miss : truthy cached = false.

Lemma verifyJoin_miss :
  out =
    match chatMemberStatus env channel userId with
    | None =>
        (Return true, d, [ConsoleError (str "Force Join Error:")])
    | Some status =>
        let verdict := existsb (jseq status) member_statuses in
        let d' :=
          set_isMember
            (<[userId := (String_of_bool verdict,
                          now env + (if verdict then 300 else 60) * 1000)]>
               (isMember d)) d in
        if verdict then (Return true, d', [])
        else
          match telegram env (join_prompt cfg env chatId) with
          | Resolved id =>
              (Return false, d', [Called (join_prompt cfg env chatId) (Resolved id)])
          | Rejected code =>
              (Return true, d',
               [Called (join_prompt cfg env chatId) (Rejected code);
                ConsoleError (str "Force Join Error:")])
          end
    end.
Proof.
  unfold out, verifyJoin. rewrite enabled, not_admin. mrun.
  fold cached. rewrite miss. fold channel.
  destruct (chatMemberStatus env channel userId) as [status|]; [|reflexivity].
  generalize (existsb (jseq status) member_statuses). intros verdict.
  destruct verdict; [reflexivity|]. mrun.
  destruct (telegram env (join_prompt cfg env chatId)); reflexivity.
Qed.

End Gate.

(** C7, the claim as stated, fails on a fresh non-member verdict when the
    join prompt cannot be sent: the rejection of [sendMessage] is caught by
    the handler that surrounds the membership query, and the gate lets the
    user pass. *)
Lemma verifyJoin_nonmember_not_always_refused :
  ~ (let env := Demo.env_left_offline in
     let out := verifyJoin Demo.cfg 2 (str "2") env empty_db in
     truthy (live (now env) (isMember empty_db !! str "2")) = false ->
     chatMemberStatus env (str "@movies") (str "2") = Some (str "left") ->
     existsb (jseq (str "left")) member_statuses = false ->
     result out = Return false).
Proof.
  intros H. specialize (H eq_refl eq_refl eq_refl).
  vm_compute in H. discriminate H.
Qed.

(** C7 (amended).  [verifyJoin] returns [true] whenever the caller is an
    administrator, whenever no channel is configured, and whenever the
    membership query is rejected; on a cache hit it returns the cached
    verdict; on a fresh member verdict it returns [true]; on a fresh
    non-member verdict it returns [false] if the join prompt is sent, and
    [true] if sending the prompt is rejected. *)
Theorem verifyJoin_verdict (cfg : Config) (env : Env) (chatId : Z) (userId : jsstring)
    (d : Db) :
  let out := verifyJoin cfg chatId userId env d in
  let cached := live (now env) (isMember d !! userId) in
  let status := chatMemberStatus env (default [] (FORCE_CHANNEL_ID cfg)) userId in
  (is_admin cfg userId = true -> result out = Return true) /\
  (truthy (FORCE_CHANNEL_ID cfg) = false -> result out = Return true) /\
  (truthy (FORCE_CHANNEL_ID cfg) = true -> is_admin cfg userId = false ->
   (truthy cached = true ->
    result out = Return (jseq (default [] cached) (str "true"))) /\
   (truthy cached = false ->
    (status = None -> result out = Return true) /\
    (forall s, status = Some s -> existsb (jseq s) member_statuses = true ->
               result out = Return true) /\
    (forall s, status = Some s -> existsb (jseq s) member_statuses = false ->
               result out =
                 Return (match telegram env (join_prompt cfg env chatId) with
                         | Resolved _ => false
                         | Rejected _ => true
                         end)))).
Proof.
  cbv zeta. split; [|split].
  - intros H. now rewrite verifyJoin_admin.
  - intros H. now rewrite verifyJoin_disabled.
  - intros He Ha. split.
    + intros Hc. now rewrite verifyJoin_hit.
    + intros Hc. rewrite (verifyJoin_miss cfg env chatId userId d He Ha Hc).
      split; [|split].
      * intros ->. reflexivity.
      * intros s -> Hs. cbv zeta. rewrite Hs. reflexivity.
      * intros s -> Hs. cbv zeta. rewrite Hs.
        destruct (telegram env (join_prompt cfg env chatId)); reflexivity.
Qed.

(** The cases of [verifyJoin_verdict] on the demonstration deployment: an
    administrator, a deployment without channel, a cached verdict, a
    rejected query, a member, a non-member who receives the prompt and a
    non-member who cannot be reached. *)
Lemma verifyJoin_verdict_witness :
  result (verifyJoin Demo.cfg 1 (str "1") Demo.env_left empty_db) = Return true
  /\ result (verifyJoin Demo.cfg_open 2 (str "2") Demo.env_left empty_db) = Return true
  /\ result (verifyJoin Demo.cfg 2 (str "2") Demo.env Demo.cached_false) = Return false
  /\ result (verifyJoin Demo.cfg 2 (str "2") Demo.env_blind empty_db) = Return true
  /\ result (verifyJoin Demo.cfg 2 (str "2") Demo.env empty_db) = Return true
  /\ result (verifyJoin Demo.cfg 2 (str "2") Demo.env_left empty_db) = Return false
  /\ result (verifyJoin Demo.cfg 2 (str "2") Demo.env_left_offline empty_db) = Return true.
Proof.
  split.
  { destruct (verifyJoin_verdict Demo.cfg Demo.env_left 1 (str "1") empty_db)
      as (H & _). apply H. vm_compute. reflexivity. }
  split.
  { destruct (verifyJoin_verdict Demo.cfg_open Demo.env_left 2 (str "2") empty_db)
      as (_ & H & _). apply H. reflexivity. }
  split.
  { destruct (verifyJoin_verdict Demo.cfg Demo.env 2 (str "2") Demo.cached_false)
      as (_ & _ & H). destruct H as (H & _); [reflexivity|vm_compute; reflexivity|].
    apply H. vm_compute. reflexivity. }
  split.
  { destruct (verifyJoin_verdict Demo.cfg Demo.env_blind 2 (str "2") empty_db)
      as (_ & _ & H). destruct H as (_ & H); [reflexivity|vm_compute; reflexivity|].
    destruct H as (H & _); [vm_compute; reflexivity|]. apply H. reflexivity. }
  split.
  { destruct (verifyJoin_verdict Demo.cfg Demo.env 2 (str "2") empty_db)
      as (_ & _ & H). destruct H as (_ & H); [reflexivity|vm_compute; reflexivity|].
    destruct H as (_ & H & _); [vm_compute; reflexivity|].
    apply (H (str "member")); vm_compute; reflexivity. }
  split.
  { destruct (verifyJoin_verdict Demo.cfg Demo.env_left 2 (str "2") empty_db)
      as (_ & _ & H). destruct H as (_ & H); [reflexivity|vm_compute; reflexivity|].
    destruct H as (_ & _ & H); [vm_compute; reflexivity|].
    apply (H (str "left")); vm_compute; reflexivity. }
  destruct (verifyJoin_verdict Demo.cfg Demo.env_left_offline 2 (str "2") empty_db)
    as (_ & _ & H). destruct H as (_ & H); [reflexivity|vm_compute; reflexivity|].
  destruct H as (_ & _ & H); [vm_compute; reflexivity|].
  apply (H (str "left")); vm_compute; reflexivity.
Defined.

(** ** The callback handler behind the gate *)

Lemma startsWith_app p s : startsWith p s = true -> exists r, s = p ++ r.
Proof.
  revert s. induction p as [|a p IH]; intros s H; simpl in H.
  - now exists s.
  - destruct s as [|b s]; [discriminate|].
    apply andb_prop in H. destruct H as [Hab Hp].
    apply N.eqb_eq in Hab. subst b.
    destruct (IH s Hp) as [r ->]. now exists r.
Qed.

(** An action other than [CHECK_JOIN] whose sender passes the gate runs
    the [try] block on the store the gate leaves. *)
Lemma on_callback_query_passed cfg q env d :
  let gate := verifyJoin cfg (q_chat_id q) (String_of_Z (q_from_id q)) env d in
  jseq (q_data q) (str "CHECK_JOIN") = false ->
  result gate = Return true ->
  on_callback_query cfg q env d =
    let '(r, d', l) := try_catch (dispatch cfg q) (callback_error q) env (store gate) in
    (r, d', trace gate ++ l).
Proof.
  cbv zeta. intros Hd Hg. unfold on_callback_query. rewrite Hd. rewrite run_bind.
  destruct (verifyJoin cfg (q_chat_id q) (String_of_Z (q_from_id q)) env d)
    as [[r d1] l1].
  unfold result, store, trace in *. simpl in *. subst r. reflexivity.
Qed.

(** A sender refused by the gate gets the alert and nothing else. *)
Lemma on_callback_query_refused cfg q env d :
  let gate := verifyJoin cfg (q_chat_id q) (String_of_Z (q_from_id q)) env d in
  jseq (q_data q) (str "CHECK_JOIN") = false ->
  result gate = Return false ->
  on_callback_query cfg q env d =
    (settled (telegram env (answerCallbackQuery (q_id q) TxtMustJoinFirst true)),
     store gate,
     trace gate ++ [Called (answerCallbackQuery (q_id q) TxtMustJoinFirst true)
                      (telegram env (answerCallbackQuery (q_id q) TxtMustJoinFirst true))]).
Proof.
  cbv zeta. intros Hd Hg. unfold on_callback_query. rewrite Hd. rewrite run_bind.
  destruct (verifyJoin cfg (q_chat_id q) (String_of_Z (q_from_id q)) env d)
    as [[r d1] l1].
  unfold result, store, trace in *. simpl in *. subst r. reflexivity.
Qed.

(** The gate never throws. *)
Lemma verifyJoin_returns cfg chatId userId env d :
  exists b, result (verifyJoin cfg chatId userId env d) = Return b.
Proof.
  destruct (truthy (FORCE_CHANNEL_ID cfg)) eqn:He;
    [|rewrite verifyJoin_disabled by assumption; eauto].
  destruct (is_admin cfg userId) eqn:Ha;
    [rewrite verifyJoin_admin by assumption; eauto|].
  destruct (truthy (live (now env) (isMember d !! userId))) eqn:Hc;
    [rewrite verifyJoin_hit by assumption; eauto|].
  rewrite verifyJoin_miss by assumption.
  destruct (chatMemberStatus env _ userId); [|eauto]. cbv zeta.
  destruct (existsb _ member_statuses); [eauto|].
  destruct (telegram env _); eauto.
Qed.

Lemma data_not_check_join prefix data :
  startsWith (str prefix) data = true ->
  startsWith (str prefix) (str "CHECK_JOIN") = false ->
  jseq data (str "CHECK_JOIN") = false.
Proof.
  intros H Hn. unfold jseq. apply bool_decide_eq_false. intros ->. congruence.
Qed.

(** ** The moderation workflow *)

(** [CONFIRM:] of a pending upload whose file is in the catalog already. *)
Lemma confirm_duplicate q env d p :
  pendings d !! field1 (q_data q) = Some p ->
  Files.exists_file_id (Pending.file_id p) (files d) = true ->
  confirm q env d =
    (settled (telegram env (editMessageText TxtFileAlreadyExists (ChatId (q_chat_id q))
                              (q_message_id q) [])),
     set_pendings (delete (field1 (q_data q)) (pendings d)) d,
     [Called (editMessageText TxtFileAlreadyExists (ChatId (q_chat_id q)) (q_message_id q) [])
        (telegram env (editMessageText TxtFileAlreadyExists (ChatId (q_chat_id q))
                         (q_message_id q) []))]).
Proof.
  intros Hp Hdup. unfold confirm. mrun. rewrite Hp. cbv beta iota. rewrite Hdup.
  cbv beta iota. rewrite Hp. reflexivity.
Qed.

(** [CONFIRM:] of an identifier that names no pending upload. *)
Lemma confirm_absent q env d :
  pendings d !! field1 (q_data q) = None ->
  confirm q env d =
    if isObjectId env (field1 (q_data q))
    then (settled (telegram env (answerCallbackQuery (q_id q) TxtExpired false)), d,
          [Called (answerCallbackQuery (q_id q) TxtExpired false)
             (telegram env (answerCallbackQuery (q_id q) TxtExpired false))])
    else (Throw CastError, d, []).
Proof.
  intros Hp. unfold confirm. mrun. rewrite Hp.
  destruct (isObjectId env _); reflexivity.
Qed.

Lemma preserves_refl I d : preserves I d d [].
Proof. intros H. exact H. Qed.

Lemma preserves_trans I d d' d'' l l' :
  preserves I d d' l -> preserves I d' d'' l' -> preserves I d d'' (l ++ l').
Proof. unfold preserves. auto. Qed.

Ltac preserves_pre := first [exact (preserves_refl _) | exact (preserves_trans _)].

(** Every handler respects a relation [R]: by cases on the event, with
    the broadcast loop handled by its own lemma. *)
Ltac handlers_respect known pre leaf :=
  let ev := fresh "ev" in
  intros ev; destruct ev; unfold handler;
  respects_auto
    ltac:(first [ known
                | apply respects_broadcast_loop; [pre|pre|intros; leaf..] ])
    pre leaf.

(** *** Uniqueness of [file_id] in the catalog *)

Lemma existsb_has_file_id fid l :
  existsb (Files.has_file_id fid) l = false -> fid ∉ map File.file_id l.
Proof.
  induction l as [|f l IH]; simpl; intros H Hin.
  - inversion Hin.
  - apply orb_false_elim in H. destruct H as [Hf Hl].
    apply elem_of_cons in Hin. destruct Hin as [->|Hin]; [|now apply IH].
    unfold Files.has_file_id, jseq in Hf. apply bool_decide_eq_false in Hf. now apply Hf.
Qed.

Lemma map_alter_inc_downloads {X} (proj : File.doc -> X) i l :
  (forall f, proj (File.inc_downloads f) = proj f) ->
  map proj (alter File.inc_downloads i l) = map proj l.
Proof.
  intros H. revert i. induction l as [|f l IH]; intros [|i]; simpl; try reflexivity.
  - now rewrite H.
  - f_equal. apply IH.
Qed.

Lemma remove_first_sublist {A} (p : A -> bool) l : sublist (remove_first p l) l.
Proof.
  induction l as [|x l IH]; simpl; [constructor|].
  destruct (p x); [now apply sublist_cons|now apply sublist_skip].
Qed.

Lemma file_ids_unique_create f : respects (preserves file_ids_unique) (File_create f).
Proof.
  intros env d. unfold File_create. mrun.
  destruct (existsb (Files.has_customId (File.customId f)) (files d)
            || existsb (Files.has_file_id (File.file_id f)) (files d)) eqn:E;
    [apply preserves_refl|].
  apply orb_false_elim in E. destruct E as [_ E].
  unfold preserves, file_ids_unique. simpl. intros H.
  rewrite map_app. apply NoDup_app. repeat split; [exact H| |apply NoDup_singleton].
  intros x Hx Hin. apply list_elem_of_singleton in Hin. simpl in Hin. subst x.
  revert Hx. now apply existsb_has_file_id.
Qed.

Lemma file_ids_unique_inc i : respects (preserves file_ids_unique) (File_inc_downloads i).
Proof.
  intros env d. unfold preserves, file_ids_unique. simpl.
  now rewrite map_alter_inc_downloads.
Qed.

Lemma file_ids_unique_delete cid : respects (preserves file_ids_unique) (File_deleteOne cid).
Proof.
  intros env d. unfold File_deleteOne. mrun.
  destruct (existsb (Files.has_customId cid) (files d)); [|apply preserves_refl].
  unfold preserves, file_ids_unique. simpl. intros H.
  eapply sublist_NoDup; [exact H|]. apply (fmap_sublist File.file_id), remove_first_sublist.
Qed.

(** The catalog never holds two records of the same [file_id]. *)
Lemma file_ids_unique_handler cfg ev :
  respects (preserves file_ids_unique) (handler cfg ev).
Proof.
  revert ev.
  handlers_respect
    ltac:(first [ apply file_ids_unique_create | apply file_ids_unique_inc
                | apply file_ids_unique_delete ])
    preserves_pre
    ltac:(exact (fun H => H)).
Qed.

Lemma file_ids_unique_run cfg evs : file_ids_unique (run cfg evs empty_db).1.
Proof.
  apply (respects_run _ (preserves_refl _) (preserves_trans _) cfg
           (file_ids_unique_handler cfg) evs empty_db).
  constructor.
Qed.

(** C1.  A [CONFIRM:] of a pending upload whose [file_id] is in the
    catalog already, by a sender who passes the membership gate, is
    rejected with the notice "File already exists": the catalog and the
    sequence counter are left as they were, the pending entry is deleted,
    nothing is published; and along every run of the bot from the empty
    store the catalog never holds two records of the same [file_id]. *)
Theorem confirm_of_duplicate_is_rejected (cfg : Config) (env : Env) (q : Query) (d : Db)
    (p : Pending.doc) :
  let gate := verifyJoin cfg (q_chat_id q) (String_of_Z (q_from_id q)) env d in
  let out := on_callback_query cfg q env d in
  let notice :=
    editMessageText TxtFileAlreadyExists (ChatId (q_chat_id q)) (q_message_id q) [] in
  startsWith (str "CONFIRM:") (q_data q) = true ->
  result gate = Return true ->
  pendings d !! field1 (q_data q) = Some p ->
  Files.exists_file_id (Pending.file_id p) (files d) = true ->
  (files (store out) = files d
   /\ counters (store out) = counters d
   /\ pendings (store out) = delete (field1 (q_data q)) (pendings d)
   /\ trace out = trace gate ++ [Called notice (telegram env notice)]
   /\ published (trace out) = published (trace gate))
  /\ (forall evs, file_ids_unique (run cfg evs empty_db).1).
Proof.
  cbv zeta. intros Hdata Hgate Hp Hdup.
  split; [|apply file_ids_unique_run].
  destruct (verifyJoin_frame cfg (q_chat_id q) (String_of_Z (q_from_id q)) env d)
    as (_ & Hk & _).
  destruct (ledgers_eq _ _ Hk) as (Hf & Hc & _ & _ & Hpe). clear Hk.
  rewrite on_callback_query_passed;
    [|eapply data_not_check_join; [exact Hdata|reflexivity]|exact Hgate].
  set (gate := verifyJoin cfg (q_chat_id q) (String_of_Z (q_from_id q)) env d) in *.
  unfold try_catch, dispatch. cbv zeta. rewrite Hdata.
  rewrite (confirm_duplicate q env (store gate) p) by (rewrite ?Hpe, ?Hf; assumption).
  destruct (telegram env _); unfold store, trace; simpl; unfold store in *;
    rewrite Hpe; (repeat split; try assumption);
    unfold published; rewrite flat_map_app; simpl; apply app_nil_r.
Qed.

(** The administrator confirms a second upload of the file of [F0001]. *)
Lemma confirm_of_duplicate_is_rejected_witness :
  let out :=
    on_callback_query Demo.cfg (Demo.press 1 "CONFIRM:665f1c2ab7e4a90012345678")
      Demo.env Demo.resubmitted in
  files (store out) = [Demo.iron_man]
  /\ pendings (store out) = delete (str "665f1c2ab7e4a90012345678") (pendings Demo.resubmitted)
  /\ notices (trace out) = [TxtFileAlreadyExists].
Proof.
  destruct (confirm_of_duplicate_is_rejected Demo.cfg Demo.env
              (Demo.press 1 "CONFIRM:665f1c2ab7e4a90012345678") Demo.resubmitted
              Demo.pending_iron_man) as [(Hf & _ & Hp & Ht & _) _];
    [reflexivity | reflexivity | reflexivity | reflexivity |].
  cbv zeta. rewrite Hf, Hp, Ht. repeat split.
Defined.

(** *** Who may act on a pending upload *)

(** A message of a sender who is not an administrator creates no pending
    upload: the check of [ADMIN_SET] comes before [Pending.create]. *)
Lemma upload_requires_admin cfg msg :
  is_admin cfg (String_of_Z (msg_from_id msg)) = false ->
  respects (keeps (fun d => (pendings d, counters d, map File.customId (files d))))
    (on_message cfg msg).
Proof.
  intros Ha. unfold on_message. rewrite Ha.
  assert (forall i, respects
                      (keeps (fun d => (pendings d, counters d, map File.customId (files d))))
                      (File_inc_downloads i)) as Hinc.
  { intros i env d. unfold keeps. simpl.
    now rewrite map_alter_inc_downloads. }
  respects_auto ltac:(apply Hinc) keeps_pre ltac:(reflexivity).
Qed.

(** C2, the code at the failing input.  The user 2 is not an
    administrator and did not submit the pending upload; the [CONFIRM:]
    and [CANCEL:] branches compare the sender neither with [ADMIN_SET] nor
    with [pending.adminId], so the [CONFIRM:] of user 2 publishes the file
    and the [CANCEL:] of user 2 discards the pending upload. *)
Theorem confirm_by_non_admin_publishes :
  let id := "665f1c2ab7e4a90012345678"%string in
  let confirmed :=
    on_callback_query Demo.cfg (Demo.press 2 ("CONFIRM:" ++ id)) Demo.env Demo.submitted in
  let cancelled :=
    on_callback_query Demo.cfg (Demo.press 2 ("CANCEL:" ++ id)) Demo.env Demo.submitted in
  is_admin Demo.cfg (String_of_Z 2) = false
  /\ Pending.adminId <$> (pendings Demo.submitted !! str id) = Some (str "1")
  /\ files Demo.submitted = []
  /\ files (store confirmed) = [Demo.iron_man]
  /\ pendings (store confirmed) !! str id = None
  /\ published (trace confirmed) = [str "F0001"]
  /\ pendings (store cancelled) !! str id = None
  /\ notices (trace cancelled) = [TxtCancelled].
Proof. vm_compute. repeat split. Qed.

(** ** Downloads and the quota ledger *)

(** The tail of both download paths: charge, then deliver. *)
Lemma charge_and_send_run userId _id chatId file env d :
  (incrementAndGetLimit userId;; File_inc_downloads _id;; send_file chatId file) env d =
    match telegram env (file_call chatId file) with
    | Resolved m =>
        (Return tt, charged env userId _id d,
         [Called (file_call chatId file) (Resolved m);
          Timer 60000 (deleteMessage (ChatId chatId) m)])
    | Rejected s =>
        (Throw (TelegramError s), charged env userId _id d,
         [Called (file_call chatId file) (Rejected s)])
    end.
Proof.
  unfold send_file. mrun.
  destruct (telegram env (file_call chatId file)); reflexivity.
Qed.

(** The branch [GET:<customId>]. *)
Lemma download_run cfg q env d :
  let userId := String_of_Z (q_from_id q) in
  let answer text alert := answerCallbackQuery (q_id q) text alert in
  download cfg q env d =
    match Files.findOne (field1 (q_data q)) (files d) with
    | None =>
        (settled (telegram env (answer TxtFileNotFoundDeleted false)), d,
         [Called (answer TxtFileNotFoundDeleted false)
            (telegram env (answer TxtFileNotFoundDeleted false))])
    | Some (_id, file) =>
        if DAILY_LIMIT_NUM cfg <=? quota d userId (date_on_peek env)
        then (settled (telegram env (answer TxtDailyLimitExceeded true)), d,
              [Called (answer TxtDailyLimitExceeded true)
                 (telegram env (answer TxtDailyLimitExceeded true))])
        else
          match telegram env (answer TxtSendingFile false) with
          | Rejected s =>
              (Throw (TelegramError s), d, [Called (answer TxtSendingFile false) (Rejected s)])
          | Resolved a =>
              match telegram env (file_call (q_chat_id q) file) with
              | Resolved m =>
                  (Return tt, charged env userId _id d,
                   [Called (answer TxtSendingFile false) (Resolved a);
                    Called (file_call (q_chat_id q) file) (Resolved m);
                    Timer 60000 (deleteMessage (ChatId (q_chat_id q)) m)])
              | Rejected s =>
                  (Throw (TelegramError s), charged env userId _id d,
                   [Called (answer TxtSendingFile false) (Resolved a);
                    Called (file_call (q_chat_id q) file) (Rejected s)])
              end
          end
    end.
Proof.
  cbv zeta. unfold download, send_file. mrun.
  destruct (Files.findOne (field1 (q_data q)) (files d)) as [[i file]|]; [|reflexivity].
  fold (quota d (String_of_Z (q_from_id q)) (date_on_peek env)).
  destruct (DAILY_LIMIT_NUM cfg <=? quota d (String_of_Z (q_from_id q)) (date_on_peek env));
    [reflexivity|].
  destruct (telegram env (answerCallbackQuery (q_id q) TxtSendingFile false));
    [|reflexivity].
  destruct (telegram env (file_call (q_chat_id q) file)); reflexivity.
Qed.

Lemma is_catalog_id_text t :
  is_catalog_id t = true -> truthy (Some t) = true /\ startsWith (str "/") t = false.
Proof.
  destruct t as [|f digits]; [discriminate|]. intros H.
  split; [reflexivity|].
  change (startsWith (str "/") (f :: digits)) with ((47 =? f)%N && true).
  rewrite andb_true_r. apply N.eqb_neq. intros <-.
  vm_compute in H. discriminate.
Qed.

(** The gate neither reads nor writes the [User] collection. *)
Lemma verifyJoin_set_users cfg chatId userId env v d :
  verifyJoin cfg chatId userId env (set_users v d) =
    let '(r, d', l) := verifyJoin cfg chatId userId env d in (r, set_users v d', l).
Proof.
  unfold verifyJoin.
  destruct (negb (truthy (FORCE_CHANNEL_ID cfg))); [reflexivity|].
  destruct (is_admin cfg userId); [reflexivity|]. mrun. cbn [isMember set_users].
  destruct (truthy (live (now env) (isMember d !! userId))); [reflexivity|].
  destruct (chatMemberStatus env (default [] (FORCE_CHANNEL_ID cfg)) userId);
    [|reflexivity].
  destruct (existsb (jseq l) member_statuses); [reflexivity|]. mrun.
  destruct (telegram env (join_prompt cfg env chatId)); reflexivity.
Qed.

(** The branch "search by id" of the message handler: a text message
    whose trimmed text is a catalog id. *)
Lemma typed_id_run cfg msg env d t :
  let chatId := msg_chat_id msg in
  let userId := String_of_Z (msg_from_id msg) in
  let saved :=
    set_users (upsert_user userId (msg_first_name msg) (msg_username msg) (now env) (users d)) in
  let gate := verifyJoin cfg chatId userId env d in
  let d1 := saved (store gate) in
  let send text := sendMessage (ChatId chatId) text [] in
  msg_video msg = None -> msg_document msg = None ->
  trim <$> msg_text msg = Some t -> is_catalog_id t = true ->
  on_message cfg msg env d =
    match result gate with
    | Throw e => (Throw e, d1, trace gate)
    | Return false => (Return tt, d1, trace gate)
    | Return true =>
        match Files.findOne (toUpperCase env t) (files d) with
        | None =>
            match telegram env (send TxtFileNotFound) with
            | Resolved m =>
                (Return tt, d1,
                 trace gate ++ [Called (send TxtFileNotFound) (Resolved m);
                                Timer 3000 (deleteMessage (ChatId chatId) m)])
            | Rejected s =>
                (Throw (TelegramError s), d1,
                 trace gate ++ [Called (send TxtFileNotFound) (Rejected s)])
            end
        | Some (_id, file) =>
            if DAILY_LIMIT_NUM cfg <=? quota d userId (date_on_peek env)
            then (settled (telegram env (send TxtDailyLimitReached)), d1,
                  trace gate ++ [Called (send TxtDailyLimitReached)
                                   (telegram env (send TxtDailyLimitReached))])
            else
              match telegram env (file_call chatId file) with
              | Resolved m =>
                  (Return tt, charged env userId _id d1,
                   trace gate ++ [Called (file_call chatId file) (Resolved m);
                                  Timer 60000 (deleteMessage (ChatId chatId) m)])
              | Rejected s =>
                  (Throw (TelegramError s), charged env userId _id d1,
                   trace gate ++ [Called (file_call chatId file) (Rejected s)])
              end
        end
    end.
Proof.
  cbv zeta. intros Hv Hd Ht Hid.
  destruct (verifyJoin_frame cfg (msg_chat_id msg) (String_of_Z (msg_from_id msg)) env d)
    as (_ & Hk & _).
  destruct (ledgers_eq _ _ Hk) as (Hf & _ & Hl & _). clear Hk.
  destruct (is_catalog_id_text t Hid) as [Htruthy Hslash].
  unfold on_message. rewrite Hv, Hd, Ht.
  change (default [] (Some t)) with t. rewrite Htruthy, Hslash.
  cbn [andb negb].
  replace (if is_admin cfg (String_of_Z (msg_from_id msg)) then None else None)
    with (@None Attachment) by (now destruct (is_admin cfg _)).
  rewrite Hid. unfold send_file. mrun.
  rewrite verifyJoin_set_users.
  destruct (verifyJoin cfg (msg_chat_id msg) (String_of_Z (msg_from_id msg)) env d)
    as [[[[|]|e] d1] l1]; unfold store, result, trace in *;
    cbn [files limits set_users fst snd app] in *; rewrite ?app_nil_r;
    [|reflexivity|reflexivity].
  unfold quota. rewrite <- Hf, <- Hl.
  destruct (Files.findOne (toUpperCase env t) (files d1)) as [[i file]|]; mrun;
    cbn [files limits set_users app].
  - destruct (DAILY_LIMIT_NUM cfg <=?
              default 0 (limits d1 !! (String_of_Z (msg_from_id msg), date_on_peek env)));
      [reflexivity|].
    destruct (telegram env (file_call (msg_chat_id msg) file)); reflexivity.
  - destruct (telegram env (sendMessage (ChatId (msg_chat_id msg)) TxtFileNotFound []));
      reflexivity.
Qed.

Lemma attempted_app l l' : attempted (l ++ l') = attempted l ++ attempted l'.
Proof. apply flat_map_app. Qed.

Lemma delivered_app l l' : delivered (l ++ l') = delivered l ++ delivered l'.
Proof. apply flat_map_app. Qed.

Lemma sends_no_file_refl d : sends_no_file d d [].
Proof. reflexivity. Qed.

Lemma sends_no_file_trans d d' d'' l l' :
  sends_no_file d d' l -> sends_no_file d' d'' l' -> sends_no_file d d'' (l ++ l').
Proof. unfold sends_no_file. intros H H'. now rewrite attempted_app, H, H'. Qed.

Lemma delivered_attempted l : attempted l = [] -> delivered l = [].
Proof.
  induction l as [|e l IH]; [reflexivity|].
  change (attempted (e :: l)) with (attempted_by e ++ attempted l).
  change (delivered (e :: l)) with (delivered_by e ++ delivered l).
  intros H. apply app_eq_nil in H. destruct H as [He Hl]. rewrite (IH Hl), app_nil_r.
  destruct e as [c r| | |]; try reflexivity.
  destruct c; try reflexivity; discriminate He.
Qed.

(** The gate sends no file. *)
Lemma verifyJoin_sends_no_file cfg chatId userId :
  respects sends_no_file (verifyJoin cfg chatId userId).
Proof.
  unfold verifyJoin.
  respects_auto fail
    ltac:(first [exact sends_no_file_refl | exact sends_no_file_trans])
    ltac:(reflexivity).
Qed.

Lemma dispatch_get cfg q :
  startsWith (str "GET:") (q_data q) = true -> dispatch cfg q = download cfg q.
Proof.
  intros H. destruct (startsWith_app _ _ H) as [r Hr].
  unfold dispatch. cbv zeta. rewrite Hr. reflexivity.
Qed.

Lemma dispatch_confirm cfg q :
  startsWith (str "CONFIRM:") (q_data q) = true -> dispatch cfg q = confirm q.
Proof. intros H. unfold dispatch. cbv zeta. now rewrite H. Qed.

Lemma dispatch_fav cfg q :
  startsWith (str "FAV:") (q_data q) = true -> dispatch cfg q = toggle_favorite q.
Proof.
  intros H. destruct (startsWith_app _ _ H) as [r Hr].
  unfold dispatch. cbv zeta. rewrite Hr. reflexivity.
Qed.

(** C6.  A download attempt by a user whose count for the current day has
    reached the daily limit changes no collection and sends no file,
    whether it comes as [GET:<id>] or as a typed catalog id: the handler
    reads the count with [getUserLimitCount] and returns before
    [incrementAndGetLimit].  (On the typed path [saveUser] has recorded
    the sender before; the gate may have written its verdict to the
    cache.) *)
Theorem quota_exceeded_blocks_download (cfg : Config) (env : Env) (d : Db) :
  (forall q,
      startsWith (str "GET:") (q_data q) = true ->
      DAILY_LIMIT_NUM cfg <= quota d (String_of_Z (q_from_id q)) (date_on_peek env) ->
      let out := on_callback_query cfg q env d in
      ledgers (store out) = ledgers d /\ users (store out) = users d
      /\ attempted (trace out) = [] /\ delivered (trace out) = [])
  /\ (forall msg t,
        msg_video msg = None -> msg_document msg = None ->
        trim <$> msg_text msg = Some t -> is_catalog_id t = true ->
        DAILY_LIMIT_NUM cfg <= quota d (String_of_Z (msg_from_id msg)) (date_on_peek env) ->
        let out := on_message cfg msg env d in
        ledgers (store out) = ledgers d
        /\ attempted (trace out) = [] /\ delivered (trace out) = []).
Proof.
  split.
  - intros q Hdata Hq. cbv zeta.
    set (userId := String_of_Z (q_from_id q)) in *.
    destruct (verifyJoin_frame cfg (q_chat_id q) userId env d) as (Hu & Hl & _).
    pose proof (verifyJoin_sends_no_file cfg (q_chat_id q) userId env d) as Hs.
    unfold sends_no_file in Hs.
    assert (jseq (q_data q) (str "CHECK_JOIN") = false) as Hcj
        by (eapply data_not_check_join; [exact Hdata|reflexivity]).
    assert (forall out : Res unit * Db * list Effect,
               ledgers (store out) = ledgers d -> users (store out) = users d ->
               attempted (trace out) = [] ->
               ledgers (store out) = ledgers d /\ users (store out) = users d
               /\ attempted (trace out) = [] /\ delivered (trace out) = []) as Hfin
        by (intros out ? ? ?; repeat split; auto using delivered_attempted).
    destruct (verifyJoin_returns cfg (q_chat_id q) userId env d) as [[|] Hg].
    + rewrite (on_callback_query_passed cfg q env d Hcj Hg).
      fold userId. set (gate := verifyJoin cfg (q_chat_id q) userId env d) in *.
      unfold try_catch. rewrite (dispatch_get cfg q Hdata), download_run. fold userId.
      assert (quota (store gate) userId (date_on_peek env) = quota d userId (date_on_peek env))
        as -> by (unfold quota; now destruct (ledgers_eq _ _ Hl) as (_ & _ & -> & _)).
      apply Z.leb_le in Hq. rewrite Hq.
      destruct (Files.findOne (field1 (q_data q)) (files (store gate))) as [[i file]|];
        destruct (telegram env _); cbn [settled];
        apply Hfin; unfold store, trace in *; simpl; auto;
        rewrite attempted_app, Hs; reflexivity.
    + rewrite (on_callback_query_refused cfg q env d Hcj Hg). fold userId.
      apply Hfin; unfold store, trace in *; simpl; auto.
      rewrite attempted_app, Hs. reflexivity.
  - intros msg t Hv Hd Ht Hid Hq. cbv zeta.
    set (userId := String_of_Z (msg_from_id msg)) in *.
    destruct (verifyJoin_frame cfg (msg_chat_id msg) userId env d) as (_ & Hl & _).
    pose proof (verifyJoin_sends_no_file cfg (msg_chat_id msg) userId env d) as Hs.
    unfold sends_no_file in Hs.
    rewrite (typed_id_run cfg msg env d t Hv Hd Ht Hid). fold userId.
    set (gate := verifyJoin cfg (msg_chat_id msg) userId env d) in *.
    apply Z.leb_le in Hq. rewrite Hq.
    assert (forall l, attempted l = [] -> attempted (trace gate ++ l) = []) as Ha
        by (intros l E; now rewrite attempted_app, Hs, E).
    destruct (result gate) as [[|]|e];
      [destruct (Files.findOne (toUpperCase env t) (files d)) as [[i file]|];
       [|destruct (telegram env _)]| |];
      unfold store, trace in *; simpl; (split; [exact Hl|]);
      (split; [|apply delivered_attempted]); try exact Hs; apply Ha; reflexivity.
Qed.

(** *** Records that continue *)

Lemma continues_refl f : continues f f.
Proof. unfold continues. repeat split; lia. Qed.

Lemma continues_trans f f' f'' : continues f f' -> continues f' f'' -> continues f f''.
Proof.
  unfold continues. intros (E1 & E2 & ?) (E1' & E2' & ?).
  repeat split; [congruence|congruence|lia].
Qed.

Lemma elem_of_alter_inc (f' : File.doc) (i : nat) (l : list File.doc) :
  f' ∈ alter File.inc_downloads i l ->
  f' ∈ l \/ exists f, f ∈ l /\ f' = File.inc_downloads f.
Proof.
  revert i. induction l as [|g l IH]; intros i H; [inversion H|].
  destruct i as [|i]; simpl in H; apply elem_of_cons in H; destruct H as [->|H].
  - right. exists g. split; [apply elem_of_cons; now left|reflexivity].
  - left. apply elem_of_cons. now right.
  - left. apply elem_of_cons. now left.
  - destruct (IH i H) as [Hl|(f & Hf & ->)].
    + left. apply elem_of_cons. now right.
    + right. exists f. split; [apply elem_of_cons; now right|reflexivity].
Qed.

Lemma findOne_from_lookup k cid l i f :
  Files.findOne_from k cid l = Some (i, f) ->
  (k <= i)%nat /\ l !! (i - k)%nat = Some f /\ File.customId f = cid.
Proof.
  revert k. induction l as [|g l IH]; intros k H; simpl in H; [discriminate|].
  destruct (Files.has_customId cid g) eqn:E.
  - injection H as <- <-. rewrite Nat.sub_diag. repeat split; [lia|].
    unfold Files.has_customId, jseq in E. now apply bool_decide_eq_true in E.
  - destruct (IH _ H) as (Hk & Hl & Hc). repeat split; [lia| |exact Hc].
    replace (i - k)%nat with (S (i - S k)) by lia. exact Hl.
Qed.

Lemma findOne_lookup cid l i f :
  Files.findOne cid l = Some (i, f) -> l !! i = Some f /\ File.customId f = cid.
Proof.
  intros H. destruct (findOne_from_lookup 0 cid l i f H) as (_ & Hl & Hc).
  now rewrite Nat.sub_0_r in Hl.
Qed.

Lemma attempted_file_call chatId file r :
  attempted_by (Called (file_call chatId file) r) = [File.file_id file].
Proof. unfold file_call. cbv zeta. destruct (jseq _ _); reflexivity. Qed.

Lemma delivered_file_call chatId file r :
  delivered_by (Called (file_call chatId file) r)
  = if resolves r then [File.file_id file] else [].
Proof. unfold file_call. cbv zeta. destruct (jseq _ _), r; reflexivity. Qed.

(** What a charged download leaves, in terms of the store before the gate. *)
Lemma charged_spec env userId i file d d1 :
  files d1 = files d -> limits d1 = limits d -> files d !! i = Some file ->
  let today := date_on_increment env in
  let d' := charged env userId i d1 in
  files d' = alter File.inc_downloads i (files d)
  /\ files d' !! i = Some (File.inc_downloads file)
  /\ limits d' = <[(userId, today) := quota d userId today + 1]> (limits d)
  /\ quota d' userId today = quota d userId today + 1.
Proof.
  intros Hf Hl Hi. cbv zeta. unfold charged, quota. simpl. rewrite Hf, Hl.
  repeat split.
  - now rewrite list_lookup_alter_eq, Hi.
  - now rewrite lookup_insert_eq.
Qed.

(** C3, the claim as stated, fails: the download count is incremented
    although the delivery fails.  User 2 asks for [F0001]; Telegram accepts
    the answer to the query and rejects the video; nothing is delivered and
    the count of [F0001] has gone from 0 to 1. *)
Lemma download_counted_without_delivery :
  ~ (let out :=
       on_callback_query Demo.cfg (Demo.press 2 "GET:F0001") Demo.env_undeliverable
         Demo.one_file in
     delivered (trace out) = [] ->
     downloads_of (store out) (str "F0001") = downloads_of Demo.one_file (str "F0001")).
Proof.
  intros H. specialize (H eq_refl). vm_compute in H. discriminate H.
Qed.

(** User 2, who has used the 100 downloads of the day, asks for [F0001]
    by [GET:] and by typing the id. *)
Lemma quota_exceeded_blocks_download_witness :
  let pressed := on_callback_query Demo.cfg (Demo.press 2 "GET:F0001") Demo.env Demo.exhausted in
  let typed := on_message Demo.cfg (Demo.text_message 2 "F0001") Demo.env Demo.exhausted in
  (ledgers (store pressed) = ledgers Demo.exhausted /\ delivered (trace pressed) = [])
  /\ (ledgers (store typed) = ledgers Demo.exhausted /\ delivered (trace typed) = []).
Proof.
  cbv zeta.
  destruct (quota_exceeded_blocks_download Demo.cfg Demo.env Demo.exhausted)
    as (Hget & Htyped).
  split.
  - destruct (Hget (Demo.press 2 "GET:F0001")) as (H1 & _ & _ & H2);
      [reflexivity | vm_compute; discriminate |].
    split; [exact H1|exact H2].
  - destruct (Htyped (Demo.text_message 2 "F0001") (str "F0001")) as (H1 & _ & H2);
      [reflexivity | reflexivity | reflexivity | reflexivity | vm_compute; discriminate |].
    split; [exact H1|exact H2].
Defined.

(** ** The favorites ledger *)

Lemma find_none_existsb {A} (p : A -> bool) l : List.find p l = None -> existsb p l = false.
Proof.
  induction l as [|x l IH]; simpl; [reflexivity|].
  destruct (p x); [discriminate|]. exact IH.
Qed.

(** The branch [FAV:<customId>]. *)
Lemma toggle_favorite_run q env d :
  let userId := String_of_Z (q_from_id q) in
  let customId := field1 (q_data q) in
  let answer text := answerCallbackQuery (q_id q) text false in
  let reply (d' : Db) text : Res unit * Db * list Effect :=
    match telegram env (answer text) with
    | Resolved m => (Return tt, d', [Called (answer text) (Resolved m)])
    | Rejected s => (Throw (TelegramError s), d', [Called (answer text) (Rejected s)])
    end in
  toggle_favorite q env d =
    match Favorites.findOne userId customId (favorites d) with
    | Some _ =>
        reply (set_favorites
                 (remove_first (Favorites.is_pair userId customId) (favorites d)) d)
          TxtRemovedFromFavorites
    | None =>
        if 50 <=? Favorites.countDocuments userId (favorites d)
        then (settled (telegram env (answer TxtMax50Favorites)), d,
              [Called (answer TxtMax50Favorites) (telegram env (answer TxtMax50Favorites))])
        else
          reply (set_favorites
                   (favorites d ++
                      [{| Favorite.userId := userId; Favorite.customId := customId;
                          Favorite.savedAt := now env |}]) d)
            TxtAddedToFavorites
    end.
Proof.
  cbv zeta. unfold toggle_favorite. mrun.
  destruct (Favorites.findOne _ _ (favorites d)) eqn:Hfind.
  - destruct (telegram env _); reflexivity.
  - destruct (50 <=? _); [reflexivity|].
    unfold Favorites.findOne in Hfind. rewrite (find_none_existsb _ _ Hfind).
    destruct (telegram env _); reflexivity.
Qed.

Lemma count_if_app {A} (p : A -> bool) l l' :
  count_if p (l ++ l') = (count_if p l + count_if p l')%nat.
Proof. unfold count_if. now rewrite List.filter_app, length_app. Qed.

Lemma count_if_remove_first_le {A} (p q : A -> bool) l :
  (count_if p (remove_first q l) <= count_if p l)%nat.
Proof.
  unfold count_if. induction l as [|x l IH]; simpl; [lia|].
  destruct (q x); simpl; destruct (p x); simpl; lia.
Qed.

(** Removing the first document of a pair removes one favorite of that
    user, when there is one. *)
Lemma count_if_remove_first_found userId customId l f :
  List.find (Favorites.is_pair userId customId) l = Some f ->
  S (count_if (Favorites.of_user userId)
       (remove_first (Favorites.is_pair userId customId) l))
  = count_if (Favorites.of_user userId) l.
Proof.
  unfold count_if. induction l as [|x l IH]; simpl; [discriminate|].
  destruct (Favorites.is_pair userId customId x) eqn:E.
  - intros _. unfold Favorites.is_pair in E. apply andb_prop in E. destruct E as [E _].
    unfold Favorites.of_user. rewrite E. reflexivity.
  - intros H. simpl. destruct (Favorites.of_user userId x); simpl; rewrite <- (IH H); lia.
Qed.

Lemma toggle_favorite_bounded q : respects (preserves favorites_bounded) (toggle_favorite q).
Proof.
  intros env d Hb u. rewrite toggle_favorite_run. cbv zeta.
  destruct (Favorites.findOne _ _ (favorites d)).
  - destruct (telegram env _); unfold store, favorites_of; simpl;
      (etransitivity; [apply count_if_remove_first_le|apply Hb]).
  - destruct (50 <=? _) eqn:Hc; [apply Hb|].
    apply Z.leb_gt in Hc. unfold Favorites.countDocuments in Hc.
    assert (favorites_of
              (set_favorites
                 (favorites d ++
                    [{| Favorite.userId := String_of_Z (q_from_id q);
                        Favorite.customId := field1 (q_data q);
                        Favorite.savedAt := now env |}]) d) u <= 50)%nat as Hle.
    { unfold favorites_of. simpl. rewrite count_if_app.
      unfold count_if at 2. simpl. unfold Favorites.of_user at 2. simpl.
      unfold jseq. destruct (bool_decide_reflect (String_of_Z (q_from_id q) = u)) as [<-|_];
        simpl; [lia|]. specialize (Hb u). unfold favorites_of in Hb. lia. }
    destruct (telegram env _); exact Hle.
Qed.

Lemma favorites_bounded_handler cfg ev :
  respects (preserves favorites_bounded) (handler cfg ev).
Proof.
  revert ev.
  handlers_respect ltac:(apply toggle_favorite_bounded) preserves_pre
    ltac:(exact (fun H => H)).
Qed.

Lemma favorites_bounded_run cfg evs : favorites_bounded (run cfg evs empty_db).1.
Proof.
  apply (respects_run _ (preserves_refl _) (preserves_trans _) cfg
           (favorites_bounded_handler cfg) evs empty_db).
  intros u. unfold favorites_of, count_if. simpl. lia.
Qed.

Lemma existsb_is_pair userId customId l :
  existsb (Favorites.is_pair userId customId) l = false ->
  (userId, customId) ∉ map (fun f => (Favorite.userId f, Favorite.customId f)) l.
Proof.
  induction l as [|f l IH]; simpl; intros H Hin; [inversion Hin|].
  apply orb_false_elim in H. destruct H as [Hf Hl].
  apply elem_of_cons in Hin. destruct Hin as [E|Hin]; [|now apply IH].
  injection E as -> ->. unfold Favorites.is_pair, jseq in Hf.
  rewrite !bool_decide_eq_true_2 in Hf by reflexivity. discriminate.
Qed.

Lemma toggle_favorite_unique q :
  respects (preserves favorite_pairs_unique) (toggle_favorite q).
Proof.
  intros env d Hu. rewrite toggle_favorite_run. cbv zeta.
  assert (favorite_pairs_unique
            (set_favorites
               (remove_first
                  (Favorites.is_pair (String_of_Z (q_from_id q)) (field1 (q_data q)))
                  (favorites d)) d)) as Hrem.
  { unfold favorite_pairs_unique in *. simpl.
    eapply sublist_NoDup; [exact Hu|].
    apply (fmap_sublist (fun f => (Favorite.userId f, Favorite.customId f))),
      remove_first_sublist. }
  destruct (Favorites.findOne _ _ (favorites d)) eqn:Hfind.
  - destruct (telegram env _); exact Hrem.
  - destruct (50 <=? _); [exact Hu|].
    assert (favorite_pairs_unique
              (set_favorites
                 (favorites d ++
                    [{| Favorite.userId := String_of_Z (q_from_id q);
                        Favorite.customId := field1 (q_data q);
                        Favorite.savedAt := now env |}]) d)) as Hadd.
    { unfold favorite_pairs_unique in *. simpl. rewrite map_app.
      apply NoDup_app. repeat split; [exact Hu| |apply NoDup_singleton].
      intros x Hx Hin. apply list_elem_of_singleton in Hin. simpl in Hin. subst x.
      revert Hx. apply existsb_is_pair, find_none_existsb, Hfind. }
    destruct (telegram env _); exact Hadd.
Qed.

Lemma favorite_pairs_unique_run cfg evs : favorite_pairs_unique (run cfg evs empty_db).1.
Proof.
  assert (forall ev, respects (preserves favorite_pairs_unique) (handler cfg ev)) as H.
  { handlers_respect ltac:(apply toggle_favorite_unique) preserves_pre
      ltac:(exact (fun H => H)). }
  apply (respects_run _ (preserves_refl _) (preserves_trans _) cfg H evs empty_db).
  constructor.
Qed.

(** After the deletion of the first document of a pair that occurs once,
    the pair is absent. *)
Lemma find_remove_first_unique userId customId l :
  NoDup (map (fun f => (Favorite.userId f, Favorite.customId f)) l) ->
  List.find (Favorites.is_pair userId customId)
    (remove_first (Favorites.is_pair userId customId) l) = None.
Proof.
  induction l as [|f l IH]; simpl; [reflexivity|]. intros H.
  apply NoDup_cons in H. destruct H as [Hf Hl].
  destruct (Favorites.is_pair userId customId f) eqn:E.
  - destruct (List.find _ l) as [g|] eqn:Hg; [|reflexivity].
    apply List.find_some in Hg. destruct Hg as [Hin Hg]. exfalso. apply Hf.
    unfold Favorites.is_pair, jseq in E, Hg.
    apply andb_prop in E, Hg. destruct E as [E1 E2], Hg as [G1 G2].
    apply bool_decide_eq_true in E1, E2, G1, G2.
    rewrite E1, E2, <- G1, <- G2.
    apply (list_elem_of_fmap_2 (fun f => (Favorite.userId f, Favorite.customId f))).
    now apply list_elem_of_In.
  - simpl. rewrite E. now apply IH.
Qed.

(** C4.  Along every run of the bot from the empty store, no user ever
    has more than 50 favorites (and no pair is stored twice).  A toggle
    of an absent pair by a user who has 50 favorites or more answers
    "Max 50 favorites." and changes no collection; a toggle of an existing
    pair deletes its document and answers "Removed from favorites": the
    user has one favorite less, and the pair is absent afterwards when it
    was stored once. *)
Theorem favorites_never_exceed_50 (cfg : Config) :
  (forall evs, favorites_bounded (run cfg evs empty_db).1
               /\ favorite_pairs_unique (run cfg evs empty_db).1)
  /\ (forall env q d,
        let userId := String_of_Z (q_from_id q) in
        let customId := field1 (q_data q) in
        let gate := verifyJoin cfg (q_chat_id q) userId env d in
        let out := on_callback_query cfg q env d in
        let answer text := answerCallbackQuery (q_id q) text false in
        startsWith (str "FAV:") (q_data q) = true ->
        result gate = Return true ->
        (Favorites.findOne userId customId (favorites d) = None ->
         50 <= Favorites.countDocuments userId (favorites d) ->
         ledgers (store out) = ledgers d /\ users (store out) = users d
         /\ trace out = trace gate ++ [Called (answer TxtMax50Favorites)
                                         (telegram env (answer TxtMax50Favorites))])
        /\ (forall f,
              Favorites.findOne userId customId (favorites d) = Some f ->
              favorites (store out)
              = remove_first (Favorites.is_pair userId customId) (favorites d)
              /\ S (favorites_of (store out) userId) = favorites_of d userId
              /\ (favorite_pairs_unique d ->
                  Favorites.findOne userId customId (favorites (store out)) = None)
              /\ exists rest,
                  trace out = trace gate ++
                                Called (answer TxtRemovedFromFavorites)
                                  (telegram env (answer TxtRemovedFromFavorites)) :: rest)).
Proof.
  split; [intros evs; split;
          [apply favorites_bounded_run|apply favorite_pairs_unique_run]|].
  intros env q d. cbv zeta. intros Hdata Hg.
  set (userId := String_of_Z (q_from_id q)) in *.
  destruct (verifyJoin_frame cfg (q_chat_id q) userId env d) as (Hu & Hk & _).
  destruct (ledgers_eq _ _ Hk) as (_ & _ & _ & Hfav & _).
  rewrite on_callback_query_passed;
    [|eapply data_not_check_join; [exact Hdata|reflexivity]|exact Hg].
  fold userId. set (gate := verifyJoin cfg (q_chat_id q) userId env d) in *.
  unfold try_catch. rewrite (dispatch_fav cfg q Hdata), toggle_favorite_run. cbv zeta.
  fold userId. rewrite Hfav. split.
  - intros Hnone Hfull. rewrite Hnone. apply Z.leb_le in Hfull. rewrite Hfull.
    destruct (telegram env _); unfold store, trace in *; simpl; auto.
  - intros f Hfound. rewrite Hfound.
    assert (forall out : Res unit * Db * list Effect,
               favorites (store out)
               = remove_first (Favorites.is_pair userId (field1 (q_data q))) (favorites d) ->
               favorites (store out)
               = remove_first (Favorites.is_pair userId (field1 (q_data q))) (favorites d)
               /\ S (favorites_of (store out) userId) = favorites_of d userId
               /\ (favorite_pairs_unique d ->
                   Favorites.findOne userId (field1 (q_data q)) (favorites (store out)) = None))
      as Hfin.
    { intros out E. split; [exact E|]. unfold favorites_of. rewrite E. split.
      - eapply count_if_remove_first_found. exact Hfound.
      - intros Hun. apply find_remove_first_unique, Hun. }
    destruct (telegram env (answerCallbackQuery (q_id q) TxtRemovedFromFavorites false));
      [|unfold callback_error;
        cbv beta iota zeta delta [mbind M_bind bind mret M_ret ret emit fire]];
      (destruct (Hfin (Return tt,
                       set_favorites
                         (remove_first (Favorites.is_pair userId (field1 (q_data q)))
                            (favorites d)) (store gate),
                       @nil Effect) eq_refl) as (F1 & F2 & F3));
      (split; [exact F1|split; [exact F2|split; [exact F3|]]]);
      eexists; unfold trace; cbn [fst snd app]; reflexivity.
Qed.

(** User 2 holds 50 favorites and toggles a 51st; then toggles [F0001],
    which is one of them. *)
Lemma favorites_never_exceed_50_witness :
  let refused := on_callback_query Demo.cfg (Demo.press 2 "FAV:F0051") Demo.env Demo.full in
  let removed := on_callback_query Demo.cfg (Demo.press 2 "FAV:F0001") Demo.env Demo.full in
  favorites_bounded (run Demo.cfg [(Demo.env, EvCallbackQuery (Demo.press 2 "FAV:F0001"))]
                       empty_db).1
  /\ (ledgers (store refused) = ledgers Demo.full
      /\ notices (trace refused) = [TxtMax50Favorites])
  /\ (favorites_of (store removed) (str "2") = 49%nat
      /\ Favorites.findOne (str "2") (str "F0001") (favorites (store removed)) = None).
Proof.
  cbv zeta.
  destruct (favorites_never_exceed_50 Demo.cfg) as (Hrun & Htoggle).
  split; [apply Hrun|]. split.
  - destruct (Htoggle Demo.env (Demo.press 2 "FAV:F0051") Demo.full) as ((H1 & _ & H2) & _);
      [reflexivity | reflexivity | reflexivity | vm_compute; discriminate |].
    split; [exact H1|]. rewrite H2. reflexivity.
  - destruct (Htoggle Demo.env (Demo.press 2 "FAV:F0001") Demo.full) as (_ & H);
      [reflexivity | reflexivity |].
    destruct (H (Demo.favorite "2" 1)) as (_ & H1 & H2 & _); [reflexivity|].
    split.
    + apply eq_add_S. etransitivity; [exact H1|reflexivity].
    + apply H2. unfold favorite_pairs_unique.
      apply (bool_decide_unpack _). vm_compute. exact I.
Defined.

(** *** Favorites and the catalog *)

Lemma displayed_app l l' : displayed (l ++ l') = displayed l ++ displayed l'.
Proof. apply flat_map_app. Qed.

(** The gate displays no other button than "I Have Joined". *)
Lemma verifyJoin_displays cfg chatId userId env d :
  forall data, data ∈ displayed (trace (verifyJoin cfg chatId userId env d)) ->
               data = str "CHECK_JOIN".
Proof.
  assert (Hr : forall d0 : Db,
             (fun (_ _ : Db) l => forall data, data ∈ displayed l -> data = str "CHECK_JOIN")
               d0 d0 []) by (intros _ data H; inversion H).
  assert (Ht : forall (d0 d1 d2 : Db) l l',
             (fun (_ _ : Db) l => forall data, data ∈ displayed l -> data = str "CHECK_JOIN")
               d0 d1 l ->
             (fun (_ _ : Db) l => forall data, data ∈ displayed l -> data = str "CHECK_JOIN")
               d1 d2 l' ->
             (fun (_ _ : Db) l => forall data, data ∈ displayed l -> data = str "CHECK_JOIN")
               d0 d2 (l ++ l')).
  { intros _ _ _ l l' H H' data Hin. rewrite displayed_app in Hin.
    apply elem_of_app in Hin. destruct Hin; auto. }
  revert env d.
  change (respects
            (fun (_ _ : Db) l => forall data, data ∈ displayed l -> data = str "CHECK_JOIN")
            (verifyJoin cfg chatId userId)).
  unfold verifyJoin.
  respects_auto fail ltac:(first [exact Hr | exact Ht])
    ltac:(let data := fresh "data" in
          let H := fresh "H" in
          intros data H; unfold displayed, join_prompt, join_keyboard in H; simpl in H;
          repeat (apply elem_of_cons in H; destruct H as [H|H]; [exact H|]);
          inversion H).
Qed.

Lemma displayed_file_buttons label l :
  flat_map button_data (concat (map (file_button label) l))
  = map (fun f => str "GET:" ++ File.customId f) l.
Proof.
  induction l as [|f l IH]; [reflexivity|].
  cbn [map concat app file_button flat_map button_data]. now rewrite IH.
Qed.

(** The [/favorites] view. *)
Lemma on_favorites_run cfg msg env d :
  let chatId := msg_chat_id msg in
  let userId := String_of_Z (msg_from_id msg) in
  let saved :=
    set_users (upsert_user userId (msg_first_name msg) (msg_username msg) (now env) (users d)) in
  let gate := verifyJoin cfg chatId userId env d in
  let d1 := saved (store gate) in
  let send text keyboard := sendMessage (ChatId chatId) text keyboard in
  let favs := Favorites.find userId (favorites d) in
  let found :=
    List.filter
      (fun f => existsb (jseq (File.customId f)) (map Favorite.customId favs)) (files d) in
  let view := send (TxtYourFavorites (length found)) (map (file_button LblStar) (take 10 found)) in
  on_favorites cfg msg env d =
    match result gate with
    | Throw e => (Throw e, d1, trace gate)
    | Return false => (Return tt, d1, trace gate)
    | Return true =>
        if (length favs =? 0)%nat
        then (settled (telegram env (send TxtNoFavoritesYet [])), d1,
              trace gate ++ [Called (send TxtNoFavoritesYet [])
                               (telegram env (send TxtNoFavoritesYet []))])
        else if (length found =? 0)%nat
        then (settled (telegram env (send TxtFavoritesEmpty [])), d1,
              trace gate ++ [Called (send TxtFavoritesEmpty [])
                               (telegram env (send TxtFavoritesEmpty []))])
        else
          match telegram env view with
          | Resolved m =>
              (Return tt, d1,
               trace gate ++ [Called view (Resolved m);
                              Timer 60000 (deleteMessage (ChatId chatId) m)])
          | Rejected s => (Throw (TelegramError s), d1, trace gate ++ [Called view (Rejected s)])
          end
    end.
Proof.
  cbv zeta.
  destruct (verifyJoin_frame cfg (msg_chat_id msg) (String_of_Z (msg_from_id msg)) env d)
    as (_ & Hk & _).
  destruct (ledgers_eq _ _ Hk) as (Hf & _ & _ & Hfav & _). clear Hk.
  unfold on_favorites. mrun. rewrite verifyJoin_set_users.
  destruct (verifyJoin cfg (msg_chat_id msg) (String_of_Z (msg_from_id msg)) env d)
    as [[[[|]|e] d1] l1]; unfold store, result, trace in *;
    cbn [files favorites set_users fst snd app] in *; rewrite ?app_nil_r;
    [|reflexivity|reflexivity].
  rewrite Hf, Hfav.
  destruct (length (Favorites.find _ (favorites d)) =? 0)%nat; [reflexivity|].
  destruct (length (List.filter _ (files d)) =? 0)%nat; [reflexivity|].
  destruct (telegram env _); reflexivity.
Qed.

Lemma on_delete_keeps_favorites cfg msg arg :
  respects (keeps favorites) (on_delete cfg msg arg).
Proof. unfold on_delete. keeps_auto. Qed.

Lemma on_favorites_keeps cfg msg :
  respects (keeps (fun d => (favorites d, files d))) (on_favorites cfg msg).
Proof. unfold on_favorites. keeps_auto. Qed.

(** C10.  The toggle does not look at the catalog: a toggle of an absent
    pair by a user below the bound inserts the favorite whatever the id,
    in the catalog or not.  [/delete] leaves the favorites as they are.
    [/favorites] displays no button for an id that no record of the
    catalog bears, and leaves the stored favorites as they are. *)
Theorem favorites_ignore_the_catalog (cfg : Config) (env : Env) (d : Db) :
  (forall q,
      let userId := String_of_Z (q_from_id q) in
      let customId := field1 (q_data q) in
      let gate := verifyJoin cfg (q_chat_id q) userId env d in
      let out := on_callback_query cfg q env d in
      startsWith (str "FAV:") (q_data q) = true ->
      result gate = Return true ->
      Favorites.findOne userId customId (favorites d) = None ->
      Favorites.countDocuments userId (favorites d) < 50 ->
      favorites (store out)
      = favorites d ++ [{| Favorite.userId := userId; Favorite.customId := customId;
                           Favorite.savedAt := now env |}]
      /\ files (store out) = files d)
  /\ (forall msg arg, favorites (store (on_delete cfg msg arg env d)) = favorites d)
  /\ (forall msg customId,
        (forall f, f ∈ files d -> File.customId f <> customId) ->
        (str "GET:" ++ customId) ∉ displayed (trace (on_favorites cfg msg env d)))
  /\ (forall msg, favorites (store (on_favorites cfg msg env d)) = favorites d).
Proof.
  split; [|split; [|split]].
  - intros q. cbv zeta. intros Hdata Hg Hnone Hroom.
    set (userId := String_of_Z (q_from_id q)) in *.
    destruct (verifyJoin_frame cfg (q_chat_id q) userId env d) as (_ & Hk & _).
    destruct (ledgers_eq _ _ Hk) as (Hf & _ & _ & Hfav & _).
    rewrite on_callback_query_passed;
      [|eapply data_not_check_join; [exact Hdata|reflexivity]|exact Hg].
    fold userId. set (gate := verifyJoin cfg (q_chat_id q) userId env d) in *.
    unfold try_catch. rewrite (dispatch_fav cfg q Hdata), toggle_favorite_run. cbv zeta.
    fold userId. rewrite Hfav, Hnone. apply Z.leb_gt in Hroom. rewrite Hroom.
    destruct (telegram env (answerCallbackQuery (q_id q) TxtAddedToFavorites false));
      [|unfold callback_error;
        cbv beta iota zeta delta [mbind M_bind bind mret M_ret ret emit fire]];
      unfold store in *; cbn [fst snd favorites files set_favorites]; auto.
  - intros msg arg. apply (on_delete_keeps_favorites cfg msg arg env d).
  - intros msg customId Habsent Hin.
    set (userId := String_of_Z (msg_from_id msg)) in *.
    pose proof (verifyJoin_displays cfg (msg_chat_id msg) userId env d) as Hgate.
    rewrite on_favorites_run in Hin. cbv zeta in Hin. fold userId in Hin.
    set (gate := verifyJoin cfg (msg_chat_id msg) userId env d) in *.
    set (found := List.filter _ (files d)) in *.
    assert (forall l, (str "GET:" ++ customId) ∈ displayed (trace gate ++ l) ->
                      (str "GET:" ++ customId) ∈ displayed l) as Hcut.
    { intros l H. rewrite displayed_app in H. apply elem_of_app in H.
      destruct H as [H|H]; [|exact H]. apply Hgate in H. discriminate H. }
    assert ((str "GET:" ++ customId) ∈ map (fun f => str "GET:" ++ File.customId f) (take 10 found)
            -> False) as Hview.
    { intros H. apply list_elem_of_fmap in H. destruct H as (f & E & Hf).
      apply app_inv_head in E. apply (Habsent f); [|now symmetry].
      apply elem_of_take in Hf. destruct Hf as (i & Hf & _).
      apply list_elem_of_lookup_2 in Hf. apply list_elem_of_In in Hf.
      apply List.filter_In in Hf. apply list_elem_of_In. tauto. }
    destruct (result gate) as [[|]|e]; unfold trace in Hin; cbn [fst snd] in Hin;
      try (apply Hgate in Hin; discriminate Hin).
    destruct (length _ =? 0)%nat; [apply Hcut in Hin; inversion Hin|].
    destruct (length found =? 0)%nat; [apply Hcut in Hin; inversion Hin|].
    destruct (telegram env _); cbn [fst snd] in Hin; apply Hcut in Hin;
      unfold displayed in Hin; cbn [flat_map buttons_of] in Hin;
      rewrite displayed_file_buttons, ?app_nil_r in Hin; auto.
  - intros msg. pose proof (on_favorites_keeps cfg msg env d) as H. unfold keeps in H.
    exact (f_equal fst H).
Qed.

(** User 2 makes a favorite of [F9999], which was never published; the
    administrator deletes [F0001], a favorite of user 2; user 2 then asks
    for the favorites. *)
Lemma favorites_ignore_the_catalog_witness :
  let added := on_callback_query Demo.cfg (Demo.press 2 "FAV:F9999") Demo.env Demo.one_file in
  let deleted :=
    on_delete Demo.cfg (Demo.text_message 1 "/delete F0001") (str "F0001") Demo.env
      Demo.one_favorite in
  let viewed := on_favorites Demo.cfg (Demo.text_message 2 "/favorites") Demo.env Demo.dangling in
  (Files.findOne (str "F9999") (files Demo.one_file) = None
   /\ map Favorite.customId (favorites (store added)) = [str "F9999"])
  /\ (files (store deleted) = [] /\ favorites (store deleted) = [Demo.favorite "2" 1])
  /\ ((str "GET:F0001" ∉ displayed (trace viewed))
      /\ favorites (store viewed) = [Demo.favorite "2" 1]).
Proof.
  cbv zeta. split; [|split].
  - destruct (favorites_ignore_the_catalog Demo.cfg Demo.env Demo.one_file) as (H & _).
    destruct (H (Demo.press 2 "FAV:F9999")) as (H1 & _);
      [reflexivity | reflexivity | reflexivity | reflexivity |].
    split; [reflexivity|]. rewrite H1. reflexivity.
  - destruct (favorites_ignore_the_catalog Demo.cfg Demo.env Demo.one_favorite)
      as (_ & H & _).
    split; [reflexivity|]. apply (H (Demo.text_message 1 "/delete F0001") (str "F0001")).
  - destruct (favorites_ignore_the_catalog Demo.cfg Demo.env Demo.dangling)
      as (_ & _ & H1 & H2).
    split.
    + apply (H1 (Demo.text_message 2 "/favorites") (str "F0001")).
      intros f Hf. inversion Hf.
    + apply (H2 (Demo.text_message 2 "/favorites")).
Defined.

(** ** The sequence generator *)

Lemma unstr_app a b : unstr (a ++ b) = (unstr a ++ unstr b)%string.
Proof.
  unfold unstr. rewrite map_app. induction (map ascii_of_N a) as [|c l IH]; simpl;
    [reflexivity|now rewrite IH].
Qed.

Lemma unstr_str s : unstr (str s) = s.
Proof.
  unfold unstr, str. induction s as [|c s IH]; simpl; [reflexivity|].
  now rewrite ascii_N_embedding, IH.
Qed.

Lemma uint_of_zeros k s u :
  NilEmpty.uint_of_string s = Some u ->
  exists u', NilEmpty.uint_of_string (unstr (repeat 48%N k) ++ s) = Some u'
             /\ Z.of_uint u' = Z.of_uint u.
Proof.
  intros H. induction k as [|k (u' & Hu' & E)]; simpl; [eauto|].
  change (ascii_of_N 48) with "0"%char.
  unfold unstr in Hu'. rewrite Hu'. simpl. exists (Decimal.D0 u'). split; [reflexivity|].
  exact E.
Qed.

(** Reading back the id of a sequence number. *)
Lemma id_number_catalog_id n : 0 <= n -> id_number (catalog_id n) = Some n.
Proof.
  intros Hn. unfold catalog_id, padStart, String_of_Z.
  change (str "F") with [70%N]. cbn [app id_number].
  rewrite unstr_app, unstr_str.
  assert (exists u, Z.to_int n = Decimal.Pos u /\ u <> Decimal.Nil) as (u & Hu & Hnil).
  { destruct n as [|p|p]; [eexists; split; [reflexivity|discriminate]| |lia].
    exists (Pos.to_uint p). split; [reflexivity|].
    intros E. pose proof (DecimalPos.Unsigned.of_to p) as Hp. rewrite E in Hp. discriminate. }
  pose proof (DecimalZ.of_to n) as Hof. rewrite Hu in Hof |- *. simpl in Hof.
  cbn [NilZero.string_of_int].
  assert (NilZero.string_of_uint u = NilEmpty.string_of_uint u) as ->
      by (destruct u; [contradiction|reflexivity..]).
  destruct (uint_of_zeros (4 - length (str (NilEmpty.string_of_uint u)))
              (NilEmpty.string_of_uint u) u (NilEmpty.usu u)) as (u' & -> & E).
  simpl. now rewrite E, Hof.
Qed.

Lemma catalog_id_inj n m : 0 <= n -> 0 <= m -> catalog_id n = catalog_id m -> n = m.
Proof.
  intros Hn Hm E. apply (f_equal id_number) in E.
  rewrite !id_number_catalog_id in E by assumption. now injection E.
Qed.

Example catalog_id_1 : catalog_id 1 = str "F0001".
Proof. reflexivity. Qed.

Example catalog_id_12345 : catalog_id 12345 = str "F12345".
Proof. reflexivity. Qed.

(** The branch [CONFIRM:<pendingId>] on a pending upload whose file is
    not in the catalog. *)
Lemma confirm_fresh_run q env d p :
  let pendingId := field1 (q_data q) in
  let n := file_seq d + 1 in
  let d1 := set_counters (<[str "file" := n]> (counters d)) d in
  let file := published_file env (catalog_id n) p in
  let d2 := set_pendings (delete pendingId (pendings d)) (set_files (files d ++ [file]) d1) in
  let notice :=
    editMessageText (TxtPublished (catalog_id n) (Pending.clean_title p))
      (ChatId (q_chat_id q)) (q_message_id q) [] in
  pendings d !! pendingId = Some p ->
  Files.exists_file_id (Pending.file_id p) (files d) = false ->
  confirm q env d =
    if existsb (Files.has_customId (catalog_id n)) (files d)
    then (Throw DuplicateKey, d1, [])
    else match telegram env notice with
         | Resolved m => (Return tt, d2, [Called notice (Resolved m)])
         | Rejected s => (Throw (TelegramError s), d2, [Called notice (Rejected s)])
         end.
Proof.
  cbv zeta. intros Hp Hfresh. unfold confirm. mrun. rewrite Hp. cbv beta iota.
  rewrite Hfresh.
  cbn [files set_counters File.customId File.file_id].
  fold (file_seq d). fold (catalog_id (file_seq d + 1)).
  unfold Files.exists_file_id in Hfresh. rewrite Hfresh, orb_false_r.
  destruct (existsb (Files.has_customId (catalog_id (file_seq d + 1))) (files d));
    [reflexivity|].
  mrun. cbn [pendings set_files set_counters File.clean_title]. rewrite Hp.
  destruct (telegram env _); reflexivity.
Qed.

Lemma file_seq_set_counters n d :
  file_seq (set_counters (<[str "file" := n]> (counters d)) d) = n.
Proof. unfold file_seq. simpl. now rewrite lookup_insert_eq. Qed.

(** *** Published ids increase *)

Lemma published_app l l' : published (l ++ l') = published l ++ published l'.
Proof. apply flat_map_app. Qed.

Lemma issues_increasing_refl d : issues_increasing d d [].
Proof. split; [lia|]. exists []. repeat split; constructor. Qed.

Lemma StronglySorted_lt_app (l l' : list Z) b :
  StronglySorted Z.lt l -> StronglySorted Z.lt l' ->
  Forall (fun n => n <= b) l -> Forall (fun n => b < n) l' ->
  StronglySorted Z.lt (l ++ l').
Proof.
  intros Hl Hl' Hb Hb'. induction Hl as [|x l Hl IH Hx]; simpl; [exact Hl'|].
  apply Forall_cons in Hb. destruct Hb as [Hxb Hb].
  constructor; [now apply IH|].
  apply Forall_app. split; [exact Hx|].
  eapply Forall_impl; [exact Hb'|]. intros y Hy. simpl in Hy. lia.
Qed.

Lemma issues_increasing_trans d d' d'' l l' :
  issues_increasing d d' l -> issues_increasing d' d'' l' ->
  issues_increasing d d'' (l ++ l').
Proof.
  intros (Hle & ns & Hp & Hs & Hr) (Hle' & ns' & Hp' & Hs' & Hr').
  split; [lia|]. exists (ns ++ ns'). rewrite published_app, Hp, Hp', map_app.
  split; [reflexivity|]. split.
  - apply (StronglySorted_lt_app _ _ (file_seq d')); auto.
    + eapply Forall_impl; [exact Hr|]. intros n Hn. simpl in Hn. lia.
    + eapply Forall_impl; [exact Hr'|]. intros n Hn. simpl in Hn. lia.
  - apply Forall_app. split; (eapply Forall_impl; [eassumption|]);
      intros n Hn; simpl in Hn; lia.
Qed.

(** A computation that leaves the counters alone and publishes nothing. *)
Lemma issues_increasing_quiet d d' l :
  counters d' = counters d -> published l = [] -> issues_increasing d d' l.
Proof.
  intros Hc Hp. unfold issues_increasing, file_seq. rewrite Hc, Hp.
  split; [lia|]. exists []. repeat split; constructor.
Qed.

Lemma confirm_issues_increasing q : respects issues_increasing (confirm q).
Proof.
  intros env d. destruct (pendings d !! field1 (q_data q)) as [p|] eqn:Hp.
  - destruct (Files.exists_file_id (Pending.file_id p) (files d)) eqn:Hdup.
    + rewrite (confirm_duplicate q env d p Hp Hdup).
      now apply issues_increasing_quiet.
    + rewrite (confirm_fresh_run q env d p Hp Hdup). cbv zeta.
      assert (forall (r : Res unit) dd l,
                 file_seq dd = file_seq d + 1 ->
                 published l = [] \/ published l = [catalog_id (file_seq d + 1)] ->
                 issues_increasing d dd l) as Hfin.
      { intros r dd l Hseq [Hl|Hl]; (split; [lia|]); rewrite Hl.
        - exists []. repeat split; constructor.
        - exists [file_seq d + 1]. repeat split.
          + repeat constructor.
          + constructor; [lia|constructor]. }
      destruct (existsb _ (files d)); [|destruct (telegram env _)];
        unfold store, trace; cbn [fst snd]; apply (Hfin (Return tt));
        try apply file_seq_set_counters; auto.
  - rewrite (confirm_absent q env d Hp).
    destruct (isObjectId env _); now apply issues_increasing_quiet.
Qed.

Lemma issues_increasing_handler cfg ev : respects issues_increasing (handler cfg ev).
Proof.
  revert ev.
  handlers_respect ltac:(apply confirm_issues_increasing)
    ltac:(first [exact issues_increasing_refl | exact issues_increasing_trans])
    ltac:(apply issues_increasing_quiet;
          [reflexivity
          |first [reflexivity
                 |unfold file_call; cbv zeta; destruct (jseq _ _); reflexivity]]).
Qed.

(** *** The records bear issued ids *)

Lemma ids_issued_weaken d d' :
  file_seq d <= file_seq d' -> files d' = files d -> ids_issued d -> ids_issued d'.
Proof.
  intros Hle Hf (H0 & Hall). split; [lia|]. rewrite Hf.
  eapply Forall_impl; [exact Hall|]. intros f (n & Hn & E). exists n. split; [lia|exact E].
Qed.

Lemma ids_issued_fresh d :
  ids_issued d -> existsb (Files.has_customId (catalog_id (file_seq d + 1))) (files d) = false.
Proof.
  intros (H0 & Hall). apply not_true_is_false. intros H.
  apply existsb_exists in H. destruct H as (f & Hin & Hf).
  rewrite Forall_forall in Hall. destruct (Hall f) as (n & Hn & E);
    [now apply list_elem_of_In|].
  unfold Files.has_customId, jseq in Hf. apply bool_decide_eq_true in Hf.
  rewrite E in Hf. apply catalog_id_inj in Hf; lia.
Qed.

Lemma confirm_ids_issued q : respects (preserves ids_issued) (confirm q).
Proof.
  intros env d Hi. destruct (pendings d !! field1 (q_data q)) as [p|] eqn:Hp.
  - destruct (Files.exists_file_id (Pending.file_id p) (files d)) eqn:Hdup.
    + rewrite (confirm_duplicate q env d p Hp Hdup). exact Hi.
    + rewrite (confirm_fresh_run q env d p Hp Hdup). cbv zeta.
      rewrite (ids_issued_fresh d Hi).
      assert (ids_issued
                (set_pendings (delete (field1 (q_data q)) (pendings d))
                   (set_files
                      (files d ++ [published_file env (catalog_id (file_seq d + 1)) p])
                      (set_counters (<[str "file" := file_seq d + 1]> (counters d)) d))))
        as Hnew.
      { set (d2 := set_pendings _ _).
        assert (file_seq d2 = file_seq d + 1) as Hseq
            by exact (file_seq_set_counters _ d).
        destruct Hi as (H0 & Hall). split; [lia|]. rewrite Hseq.
        subst d2. cbn [files set_pendings set_files]. apply Forall_app. split.
        - eapply Forall_impl; [exact Hall|]. intros f (n & Hn & E). exists n.
          split; [lia|exact E].
        - constructor; [|constructor]. exists (file_seq d + 1). split; [lia|reflexivity]. }
      destruct (telegram env _); exact Hnew.
  - rewrite (confirm_absent q env d Hp). destruct (isObjectId env _); exact Hi.
Qed.

Lemma ids_issued_inc i : respects (preserves ids_issued) (File_inc_downloads i).
Proof.
  intros env d (H0 & Hall). split; [exact H0|]. unfold store. simpl.
  apply Forall_alter; [exact Hall|]. intros f _ H. exact H.
Qed.

Lemma Forall_remove_first {A} (P : A -> Prop) (p : A -> bool) l :
  Forall P l -> Forall P (remove_first p l).
Proof.
  induction 1 as [|x l Hx Hl IH]; simpl; [constructor|].
  destruct (p x); [exact Hl|now constructor].
Qed.

Lemma ids_issued_delete cid : respects (preserves ids_issued) (File_deleteOne cid).
Proof.
  intros env d. unfold File_deleteOne. mrun.
  destruct (existsb _ _); [|exact (fun H => H)].
  intros (H0 & Hall). split; [exact H0|]. unfold store. simpl.
  now apply Forall_remove_first.
Qed.

Lemma ids_issued_handler cfg ev : respects (preserves ids_issued) (handler cfg ev).
Proof.
  revert ev.
  handlers_respect
    ltac:(first [ apply confirm_ids_issued | apply ids_issued_inc | apply ids_issued_delete ])
    preserves_pre
    ltac:(exact (fun H => H)).
Qed.

Lemma ids_issued_run cfg evs : ids_issued (run cfg evs empty_db).1.
Proof.
  apply (respects_run _ (preserves_refl _) (preserves_trans _) cfg
           (ids_issued_handler cfg) evs empty_db).
  split; [reflexivity|constructor].
Qed.

Lemma on_delete_keeps_counters cfg msg arg :
  respects (keeps counters) (on_delete cfg msg arg).
Proof. unfold on_delete. keeps_auto. Qed.

Lemma StronglySorted_lt_NoDup (l : list Z) : StronglySorted Z.lt l -> NoDup l.
Proof.
  induction 1 as [|x l Hl IH Hx]; constructor; [|exact IH].
  intros Hin. rewrite Forall_forall in Hx. specialize (Hx x Hin). lia.
Qed.

(** C5.  Along every run of the bot from the empty store, whatever the
    uploads, confirmations and deletions in it: the catalog ids published
    are the ids of strictly increasing sequence numbers, in the order of
    publication, and are pairwise distinct; every record of the catalog
    bears an id issued by the counter.  [/delete] leaves the counter as it
    is and no event decreases it.  In every store so reached, the
    confirmation of a pending upload whose file is not in the catalog
    creates a record with the id of the next sequence number. *)
Theorem catalog_ids_increase (cfg : Config) (evs : list (Env * Event)) :
  let d := (run cfg evs empty_db).1 in
  let l := (run cfg evs empty_db).2 in
  (exists ns, published l = map catalog_id ns
              /\ StronglySorted Z.lt ns
              /\ Forall (fun n => 1 <= n <= file_seq d) ns)
  /\ NoDup (published l)
  /\ ids_issued d
  /\ (forall env msg arg d0,
        counters (store (on_delete cfg msg arg env d0)) = counters d0)
  /\ (forall env ev d0, file_seq d0 <= file_seq (store (handler cfg ev env d0)))
  /\ (forall env q p,
        pendings d !! field1 (q_data q) = Some p ->
        Files.exists_file_id (Pending.file_id p) (files d) = false ->
        let out := confirm q env d in
        let customId := catalog_id (file_seq d + 1) in
        files (store out) = files d ++ [published_file env customId p]
        /\ file_seq (store out) = file_seq d + 1
        /\ published (trace out) = [customId]).
Proof.
  cbv zeta.
  pose proof (respects_run _ issues_increasing_refl issues_increasing_trans cfg
                (issues_increasing_handler cfg) evs empty_db) as (Hle & ns & Hp & Hs & Hr).
  change (file_seq empty_db) with 0 in Hr, Hle.
  assert (Forall (fun n => 0 <= n) ns) as Hpos
      by (eapply Forall_impl; [exact Hr|]; intros n Hn; simpl in Hn; lia).
  split; [|split; [|split; [|split; [|split]]]].
  - exists ns. repeat split; [exact Hp|exact Hs|].
    eapply Forall_impl; [exact Hr|]. intros n Hn. simpl in Hn. lia.
  - rewrite Hp. apply NoDup_fmap_2_strong; [|now apply StronglySorted_lt_NoDup].
    intros n m Hn Hm E. rewrite Forall_forall in Hpos. apply catalog_id_inj; auto.
  - apply ids_issued_run.
  - intros env msg arg d0. apply (on_delete_keeps_counters cfg msg arg env d0).
  - intros env ev d0. apply (issues_increasing_handler cfg ev env d0).
  - intros env q p Hpend Hfresh.
    rewrite (confirm_fresh_run q env _ p Hpend Hfresh). cbv zeta.
    rewrite (ids_issued_fresh _ (ids_issued_run cfg evs)).
    destruct (telegram env _); unfold store, trace; cbn [fst snd];
      (repeat split; try apply file_seq_set_counters).
Qed.

(** The administrator publishes a file ([F0001]), deletes it, publishes it
    again ([F0002], not [F0001]) and submits a second file, whose
    confirmation would give [F0003]. *)
Lemma catalog_ids_increase_witness :
  let out := run Demo.cfg Demo.republish empty_db in
  let next := confirm (Demo.press 1 "CONFIRM:665f1c2ab7e4a90012345678") Demo.env out.1 in
  published out.2 = [str "F0001"; str "F0002"]
  /\ NoDup (published out.2)
  /\ map File.customId (files out.1) = [str "F0002"]
  /\ map File.customId (files (store next)) = [str "F0002"; str "F0003"]
  /\ published (trace next) = [str "F0003"].
Proof.
  cbv zeta.
  destruct (catalog_ids_increase Demo.cfg Demo.republish) as (_ & Hnd & _ & _ & _ & Hnext).
  destruct (Hnext Demo.env (Demo.press 1 "CONFIRM:665f1c2ab7e4a90012345678")
              Demo.pending_thor) as (Hf & _ & Hp);
    [vm_compute; reflexivity | vm_compute; reflexivity |].
  split; [vm_compute; reflexivity|]. split; [exact Hnd|].
  split; [vm_compute; reflexivity|]. rewrite Hf, Hp.
  split; vm_compute; reflexivity.
Defined.

(** ** The broadcast *)

(** The loop visits every user: it leaves the store as it is, adds to the
    tallies the numbers of sends that resolved and of sends rejected with
    the status 403, and its trace is one call and one pause per user, in
    the order of the users. *)
Lemma broadcast_loop_run chatId text replyMsg users success blocked env d :
  let rs := outcomes env chatId text replyMsg users in
  broadcast_loop chatId text replyMsg users success blocked env d =
    (Return (success + tally is_sent rs, blocked + tally is_403 rs), d,
     flat_map (fun user =>
                 [Called (broadcast_call chatId text replyMsg user)
                    (telegram env (broadcast_call chatId text replyMsg user));
                  Sleep 50]) users).
Proof.
  cbv zeta. revert success blocked.
  assert (forall (a a' b b' : Z) (l : list Effect),
             a = a' -> b = b' ->
             (Return (a, b), d, l) = (Return (a', b'), d, l)) as Heq
      by (intros; subst; reflexivity).
  induction users as [|user rest IH]; intros success blocked.
  - unfold tally, count_if. simpl. now rewrite !Z.add_0_r.
  - cbn [broadcast_loop]. mrun.
    destruct (telegram env (broadcast_call chatId text replyMsg user)) as [m|code] eqn:E.
    + cbn [fst snd]. rewrite IH. cbn [outcomes map flat_map app]. rewrite E.
      unfold tally, count_if, outcomes.
      cbn [List.filter is_sent is_403 resolves length]. apply Heq; lia.
    + assert (is_blocked (TelegramError code) = is_403 (Rejected code)) as Hb
          by (destruct code; reflexivity).
      rewrite Hb. cbn [outcomes map flat_map app]. rewrite E.
      unfold tally, count_if, outcomes. cbn [List.filter is_sent resolves].
      destruct (is_403 (Rejected code)); cbn [fst snd length]; rewrite IH;
        unfold tally, count_if, outcomes; apply Heq; lia.
Qed.

Lemma tallies_partition rs :
  tally is_sent rs + tally is_403 rs + tally is_other_failure rs = Z.of_nat (length rs).
Proof.
  unfold tally, count_if. induction rs as [|r rs IH]; [reflexivity|].
  cbn [List.filter length]. unfold is_other_failure at 1.
  destruct r as [m|[code|]]; cbn [is_sent is_403 resolves negb andb length];
    try destruct (code =? 403); cbn [negb andb length]; lia.
Qed.

Lemma recipients_of_loop chatId text replyMsg users env :
  recipients
    (flat_map (fun user =>
                 [Called (broadcast_call chatId text replyMsg user)
                    (telegram env (broadcast_call chatId text replyMsg user));
                  Sleep 50]) users)
  = map User.userId users.
Proof.
  unfold recipients. induction users as [|user rest IH]; [reflexivity|].
  cbn [flat_map app map]. rewrite <- IH.
  unfold broadcast_call. destruct replyMsg; reflexivity.
Qed.

(** The [/broadcast] handler of an administrator who gave a text or
    replied to a message, when the announcement is accepted. *)
Lemma on_broadcast_run cfg msg text env d m :
  let chatId := msg_chat_id msg in
  let replyMsg := msg_reply_to_message msg in
  let announce := sendMessage (ChatId chatId) (TxtBroadcasting (length (users d))) [] in
  let rs := outcomes env chatId text replyMsg (users d) in
  let report :=
    editMessageText (TxtBroadcastComplete (tally is_sent rs) (tally is_403 rs))
      (ChatId chatId) m [] in
  is_admin cfg (String_of_Z (msg_from_id msg)) = true ->
  truthy text = true \/ is_Some replyMsg ->
  telegram env announce = Resolved m ->
  on_broadcast cfg msg text env d =
    (Return tt, d,
     Called announce (Resolved m)
       :: flat_map (fun user =>
                      [Called (broadcast_call chatId text replyMsg user)
                         (telegram env (broadcast_call chatId text replyMsg user));
                       Sleep 50]) (users d)
       ++ [Called report (telegram env report)]).
Proof.
  cbv zeta. intros Ha Hwhat Hann. unfold on_broadcast. rewrite Ha. cbn [negb].
  assert (negb (truthy text) && negb (bool_decide (is_Some (msg_reply_to_message msg)))
          = false) as ->.
  { destruct Hwhat as [->|Hr]; [reflexivity|].
    rewrite (bool_decide_eq_true_2 _ Hr). apply andb_false_r. }
  mrun. rewrite Hann. cbn [fst snd].
  rewrite broadcast_loop_run. cbv zeta. cbn [fst snd app]. rewrite !Z.add_0_l.
  reflexivity.
Qed.

(** C9, the claim as stated, fails: a send rejected with a status other
    than 403 is counted in neither tally.  One user is known to the bot and
    the chat is not found (400); the report says 0 sent and 0
    blocked/failed. *)
Lemma broadcast_tallies_miss_a_failure :
  ~ (let d := Demo.single in
     let out :=
       on_broadcast Demo.cfg (Demo.text_message 1 "/broadcast Hello") (Some (str "Hello"))
         Demo.env_not_found d in
     forall success blocked,
       TxtBroadcastComplete success blocked ∈ notices (trace out) ->
       success + blocked = Z.of_nat (length (users d))).
Proof.
  intros H. specialize (H 0 0). cbv zeta in H.
  assert (0 + 0 = Z.of_nat (length (users Demo.single))) as E.
  { apply H. vm_compute. apply elem_of_cons. right. apply elem_of_cons. right.
    apply elem_of_cons. now left. }
  vm_compute in E. discriminate E.
Qed.

(** C9 (amended).  A broadcast by an administrator, once announced, tries
    one delivery to every user, in the order of the users and whatever the
    outcomes of the deliveries before; the store is left as it is.  The
    report that ends it counts as sent the deliveries that resolved and as
    blocked/failed those rejected with the status 403; a delivery rejected
    otherwise is counted in neither tally, so that sent + blocked/failed +
    (number of other rejections) = number of users. *)
Theorem broadcast_reaches_every_user (cfg : Config) (env : Env) (msg : Message)
    (text : option jsstring) (d : Db) (m : Z) :
  let chatId := msg_chat_id msg in
  let replyMsg := msg_reply_to_message msg in
  let out := on_broadcast cfg msg text env d in
  let rs := outcomes env chatId text replyMsg (users d) in
  let report :=
    editMessageText (TxtBroadcastComplete (tally is_sent rs) (tally is_403 rs))
      (ChatId chatId) m [] in
  is_admin cfg (String_of_Z (msg_from_id msg)) = true ->
  truthy text = true \/ is_Some replyMsg ->
  telegram env (sendMessage (ChatId chatId) (TxtBroadcasting (length (users d))) [])
    = Resolved m ->
  recipients (trace out) = map User.userId (users d)
  /\ last (trace out) = Some (Called report (telegram env report))
  /\ tally is_sent rs + tally is_403 rs + tally is_other_failure rs
     = Z.of_nat (length (users d))
  /\ store out = d
  /\ result out = Return tt.
Proof.
  cbv zeta. intros Ha Hwhat Hann.
  rewrite (on_broadcast_run cfg msg text env d m Ha Hwhat Hann).
  unfold store, trace, result. cbn [fst snd]. repeat split.
  - unfold recipients. cbn [flat_map recipient_of app].
    rewrite flat_map_app. cbn [flat_map recipient_of app]. rewrite app_nil_r.
    apply recipients_of_loop.
  - rewrite app_comm_cons. apply last_snoc.
  - rewrite tallies_partition. unfold outcomes. now rewrite length_map.
Qed.

(** The administrator broadcasts "Hello" to three users: user 2 receives
    it, user 3 has blocked the bot, the chat of user 4 is not found. *)
Lemma broadcast_reaches_every_user_witness :
  let out :=
    on_broadcast Demo.cfg (Demo.text_message 1 "/broadcast Hello") (Some (str "Hello"))
      Demo.env_mixed Demo.audience in
  recipients (trace out) = [str "2"; str "3"; str "4"]
  /\ last (trace out)
     = Some (Called (editMessageText (TxtBroadcastComplete 1 1) (ChatId 1) 77 [])
               (Resolved 77)).
Proof.
  cbv zeta.
  destruct (broadcast_reaches_every_user Demo.cfg Demo.env_mixed
              (Demo.text_message 1 "/broadcast Hello") (Some (str "Hello")) Demo.audience 77)
    as (H1 & H2 & _); [reflexivity | left; reflexivity | reflexivity |].
  split; [rewrite H1; reflexivity|rewrite H2; reflexivity].
Defined.

(** ** Titles, attributes and callback data *)

Section Tokens.

Local Open Scope N_scope.

Local Ltac bools :=
  repeat match goal with
    | H : _ && _ = true |- _ => apply andb_prop in H; destruct H
    | H : negb _ = true |- _ => apply negb_true_iff in H
    | |- _ && _ = true => apply andb_true_intro; split
    end.

Lemma split_cons sep s : exists p ps, split sep s = p :: ps.
Proof.
  induction s as [|c t IH]; simpl; [eauto|].
  destruct (c =? sep); [eauto|]. destruct IH as (p & ps & ->). eauto.
Qed.

Lemma split_pieces sep s :
  Forall (fun p => (sep ∉ p) /\ forall c, c ∈ p -> c ∈ s) (split sep s).
Proof.
  induction s as [|c t IH]; simpl.
  - constructor; [|constructor]. split; [apply not_elem_of_nil|auto].
  - destruct (N.eqb_spec c sep) as [->|Hne].
    + constructor.
      * split; [apply not_elem_of_nil|]. intros x Hx. inversion Hx.
      * eapply Forall_impl; [exact IH|]. intros p [Hp Hin]. split; [exact Hp|].
        intros x Hx. right. auto.
    + destruct (split sep t) as [|p ps]; inversion IH as [|? ? [Hp Hin] Hps]; subst.
      * constructor; [|constructor]. split.
        -- intros Hx. apply list_elem_of_singleton in Hx. congruence.
        -- intros x Hx. apply list_elem_of_singleton in Hx. subst. left.
      * constructor.
        -- split.
           ++ intros Hx. apply elem_of_cons in Hx. destruct Hx; [congruence|auto].
           ++ intros x Hx. apply elem_of_cons in Hx. destruct Hx as [->|Hx]; [left|right; auto].
        -- eapply Forall_impl; [exact Hps|]. intros q [Hq Hin']. split; [exact Hq|].
           intros x Hx. right. auto.
Qed.

(** A piece of a string without the separator is the string itself. *)
Lemma split_without sep s : sep ∉ s -> split sep s = [s].
Proof.
  induction s as [|c t IH]; [reflexivity|]. intros H. simpl.
  destruct (N.eqb_spec c sep) as [->|Hne]; [exfalso; apply H; left|].
  rewrite IH; [reflexivity|]. intros Hin. apply H. now right.
Qed.

Lemma split_app sep a b :
  sep ∉ a -> split sep (a ++ sep :: b) = a :: split sep b.
Proof.
  induction a as [|c t IH]; intros H; simpl.
  - now rewrite N.eqb_refl.
  - destruct (N.eqb_spec c sep) as [->|Hne]; [exfalso; apply H; left|].
    rewrite IH; [reflexivity|]. intros Hin. apply H. now right.
Qed.

Lemma to_lower_not_upper c : Char.is_upper (Char.to_lower c) = false.
Proof.
  unfold Char.to_lower. destruct (Char.is_upper c) eqn:E; [|exact E].
  unfold Char.is_upper in *. apply andb_true_iff in E. destruct E as [E1 E2].
  apply N.leb_le in E1, E2. apply andb_false_iff. right. apply N.leb_gt. lia.
Qed.

Lemma letter_not_space c : 65 <= c <= 122 -> Char.is_space c = false.
Proof.
  intros [H1 H2]. unfold Char.is_space.
  rewrite !(proj2 (N.eqb_neq _ _)) by lia.
  rewrite (proj2 (N.leb_gt c 13)) by lia.
  rewrite (proj2 (N.leb_gt 8192 c)) by lia.
  now rewrite andb_false_r.
Qed.

Lemma upper_range c : Char.is_upper c = true -> 65 <= c <= 90.
Proof.
  unfold Char.is_upper. intros H. apply andb_true_iff in H. destruct H as [H1 H2].
  apply N.leb_le in H1, H2. lia.
Qed.

Lemma to_lower_space c : Char.is_space (Char.to_lower c) = Char.is_space c.
Proof.
  unfold Char.to_lower. destruct (Char.is_upper c) eqn:E; [|reflexivity].
  apply upper_range in E. rewrite !letter_not_space by lia. reflexivity.
Qed.

Lemma to_lower_is_space c : (Char.to_lower c =? Char.space) = (c =? Char.space).
Proof.
  unfold Char.to_lower, Char.space. destruct (Char.is_upper c) eqn:E; [|reflexivity].
  apply upper_range in E. rewrite !(proj2 (N.eqb_neq _ _)) by lia. reflexivity.
Qed.

Lemma to_lower_head_space s :
  head_is_space (map Char.to_lower s) = head_is_space s.
Proof. destruct s; simpl; [reflexivity|apply to_lower_space]. Qed.

Lemma to_lower_single_spaced s :
  single_spaced (map Char.to_lower s) = single_spaced s.
Proof.
  induction s as [|c t IH]; [reflexivity|].
  cbn [map single_spaced].
  now rewrite IH, to_lower_space, to_lower_is_space, to_lower_head_space.
Qed.

Lemma to_lower_trimEnd s :
  trimEnd (map Char.to_lower s) = map Char.to_lower (trimEnd s).
Proof.
  induction s as [|c t IH]; [reflexivity|].
  cbn [map trimEnd]. rewrite IH, to_lower_space.
  destruct (trimEnd t); [destruct (Char.is_space c)|]; reflexivity.
Qed.

(** On a string of ASCII code units the case mapping is the folding of
    the letters. *)
Lemma toLowerCase_ascii env s :
  is_ascii s = true -> toLowerCase env s = map Char.to_lower s.
Proof. unfold toLowerCase. now intros ->. Qed.

Lemma toUpperCase_ascii env s :
  is_ascii s = true -> toUpperCase env s = map Char.to_upper s.
Proof. unfold toUpperCase. now intros ->. Qed.

Lemma unwords_split s : unwords (split Char.space s) = s.
Proof.
  induction s as [|c t IH]; [reflexivity|]. simpl split.
  destruct (N.eqb_spec c Char.space) as [->|Hne].
  - destruct (split_cons Char.space t) as (p & ps & E). rewrite E in *.
    simpl. simpl in IH. now rewrite IH.
  - destruct (split_cons Char.space t) as (p & ps & E). rewrite E in *.
    destruct ps as [|q qs]; simpl in *; now rewrite IH.
Qed.

Lemma trimEnd_tail c t : t <> [] -> trimEnd (c :: t) = c :: t -> trimEnd t = t.
Proof.
  intros Ht. simpl. destruct (trimEnd t) as [|d t'] eqn:E.
  - destruct (Char.is_space c); intros H; [discriminate|].
    injection H as <-. contradiction.
  - now intros [= <-].
Qed.

Lemma trimEnd_not_space c : Char.is_space c = true -> trimEnd [c] <> [c].
Proof. simpl. now intros ->. Qed.

(** The pieces of a string in which every white space is one space
    between two other code units. *)
Lemma split_tidy s :
  single_spaced s = true -> trimEnd s = s -> s <> [] ->
  match split Char.space s with
  | p :: ps => (head_is_space s = false -> p <> []) /\ Forall (fun q => q <> []) ps
  | [] => False
  end.
Proof.
  induction s as [|c t IH]; [congruence|]. intros Hs He _.
  cbn [single_spaced] in Hs. bools. rename H into Hc, H0 into Hs.
  simpl split. destruct (N.eqb_spec c Char.space) as [->|Hne].
  - change (Char.is_space Char.space) with true in Hc. cbn [andb] in Hc.
    apply negb_true_iff in Hc.
    assert (t <> []) as Ht by (intros ->; now apply (trimEnd_not_space Char.space)).
    specialize (IH Hs (trimEnd_tail _ _ Ht He) Ht).
    destruct (split Char.space t) as [|p ps]; [contradiction|].
    destruct IH as [Hp Hps]. split; [intros Hx; discriminate Hx|]. constructor; auto.
  - destruct t as [|d t'] eqn:Et; [simpl; split; [discriminate|constructor]|].
    rewrite <- Et in *. assert (t <> []) as Ht by (subst; discriminate).
    specialize (IH Hs (trimEnd_tail _ _ Ht He) Ht).
    destruct (split Char.space t) as [|p ps]; [contradiction|].
    destruct IH as [_ Hps]. split; [discriminate|exact Hps].
Qed.

Lemma filter_nonempty (l : list jsstring) :
  Forall (fun q => q <> []) l -> filter (fun t => (0 <? length t)%nat = true) l = l.
Proof.
  induction 1 as [|q l Hq Hl IH]; [reflexivity|].
  rewrite filter_cons, IH. destruct q; [contradiction|]. reflexivity.
Qed.

End Tokens.

(** X1.  Every attribute is a non-empty word without a space, made of
    code units of the text in lower case.  Of a text in ASCII, an
    attribute holds no upper-case letter, and each of its code units is
    the lower-case form of a code unit of the text. *)
Theorem generateAttributes_tokens (env : Env) (text a : jsstring) :
  a ∈ generateAttributes env text ->
  a <> [] /\ (Char.space ∉ a)
  /\ Forall (fun c => c ∈ toLowerCase env text) a
  /\ (is_ascii text = true ->
      Forall (fun c => Char.is_upper c = false) a
      /\ Forall (fun c => exists c0, c0 ∈ text /\ c = Char.to_lower c0) a).
Proof.
  unfold generateAttributes. intros H. apply list_elem_of_filter in H.
  destruct H as [Hlen Hin].
  pose proof (split_pieces Char.space (toLowerCase env text)) as Hp.
  rewrite Forall_forall in Hp. destruct (Hp a Hin) as [Hsp Hsub].
  split; [|split; [exact Hsp|split]].
  - intros ->. discriminate Hlen.
  - apply Forall_forall. exact Hsub.
  - intros Hascii. rewrite (toLowerCase_ascii env text Hascii) in Hsub.
    split; apply Forall_forall; intros c Hc; specialize (Hsub c Hc);
      apply list_elem_of_fmap in Hsub; destruct Hsub as (c0 & -> & Hc0).
    + apply to_lower_not_upper.
    + exists c0. split; [exact Hc0|reflexivity].
Qed.

Lemma generateAttributes_tokens_witness :
  str "man" <> [] /\ (Char.space ∉ str "man")
  /\ Forall (fun c => Char.is_upper c = false) (str "man")
  /\ Forall (fun c => c ∈ toLowerCase Demo.env (201%N :: str "COLE")) (233%N :: str "cole").
Proof.
  destruct (generateAttributes_tokens Demo.env (str "Iron Man 2008") (str "man"))
    as (H1 & H2 & _ & H3); [vm_compute; right; left|].
  destruct (generateAttributes_tokens Demo.env (201%N :: str "COLE") (233%N :: str "cole"))
    as (_ & _ & H4 & _); [vm_compute; left|].
  split; [exact H1|split; [exact H2|split; [exact (proj1 (H3 eq_refl))|exact H4]]].
Defined.

(** X2.  The attributes of a title in ASCII, joined by single spaces,
    spell the title in lower case: the tokenization loses nothing of a
    cleaned name. *)
Theorem attributes_spell_the_title (env : Env) (name : jsstring) :
  is_ascii (cleanFileName name) = true ->
  unwords (generateAttributes env (cleanFileName name))
  = toLowerCase env (cleanFileName name)
  /\ toLowerCase env (cleanFileName name) = map Char.to_lower (cleanFileName name).
Proof.
  intros Hascii. split; [|now apply toLowerCase_ascii].
  destruct (cleanFileName_normal name) as (_ & _ & Hs & Hh & He). cbv zeta in *.
  set (y := cleanFileName name) in *. unfold generateAttributes.
  rewrite (toLowerCase_ascii env y Hascii).
  destruct y as [|c t] eqn:Ey; [reflexivity|]. rewrite <- Ey in *.
  assert (map Char.to_lower y <> []) as Hne by (rewrite Ey; discriminate).
  pose proof (split_tidy (map Char.to_lower y)) as Ht.
  rewrite to_lower_single_spaced, to_lower_trimEnd, He, to_lower_head_space in Ht.
  specialize (Ht Hs eq_refl Hne).
  pose proof (unwords_split (map Char.to_lower y)) as Hu.
  destruct (split Char.space (map Char.to_lower y)) as [|p ps]; [contradiction|].
  destruct Ht as [Hp Hps]. rewrite filter_nonempty; [exact Hu|].
  constructor; auto.
Qed.

Lemma attributes_spell_the_title_witness :
  unwords (generateAttributes Demo.env (cleanFileName (str "Iron.Man.2008.1080p.mkv")))
  = str "iron man 2008 1080p".
Proof.
  destruct (attributes_spell_the_title Demo.env (str "Iron.Man.2008.1080p.mkv") eq_refl)
    as [H1 H2].
  rewrite H1, H2. reflexivity.
Defined.

Section Shape.

Local Open Scope N_scope.

Local Ltac bools :=
  repeat match goal with
    | H : _ && _ = true |- _ => apply andb_prop in H; destruct H
    | H : negb _ = true |- _ => apply negb_true_iff in H
    | |- _ && _ = true => apply andb_true_intro; split
    end.

Lemma single_spaced_lookup s :
  single_spaced s = true -> trimEnd s = s ->
  forall i c, s !! i = Some c -> Char.is_space c = true ->
    c = Char.space /\ exists c', s !! S i = Some c' /\ Char.is_space c' = false.
Proof.
  induction s as [|d t IH]; intros Hs He i c Hi Hc; [discriminate|].
  cbn [single_spaced] in Hs. bools. rename H into Hd, H0 into Hs.
  destruct i as [|j].
  - injection Hi as ->. rewrite Hc in Hd. bools.
    apply N.eqb_eq in H. split; [exact H|].
    destruct t as [|c' t']; [exfalso; now apply (trimEnd_not_space c)|].
    exists c'. split; [reflexivity|exact H0].
  - change ((d :: t) !! S j) with (t !! j) in Hi.
    assert (t <> []) as Ht by (intros ->; discriminate).
    apply (IH Hs (trimEnd_tail _ _ Ht He) j c Hi Hc).
Qed.

Lemma mention_free_lookup s :
  mention_free s = true ->
  forall i, s !! i = Some Char.at_sign -> head_is_word (drop (S i) s) = false.
Proof.
  induction s as [|d t IH]; intros Hs i Hi; [discriminate|].
  cbn [mention_free] in Hs. bools. destruct i as [|j].
  - injection Hi as ->. rewrite N.eqb_refl in H. exact H.
  - apply (IH H0 j Hi).
Qed.

Lemma strip_extension_length s : (length (strip_extension s) <= length s)%nat.
Proof.
  induction s as [|c t IH]; [reflexivity|].
  change (strip_extension (c :: t)) with
    (if is_dot_extension (c :: t) then [] else c :: strip_extension t).
  destruct (is_dot_extension (c :: t)); simpl; lia.
Qed.

Lemma remove_mentions_length b s :
  (length (remove_mentions_from b s) <= length s)%nat.
Proof.
  revert b. induction s as [|c t IH]; intros b; simpl; [reflexivity|].
  destruct (b && Char.is_word c); [specialize (IH true); lia|].
  destruct ((c =? Char.at_sign) && head_is_word t);
    [specialize (IH true)|specialize (IH false)]; simpl; lia.
Qed.

Lemma collapse_spaces_length b s :
  (length (collapse_spaces_from b s) <= length s)%nat.
Proof.
  revert b. induction s as [|c t IH]; intros b; simpl; [reflexivity|].
  destruct (Char.is_space c); [destruct b|];
    [specialize (IH true)|specialize (IH true)|specialize (IH false)]; simpl; lia.
Qed.

Lemma trimStart_length s : (length (trimStart s) <= length s)%nat.
Proof.
  induction s as [|c t IH]; simpl; [reflexivity|].
  destruct (Char.is_space c); simpl; lia.
Qed.

Lemma trimEnd_length s : (length (trimEnd s) <= length s)%nat.
Proof.
  induction s as [|c t IH]; simpl; [reflexivity|].
  destruct (trimEnd t); [destruct (Char.is_space c)|]; simpl in *; lia.
Qed.

(** The suffix of a name after one of its dots is no extension when it
    holds another dot. *)
Lemma not_extension_with_dot a b :
  existsb (jseq (ignore_case (a ++ Char.dot :: b))) video_extensions = false.
Proof.
  apply not_true_is_false. intros H. apply existsb_exists in H.
  destruct H as (e & He & Hj). unfold jseq in Hj. apply bool_decide_eq_true in Hj.
  assert (Char.dot ∈ e) as Hdot.
  { rewrite <- Hj. unfold ignore_case. rewrite map_app. apply elem_of_app. right. left. }
  vm_compute in He.
  repeat (destruct He as [He|He];
          [subst e; vm_compute in Hdot;
           repeat (apply elem_of_cons in Hdot; destruct Hdot as [Hdot|Hdot];
                   [discriminate Hdot|]);
           now apply not_elem_of_nil in Hdot|]).
  destruct He.
Qed.

Lemma strip_extension_app name ext :
  existsb (jseq (ignore_case ext)) video_extensions = true ->
  strip_extension (name ++ Char.dot :: ext) = name.
Proof.
  intros Hext. induction name as [|c t IH].
  - change (strip_extension ([] ++ Char.dot :: ext)) with
      (if is_dot_extension (Char.dot :: ext) then [] else Char.dot :: strip_extension ext).
    cbn [is_dot_extension]. now rewrite N.eqb_refl, Hext.
  - change (strip_extension ((c :: t) ++ Char.dot :: ext)) with
      (if is_dot_extension (c :: t ++ Char.dot :: ext) then []
       else c :: strip_extension (t ++ Char.dot :: ext)).
    cbn [is_dot_extension]. rewrite not_extension_with_dot, andb_false_r, IH. reflexivity.
Qed.

End Shape.

(** X3.  The title made of a name holds none of the punctuation marks that
    the normalizer replaces; each white space in it is one space that stands
    between two other code units; no [@] in it starts a mention; and it is
    not longer than the name. *)
Theorem cleanFileName_shape (name : jsstring) :
  let title := cleanFileName name in
  Forall (fun c => Char.is_punct c = false) title
  /\ (forall i c, title !! i = Some c -> Char.is_space c = true ->
        c = Char.space /\ (0 < i)%nat
        /\ exists c', title !! S i = Some c' /\ Char.is_space c' = false)
  /\ (forall i, title !! i = Some Char.at_sign -> head_is_word (drop (S i) title) = false)
  /\ (length title <= length name)%nat.
Proof.
  destruct (cleanFileName_normal name) as (Hp & Hm & Hs & Hh & He). cbv zeta in *.
  split; [|split; [|split]].
  - unfold no_punct in Hp. rewrite forallb_forall in Hp. apply Forall_forall.
    intros c Hc. apply list_elem_of_In in Hc. specialize (Hp c Hc).
    now apply negb_true_iff in Hp.
  - intros i c Hi Hc.
    destruct (single_spaced_lookup _ Hs He i c Hi Hc) as [-> Hnext].
    split; [reflexivity|split; [|exact Hnext]].
    destruct i; [|lia]. destruct (cleanFileName name); [discriminate|].
    injection Hi as ->. discriminate Hh.
  - apply mention_free_lookup, Hm.
  - unfold cleanFileName, trim, collapse_spaces, remove_mentions, punct_to_space.
    pose proof (strip_extension_length name).
    pose proof (remove_mentions_length false (strip_extension name)).
    set (a := remove_mentions_from false (strip_extension name)) in *.
    pose proof (collapse_spaces_length false
                  (map (fun c => if Char.is_punct c then Char.space else c) a)) as Hc.
    rewrite length_map in Hc.
    set (b := collapse_spaces_from false _) in *.
    pose proof (trimStart_length b). pose proof (trimEnd_length (trimStart b)). lia.
Qed.

Lemma cleanFileName_shape_witness :
  let title := cleanFileName (str "[@MovieHub] The_Matrix (1999).MKV") in
  Forall (fun c => Char.is_punct c = false) title
  /\ (Char.space = Char.space /\ (0 < 3)%nat
      /\ exists c', title !! 4%nat = Some c' /\ Char.is_space c' = false)
  /\ (length title <= 33)%nat.
Proof.
  destruct (cleanFileName_shape (str "[@MovieHub] The_Matrix (1999).MKV"))
    as (Hp & Hs & _ & Hl).
  split; [exact Hp|split; [|exact Hl]].
  apply (Hs 3%nat Char.space); reflexivity.
Defined.

(** X4.  A video extension, in any letter case, does not show in the title:
    a name that ends in none has the same title with and without one. *)
Theorem cleanFileName_extension (name ext : jsstring) :
  existsb (jseq (ignore_case ext)) video_extensions = true ->
  strip_extension name = name ->
  strip_extension (name ++ Char.dot :: ext) = name
  /\ cleanFileName (name ++ Char.dot :: ext) = cleanFileName name.
Proof.
  intros Hext Hname. pose proof (strip_extension_app name ext Hext) as H.
  split; [exact H|]. unfold cleanFileName. now rewrite H, Hname.
Qed.

Lemma cleanFileName_extension_witness :
  strip_extension (str "Iron.Man.2008" ++ Char.dot :: str "MKV") = str "Iron.Man.2008"
  /\ cleanFileName (str "Iron.Man.2008" ++ Char.dot :: str "MKV")
     = cleanFileName (str "Iron.Man.2008").
Proof.
  apply (cleanFileName_extension (str "Iron.Man.2008") (str "MKV")); reflexivity.
Defined.

(** X5.  What a handler reads back from callback data is what was put after
    the first colon, up to the next colon. *)
Theorem field1_reads_the_payload (action payload rest : jsstring) :
  (Char.colon ∉ action) -> (Char.colon ∉ payload) ->
  field1 (action ++ Char.colon :: payload) = payload
  /\ field1 (action ++ Char.colon :: payload ++ Char.colon :: rest) = payload.
Proof.
  intros Ha Hp. unfold field1. split.
  - rewrite split_app by exact Ha. now rewrite split_without.
  - rewrite split_app by exact Ha. now rewrite split_app.
Qed.

Lemma field1_reads_the_payload_witness :
  field1 (str "GET" ++ Char.colon :: str "F0001") = str "F0001"
  /\ field1 (str "GET" ++ Char.colon :: str "F0001" ++ Char.colon :: str "x") = str "F0001".
Proof.
  apply (field1_reads_the_payload (str "GET") (str "F0001") (str "x"));
    vm_compute; intros H;
    repeat (apply elem_of_cons in H; destruct H as [H|H]; [discriminate H|]);
    now apply not_elem_of_nil in H.
Defined.

(** ** Handlers behind the membership gate *)

(** The prologue of the handlers that record the sender and then ask the
    gate: what follows runs only on the verdict [true]. *)
Lemma gated_run cfg msg (rest : M unit) env d :
  let userId := String_of_Z (msg_from_id msg) in
  let gate := verifyJoin cfg (msg_chat_id msg) userId env d in
  let d1 := saved env msg (store gate) in
  (saveUser (msg_from_id msg) (msg_first_name msg) (msg_username msg);;
   joined ← verifyJoin cfg (msg_chat_id msg) userId;
   if negb joined then mret tt else rest) env d =
    match result gate with
    | Throw e => (Throw e, d1, trace gate)
    | Return false => (Return tt, d1, trace gate)
    | Return true => let '(r, d', l) := rest env d1 in (r, d', trace gate ++ l)
    end.
Proof.
  cbv zeta.
  destruct (verifyJoin_frame cfg (msg_chat_id msg) (String_of_Z (msg_from_id msg)) env d)
    as (Hu & _ & _).
  unfold saved. mrun. rewrite verifyJoin_set_users.
  destruct (verifyJoin cfg (msg_chat_id msg) (String_of_Z (msg_from_id msg)) env d)
    as [[[[|]|e] d1] l1]; unfold store, result, trace in *;
    cbn [fst snd app] in *; rewrite <- ?Hu, ?app_nil_r; try reflexivity.
  now destruct (rest env _) as [[r d'] l].
Qed.

(** *** The order of the answers *)

Lemma insert_by_perm key f l : Files.insert_by key f l ≡ₚ f :: l.
Proof.
  induction l as [|g t IH]; simpl; [reflexivity|].
  destruct (key g <? key f); [reflexivity|].
  rewrite IH. apply Permutation_swap.
Qed.

Lemma sort_desc_perm key l : Files.sort_desc key l ≡ₚ l.
Proof.
  unfold Files.sort_desc. induction l as [|f t IH]; simpl; [reflexivity|].
  now rewrite insert_by_perm, IH.
Qed.

Lemma sort_desc_length key l : length (Files.sort_desc key l) = length l.
Proof. apply Permutation_length, sort_desc_perm. Qed.

Lemma insert_by_descending key f l :
  descending key l -> descending key (Files.insert_by key f l).
Proof.
  unfold descending. induction 1 as [|g t Ht IH Hg]; simpl.
  - constructor; constructor.
  - destruct (Z.ltb_spec (key g) (key f)) as [Hlt|Hge].
    + constructor; [constructor; assumption|].
      constructor; [lia|]. eapply Forall_impl; [exact Hg|]. simpl. intros; lia.
    + constructor; [exact IH|].
      rewrite (insert_by_perm key f t). constructor; [lia|exact Hg].
Qed.

Lemma sort_desc_descending key l : descending key (Files.sort_desc key l).
Proof.
  unfold Files.sort_desc. induction l as [|f t IH]; simpl; [constructor|].
  now apply insert_by_descending.
Qed.

(** In a descending list, what is left out after the first [n] records
    has keys no larger than those of the records taken. *)
Lemma descending_take_drop key n l shown left :
  descending key l -> shown ∈ take n l -> left ∈ drop n l -> key left <= key shown.
Proof.
  unfold descending. intros Hl. revert n. induction Hl as [|g t Ht IH Hg]; intros n Hs Hd.
  - rewrite take_nil in Hs. inversion Hs.
  - destruct n as [|n]; [inversion Hs|]. simpl in Hs, Hd.
    apply elem_of_cons in Hs. destruct Hs as [->|Hs]; [|eauto].
    rewrite Forall_forall in Hg. apply Hg, (subseteq_drop n t), Hd.
Qed.

(** *** Keyword search *)

(** The branch "keyword search" of the message handler: a text message
    that is neither a command nor a catalog id. *)
Lemma keyword_search_run cfg msg env d t :
  let chatId := msg_chat_id msg in
  let userId := String_of_Z (msg_from_id msg) in
  let gate := verifyJoin cfg chatId userId env d in
  let d1 := saved env msg (store gate) in
  let keywords := search_keywords env t in
  let found := matching keywords d in
  let total := Z.of_nat (length found) in
  let shown := Files.limit (RESULTS_PER_PAGE_NUM cfg) found in
  let keyboard :=
    map (file_button LblFile) shown
    ++ (if RESULTS_PER_PAGE_NUM cfg <? total
        then [[CallbackButton (LblPageOf 1 (page_count cfg total)) (str "PAGE:1")]]
        else []) in
  let none := sendMessage (ChatId chatId) (TxtNoResults t) [] in
  let answer := sendMessage (ChatId chatId) (TxtFound total t) keyboard in
  let d2 := set_search (<[userId := (keywords, now env + 300 * 1000)]> (search d)) d1 in
  msg_video msg = None -> msg_document msg = None ->
  trim <$> msg_text msg = Some t -> truthy (Some t) = true ->
  startsWith (str "/") t = false -> is_catalog_id t = false ->
  on_message cfg msg env d =
    match result gate with
    | Throw e => (Throw e, d1, trace gate)
    | Return false => (Return tt, d1, trace gate)
    | Return true =>
        if (length keywords =? 0)%nat then (Return tt, d1, trace gate)
        else if (length shown =? 0)%nat then
          match telegram env none with
          | Resolved m =>
              (Return tt, d1,
               trace gate ++ [Called none (Resolved m);
                              Timer 5000 (deleteMessage (ChatId chatId) m)])
          | Rejected s =>
              (Throw (TelegramError s), d1, trace gate ++ [Called none (Rejected s)])
          end
        else
          match telegram env answer with
          | Resolved m =>
              (Return tt, d2,
               trace gate ++ [Called answer (Resolved m);
                              Timer 60000 (deleteMessage (ChatId chatId) m);
                              Timer 2000 (deleteMessage (ChatId chatId) (msg_message_id msg))])
          | Rejected s =>
              (Throw (TelegramError s), d2, trace gate ++ [Called answer (Rejected s)])
          end
    end.
Proof.
  cbv zeta. intros Hv Hd Ht Htruthy Hslash Hid.
  destruct (verifyJoin_frame cfg (msg_chat_id msg) (String_of_Z (msg_from_id msg)) env d)
    as (_ & Hk & Hsearch).
  destruct (ledgers_eq _ _ Hk) as (Hf & _). clear Hk.
  unfold on_message. rewrite Hv, Hd, Ht.
  change (default [] (Some t)) with t. rewrite Htruthy, Hslash.
  cbn [andb negb].
  replace (if is_admin cfg (String_of_Z (msg_from_id msg)) then None else None)
    with (@None Attachment) by (now destruct (is_admin cfg _)).
  rewrite Hid.
  rewrite gated_run.
  destruct (verifyJoin cfg (msg_chat_id msg) (String_of_Z (msg_from_id msg)) env d)
    as [[[[|]|e] dg] lg]; unfold store, result, trace in *; cbn [fst snd] in *;
    [|reflexivity|reflexivity].
  rewrite run_bind. unfold ask at 1. cbv beta iota. fold (search_keywords env t).
  destruct (length (search_keywords env t) =? 0)%nat;
    [mrun; now rewrite app_nil_r|].
  unfold matching, Files.sort_recent. rewrite sort_desc_length.
  unfold saved. mrun. cbn [files search set_users]. rewrite Hf.
  destruct (length (Files.limit (RESULTS_PER_PAGE_NUM cfg) _) =? 0)%nat; cbv beta.
  - destruct (telegram env _); reflexivity.
  - cbn [search set_users]. rewrite Hsearch.
    destruct (RESULTS_PER_PAGE_NUM cfg <? _); rewrite ?app_nil_r;
      destruct (telegram env _); reflexivity.
Qed.

Lemma notices_app l l' : notices (l ++ l') = notices l ++ notices l'.
Proof. apply flat_map_app. Qed.

Lemma limit_take cfg l :
  0 < RESULTS_PER_PAGE_NUM cfg ->
  Files.limit (RESULTS_PER_PAGE_NUM cfg) l = take (Z.to_nat (RESULTS_PER_PAGE_NUM cfg)) l.
Proof. intros H. unfold Files.limit. now rewrite Z.abs_eq by lia. Qed.

Lemma limit_nil cfg l :
  0 < RESULTS_PER_PAGE_NUM cfg ->
  (length (Files.limit (RESULTS_PER_PAGE_NUM cfg) l) =? 0)%nat = (length l =? 0)%nat.
Proof.
  intros H. rewrite limit_take by exact H.
  destruct l as [|f l]; [now rewrite take_nil|].
  destruct (Z.to_nat (RESULTS_PER_PAGE_NUM cfg)) eqn:E; [lia|reflexivity].
Qed.

(** X6.  A keyword search answers with the records of the catalog that hold
    every keyword, most recent first, one button per record up to the page
    size; it keeps the keywords for the pages that follow, sends no file and
    charges nothing. Without a match it says so and leaves the keywords of
    the search before in place. *)
Theorem search_lists_the_matches (cfg : Config) (env : Env) (msg : Message) (d : Db)
    (t : jsstring) :
  let userId := String_of_Z (msg_from_id msg) in
  let gate := verifyJoin cfg (msg_chat_id msg) userId env d in
  let out := on_message cfg msg env d in
  let keywords := search_keywords env t in
  let found := matching keywords d in
  let total := Z.of_nat (length found) in
  msg_video msg = None -> msg_document msg = None ->
  trim <$> msg_text msg = Some t -> truthy (Some t) = true ->
  startsWith (str "/") t = false -> is_catalog_id t = false ->
  result gate = Return true -> keywords <> [] -> 0 < RESULTS_PER_PAGE_NUM cfg ->
  found ≡ₚ List.filter (Files.matches keywords) (files d)
  /\ descending File.uploaded_at found
  /\ (found = [] ->
      notices (trace out) = notices (trace gate) ++ [TxtNoResults t]
      /\ displayed (trace out) = displayed (trace gate)
      /\ search (store out) = search d)
  /\ (found <> [] ->
      notices (trace out) = notices (trace gate) ++ [TxtFound total t]
      /\ displayed (trace out)
         = displayed (trace gate)
           ++ map get_button (take (Z.to_nat (RESULTS_PER_PAGE_NUM cfg)) found)
           ++ (if RESULTS_PER_PAGE_NUM cfg <? total then [str "PAGE:1"] else [])
      /\ search (store out) !! userId = Some (keywords, now env + 300 * 1000))
  /\ attempted (trace out) = []
  /\ ledgers (store out) = ledgers d.
Proof.
  cbv zeta. intros Hv Hd Ht Htruthy Hslash Hid Hg Hk Hrp.
  set (userId := String_of_Z (msg_from_id msg)) in *.
  destruct (verifyJoin_frame cfg (msg_chat_id msg) userId env d) as (_ & Hl & Hsr).
  pose proof (verifyJoin_sends_no_file cfg (msg_chat_id msg) userId env d) as Hs.
  unfold sends_no_file in Hs.
  rewrite (keyword_search_run cfg msg env d t Hv Hd Ht Htruthy Hslash Hid). fold userId.
  set (gate := verifyJoin cfg (msg_chat_id msg) userId env d) in *.
  rewrite Hg. rewrite limit_nil by exact Hrp.
  assert ((length (search_keywords env t) =? 0)%nat = false) as ->
      by (destruct (search_keywords env t); [contradiction|reflexivity]).
  set (found := matching (search_keywords env t) d).
  split; [apply sort_desc_perm|]. split; [apply sort_desc_descending|].
  destruct (Nat.eqb_spec (length found) 0) as [E|E].
  - apply length_zero_iff_nil in E.
    split; [intros _|split; [intros H; contradiction|]].
    + destruct (telegram env _); unfold store, trace, saved in *; cbn [fst snd search set_users];
        rewrite notices_app, displayed_app; cbn [notices displayed flat_map notice_of buttons_of app];
        rewrite ?app_nil_r; auto.
    + destruct (telegram env _); unfold store, trace, saved in *; cbn [fst snd];
        rewrite attempted_app, Hs; split; auto.
  - split; [intros H; rewrite H in E; contradiction|split; [intros _|]].
    + set (answer := sendMessage _ _ _).
      assert (displayed [Called answer (telegram env answer)]
              = map get_button (take (Z.to_nat (RESULTS_PER_PAGE_NUM cfg)) found)
                ++ (if RESULTS_PER_PAGE_NUM cfg <? Z.of_nat (length found)
                    then [str "PAGE:1"] else [])) as Hshown.
      { unfold answer, displayed. cbn [flat_map buttons_of]. rewrite app_nil_r.
        rewrite concat_app, flat_map_app, displayed_file_buttons, limit_take by exact Hrp.
        f_equal. destruct (RESULTS_PER_PAGE_NUM cfg <? _); reflexivity. }
      destruct (telegram env answer) eqn:Er; unfold store, trace; cbn [fst snd];
        rewrite notices_app, displayed_app;
        (split; [reflexivity|split; [|cbn [search set_search]; apply lookup_insert_eq]]);
        f_equal; rewrite <- Hshown; reflexivity.
    + destruct (telegram env _); unfold store, trace, saved in *; cbn [fst snd];
        rewrite attempted_app, Hs; split; auto.
Qed.

Lemma search_lists_the_matches_witness :
  let out := on_message Demo.cfg (Demo.text_message 2 "Iron man") Demo.env Demo.one_file in
  notices (trace out) = [TxtFound 1 (str "Iron man")]
  /\ displayed (trace out) = [str "GET:F0001"]
  /\ search (store out) !! str "2" = Some ([str "iron"; str "man"], 301000)
  /\ attempted (trace out) = [].
Proof.
  destruct (search_lists_the_matches Demo.cfg Demo.env (Demo.text_message 2 "Iron man")
              Demo.one_file (str "Iron man"))
    as (_ & _ & _ & Hfound & Ha & _); try reflexivity; [discriminate|].
  destruct Hfound as (Hn & Hd & Hs); [discriminate|].
  split; [exact Hn|split; [exact Hd|split; [exact Hs|exact Ha]]].
Defined.

(** A search beyond ASCII: the title [École 2020] is found by the text
    [ÉCOLE], both put in lower case by the host. *)
Example search_beyond_ascii :
  let ecole := 201%N :: str "cole 2020" in
  let record :=
    {| File.customId := str "F0001"; File.file_id := str "BAAD-ecole";
       File.file_name := ecole; File.type := str "video"; File.uploader_id := str "1";
       File.uploaded_at := 1000; File.downloads := 0; File.file_size := str "1.4 GB";
       File.clean_title := cleanFileName ecole;
       File.attributes := generateAttributes Demo.env (cleanFileName ecole) |} in
  let typed :=
    {| msg_chat_id := 2; msg_from_id := 2; msg_first_name := str "Ann";
       msg_username := None; msg_message_id := 5;
       msg_text := Some (201%N :: str "COLE");
       msg_caption := None; msg_video := None; msg_document := None;
       msg_reply_to_message := None |} in
  displayed (trace (on_message Demo.cfg typed Demo.env (set_files [record] empty_db)))
  = [str "GET:F0001"].
Proof. vm_compute. reflexivity. Qed.

(** *** Pages of results *)

Lemma dispatch_page cfg q :
  startsWith (str "PAGE:") (q_data q) = true -> dispatch cfg q = paginate cfg q.
Proof.
  intros H. destruct (startsWith_app _ _ H) as [r Hr].
  unfold dispatch. cbv zeta. rewrite Hr. reflexivity.
Qed.

(** The branch [PAGE:<n>]. *)
Lemma paginate_run cfg q env d :
  let userId := String_of_Z (q_from_id q) in
  paginate cfg q env d =
    match live (now env) (search d !! userId) with
    | None =>
        (settled (telegram env (answerCallbackQuery (q_id q) TxtSearchExpired false)), d,
         [Called (answerCallbackQuery (q_id q) TxtSearchExpired false)
                          (telegram env (answerCallbackQuery (q_id q) TxtSearchExpired false))])
    | Some keywords =>
        match Number_of env (field1 (q_data q)) with
        | None => (Throw BadRequest, d, [])
        | Some page =>
            if page <? 0 then (Throw BadRequest, d, [])
            else
              let view := page_view cfg q page (matching keywords d) in
              match telegram env view with
              | Resolved m => (Return tt, d, [Called view (Resolved m)])
              | Rejected s => (Throw (TelegramError s), d, [Called view (Rejected s)])
              end
        end
    end.
Proof.
  cbv zeta. unfold paginate. mrun.
  destruct (live (now env) (search d !! String_of_Z (q_from_id q))) as [keywords|];
    [|reflexivity].
  destruct (Number_of env (field1 (q_data q))) as [page|]; [|reflexivity].
  destruct (page <? 0); [reflexivity|]. mrun.
  unfold page_view, page_keyboard, page_of, nav_row, matching, Files.sort_recent.
  rewrite sort_desc_length.
  destruct (0 <? page), (page <? _); cbn [app]; rewrite ?app_nil_r;
    destruct (telegram env _); reflexivity.
Qed.

(** [Math.ceil(total / size) - 1] is the last page that has a result. *)
Lemma next_page_exists cfg page total :
  0 < RESULTS_PER_PAGE_NUM cfg ->
  (page <? page_count cfg total - 1) = ((page + 1) * RESULTS_PER_PAGE_NUM cfg <? total).
Proof.
  intros Hs. unfold page_count. set (size := RESULTS_PER_PAGE_NUM cfg) in *.
  pose proof (Z.div_mod (- total) size ltac:(lia)) as Hdm.
  pose proof (Z.mod_pos_bound (- total) size Hs) as Hm.
  destruct (Z.ltb_spec page (- (- total / size) - 1)),
    (Z.ltb_spec ((page + 1) * size) total); try reflexivity; nia.
Qed.

Lemma page_of_lookup cfg page (l : list File.doc) j :
  0 <= page -> 0 < RESULTS_PER_PAGE_NUM cfg ->
  page_of cfg page l !! j =
    if Z.of_nat j <? RESULTS_PER_PAGE_NUM cfg
    then l !! (Z.to_nat (page * RESULTS_PER_PAGE_NUM cfg) + j)%nat
    else None.
Proof.
  intros Hp Hs. unfold page_of, Files.skip. rewrite limit_take by exact Hs.
  destruct (Z.ltb_spec (Z.of_nat j) (RESULTS_PER_PAGE_NUM cfg)).
  - rewrite lookup_take_lt by lia. apply lookup_drop.
  - apply lookup_take_ge. lia.
Qed.

Lemma page_of_nonempty cfg page (l : list File.doc) :
  0 <= page -> 0 < RESULTS_PER_PAGE_NUM cfg ->
  page_of cfg page l <> [] <-> page * RESULTS_PER_PAGE_NUM cfg < Z.of_nat (length l).
Proof.
  intros Hp Hs. pose proof (page_of_lookup cfg page l 0 Hp Hs) as H0.
  rewrite (proj2 (Z.ltb_lt _ _)) in H0 by lia. rewrite Nat.add_0_r in H0. split.
  - intros Hne. destruct (page_of cfg page l) as [|f r]; [contradiction|].
    symmetry in H0. apply lookup_lt_Some in H0. nia.
  - intros Hlt Hnil. rewrite Hnil in H0. symmetry in H0.
    apply lookup_ge_None in H0. nia.
Qed.

(** X7.  A page of results shows the records of the search in the order of
    the first answer: row [j] of page [n] is result [n * size + j], so that
    the pages cut the list of results without loss or repeat. The button to
    the next page is there exactly when that page has a result, the button
    to the page before on every page but the first. Once the keywords of the
    search have left the cache, the bot answers that the search has expired. *)
Theorem pages_cut_the_results (cfg : Config) (env : Env) (q : Query) (d : Db) :
  let userId := String_of_Z (q_from_id q) in
  let gate := verifyJoin cfg (q_chat_id q) userId env d in
  let out := on_callback_query cfg q env d in
  let size := RESULTS_PER_PAGE_NUM cfg in
  startsWith (str "PAGE:") (q_data q) = true ->
  result gate = Return true ->
  (live (now env) (search d !! userId) = None ->
   notices (trace out) = notices (trace gate) ++ [TxtSearchExpired]
   /\ store out = store gate)
  /\ (forall keywords page,
        live (now env) (search d !! userId) = Some keywords ->
        Number_of env (field1 (q_data q)) = Some page -> 0 <= page -> 0 < size ->
        let found := matching keywords d in
        let total := Z.of_nat (length found) in
        let view := page_view cfg q page found in
        (exists rest, trace out = trace gate ++ Called view (telegram env view) :: rest)
        /\ store out = store gate
        /\ (forall j, page_of cfg page found !! j =
                      if Z.of_nat j <? size
                      then found !! (Z.to_nat (page * size) + j)%nat
                      else None)
        /\ nav_row page (page_count cfg total - 1)
           = (if 0 <? page
              then [CallbackButton LblPrev (str "PAGE:" ++ String_of_Z (page - 1))]
              else [])
             ++ (if (page + 1) * size <? total
                 then [CallbackButton LblNext (str "PAGE:" ++ String_of_Z (page + 1))]
                 else [])
        /\ (page_of cfg (page + 1) found <> [] <-> (page + 1) * size < total)).
Proof.
  cbv zeta. intros Hdata Hg.
  set (userId := String_of_Z (q_from_id q)) in *.
  destruct (verifyJoin_frame cfg (q_chat_id q) userId env d) as (_ & Hl & Hsr).
  destruct (ledgers_eq _ _ Hl) as (Hf & _).
  assert (jseq (q_data q) (str "CHECK_JOIN") = false) as Hcj
      by (eapply data_not_check_join; [exact Hdata|reflexivity]).
  rewrite (on_callback_query_passed cfg q env d Hcj Hg). fold userId.
  set (gate := verifyJoin cfg (q_chat_id q) userId env d) in *.
  unfold try_catch. rewrite (dispatch_page cfg q Hdata), paginate_run. fold userId.
  rewrite Hsr. split.
  - intros ->. destruct (telegram env _); cbn [settled]; unfold store, trace;
      cbn [fst snd]; rewrite notices_app; split; reflexivity.
  - intros keywords page -> -> Hp Hs.
    rewrite (proj2 (Z.ltb_ge _ _) Hp).
    assert (matching keywords (store gate) = matching keywords d) as ->
        by (unfold matching; now rewrite Hf).
    split; [|split; [|split; [|split]]].
    + cbv zeta. destruct (telegram env _); unfold trace; cbn [fst snd]; eauto.
    + cbv zeta. destruct (telegram env _); reflexivity.
    + intros j. now apply page_of_lookup.
    + unfold nav_row. now rewrite next_page_exists.
    + apply page_of_nonempty; [lia|exact Hs].
Qed.

Lemma pages_cut_the_results_witness :
  let searched :=
    store (on_message Demo.cfg (Demo.text_message 2 "Iron man") Demo.env Demo.one_file) in
  let out := on_callback_query Demo.cfg (Demo.press 2 "PAGE:0") Demo.env searched in
  (exists rest,
      trace out
      = Called (page_view Demo.cfg (Demo.press 2 "PAGE:0") 0 [Demo.iron_man]) (Resolved 77)
          :: rest)
  /\ nav_row 0 (page_count Demo.cfg 1 - 1) = [].
Proof.
  pose (searched :=
          store (on_message Demo.cfg (Demo.text_message 2 "Iron man") Demo.env Demo.one_file)).
  destruct (pages_cut_the_results Demo.cfg Demo.env (Demo.press 2 "PAGE:0") searched)
    as [_ H]; try reflexivity.
  destruct (H [str "iron"; str "man"] 0) as (Ht & _ & _ & Hn & _); try reflexivity.
  split; [exact Ht|exact Hn].
Defined.

(** *** The lists of [/recent] and [/trending] *)

Lemma show_files_run cfg msg sorted none title label env d :
  let chatId := msg_chat_id msg in
  let gate := verifyJoin cfg chatId (String_of_Z (msg_from_id msg)) env d in
  let d1 := saved env msg (store gate) in
  let found := take 10 (sorted (files d)) in
  let empty := sendMessage (ChatId chatId) none [] in
  let view := sendMessage (ChatId chatId) title (map (file_button label) found) in
  show_files cfg msg sorted none title label env d =
    match result gate with
    | Throw e => (Throw e, d1, trace gate)
    | Return false => (Return tt, d1, trace gate)
    | Return true =>
        if (length found =? 0)%nat
        then (settled (telegram env empty), d1,
              trace gate ++ [Called empty (telegram env empty)])
        else match telegram env view with
             | Resolved m =>
                 (Return tt, d1,
                  trace gate ++ [Called view (Resolved m);
                                 Timer 60000 (deleteMessage (ChatId chatId) m)])
             | Rejected s =>
                 (Throw (TelegramError s), d1, trace gate ++ [Called view (Rejected s)])
             end
    end.
Proof.
  cbv zeta.
  destruct (verifyJoin_frame cfg (msg_chat_id msg) (String_of_Z (msg_from_id msg)) env d)
    as (_ & Hk & _).
  destruct (ledgers_eq _ _ Hk) as (Hf & _). clear Hk.
  unfold show_files. rewrite gated_run.
  destruct (verifyJoin cfg (msg_chat_id msg) (String_of_Z (msg_from_id msg)) env d)
    as [[[[|]|e] dg] lg]; unfold store, result, trace in *; cbn [fst snd] in *;
    [|reflexivity|reflexivity].
  unfold saved. mrun. cbn [files set_users]. rewrite Hf.
  destruct (length (take 10 (sorted (files d))) =? 0)%nat; cbv beta; [reflexivity|].
  destruct (telegram env _); reflexivity.
Qed.

Lemma show_files_top_ten cfg env msg d key none title label :
  let gate := verifyJoin cfg (msg_chat_id msg) (String_of_Z (msg_from_id msg)) env d in
  let out := show_files cfg msg (Files.sort_desc key) none title label env d in
  result gate = Return true ->
  (exists shown,
      top_ten key d shown
      /\ displayed (trace out) = displayed (trace gate) ++ map get_button shown)
  /\ (files d = [] -> notices (trace out) = notices (trace gate) ++ [none])
  /\ ledgers (store out) = ledgers d.
Proof.
  cbv zeta. intros Hg.
  destruct (verifyJoin_frame cfg (msg_chat_id msg) (String_of_Z (msg_from_id msg)) env d)
    as (_ & Hl & _).
  rewrite show_files_run, Hg.
  set (gate := verifyJoin cfg (msg_chat_id msg) (String_of_Z (msg_from_id msg)) env d) in *.
  set (ranked := Files.sort_desc key (files d)).
  split; [|split].
  - exists (take 10 ranked). split.
    + exists (drop 10 ranked). rewrite take_drop.
      split; [apply sort_desc_perm|]. split; [apply sort_desc_descending|].
      rewrite length_take. unfold ranked. now rewrite sort_desc_length.
    + destruct (Nat.eqb_spec (length (take 10 ranked)) 0) as [E|E].
      * apply length_zero_iff_nil in E. rewrite E. unfold trace. cbn [fst snd].
        rewrite displayed_app. reflexivity.
      * assert (forall r, displayed [Called (sendMessage (ChatId (msg_chat_id msg)) title
                                               (map (file_button label) (take 10 ranked))) r]
                          = map get_button (take 10 ranked)) as Hshown.
        { intros r. unfold displayed. cbn [flat_map buttons_of]. rewrite app_nil_r.
          apply displayed_file_buttons. }
        destruct (telegram env _) eqn:Er; unfold trace; cbn [fst snd];
          rewrite displayed_app; f_equal; rewrite <- (Hshown (Resolved 0)); reflexivity.
  - intros Hnil. unfold ranked. rewrite Hnil. cbn [length take Nat.eqb Files.sort_desc fold_right].
    unfold trace. cbn [fst snd]. rewrite notices_app. reflexivity.
  - destruct (length (take 10 ranked) =? 0)%nat; [|destruct (telegram env _)];
      unfold store, saved; cbn [fst snd]; exact Hl.
Qed.

(** X8.  [/recent] lists the ten records uploaded last and [/trending] the
    ten records downloaded most (all of them when the catalog holds fewer),
    one button per record; on an empty catalog each says that there is
    nothing to show. Neither changes a collection other than [User]. *)
Theorem recent_and_trending_show_the_top_ten (cfg : Config) (env : Env) (msg : Message)
    (d : Db) :
  let gate := verifyJoin cfg (msg_chat_id msg) (String_of_Z (msg_from_id msg)) env d in
  let recent := on_recent cfg msg env d in
  let trending := on_trending cfg msg env d in
  result gate = Return true ->
  ((exists shown,
       top_ten File.uploaded_at d shown
       /\ displayed (trace recent) = displayed (trace gate) ++ map get_button shown)
   /\ (files d = [] -> notices (trace recent) = notices (trace gate) ++ [TxtNoFilesYet])
   /\ ledgers (store recent) = ledgers d)
  /\ ((exists shown,
         top_ten File.downloads d shown
         /\ displayed (trace trending) = displayed (trace gate) ++ map get_button shown)
      /\ (files d = [] -> notices (trace trending) = notices (trace gate) ++ [TxtNoTrendingFiles])
      /\ ledgers (store trending) = ledgers d).
Proof.
  cbv zeta. intros Hg. split.
  - apply (show_files_top_ten cfg env msg d File.uploaded_at), Hg.
  - apply (show_files_top_ten cfg env msg d File.downloads), Hg.
Qed.

Lemma recent_and_trending_show_the_top_ten_witness :
  let recent := on_recent Demo.cfg (Demo.text_message 2 "/recent") Demo.env Demo.one_file in
  let trending := on_trending Demo.cfg (Demo.text_message 2 "/trending") Demo.env empty_db in
  (exists shown, top_ten File.uploaded_at Demo.one_file shown
                 /\ displayed (trace recent) = map get_button shown)
  /\ notices (trace trending) = [TxtNoTrendingFiles].
Proof.
  split.
  - destruct (recent_and_trending_show_the_top_ten Demo.cfg Demo.env
                (Demo.text_message 2 "/recent") Demo.one_file eq_refl) as [[H _] _].
    exact H.
  - destruct (recent_and_trending_show_the_top_ten Demo.cfg Demo.env
                (Demo.text_message 2 "/trending") empty_db eq_refl) as [_ (_ & H & _)].
    exact (H eq_refl).
Defined.

(** ** Catalog ids as typed and as pressed *)

Section Digits.

Lemma length_str s : length (str s) = String.length s.
Proof.
  unfold str. rewrite length_map. induction s as [|c s IH]; simpl; [reflexivity|now rewrite IH].
Qed.

Lemma string_of_uint_length u :
  String.length (NilEmpty.string_of_uint u) = Decimal.nb_digits u.
Proof. induction u; simpl; now rewrite ?IHu. Qed.

Lemma string_of_uint_digits u :
  Forall (fun c => Char.is_digit c = true) (str (NilEmpty.string_of_uint u)).
Proof. induction u; simpl; constructor; try reflexivity; exact IHu. Qed.

Lemma of_lu_bound u :
  (DecimalPos.Unsigned.of_lu u < 10 ^ N.of_nat (Decimal.nb_digits u))%N.
Proof.
  induction u; cbn [DecimalPos.Unsigned.of_lu Decimal.nb_digits];
    rewrite ?Nat2N.inj_succ, ?N.pow_succ_r'; simpl N.of_nat; lia.
Qed.

Lemma to_uint_bound p :
  (N.pos p < 10 ^ N.of_nat (Decimal.nb_digits (Pos.to_uint p)))%N.
Proof.
  rewrite <- (DecimalPos.Unsigned.of_to p) at 1.
  rewrite DecimalPos.Unsigned.of_uint_alt, <- DecimalFacts.nb_digits_rev.
  apply of_lu_bound.
Qed.

(** The decimal digits of a natural number. *)
Lemma String_of_Z_nonneg n :
  0 <= n ->
  Forall (fun c => Char.is_digit c = true) (String_of_Z n)
  /\ n < 10 ^ Z.of_nat (length (String_of_Z n)).
Proof.
  intros Hn. unfold String_of_Z. destruct n as [|p|p]; [split|split|lia].
  - repeat constructor.
  - reflexivity.
  - cbn [Z.to_int NilZero.string_of_int].
    assert (NilZero.string_of_uint (Pos.to_uint p) = NilEmpty.string_of_uint (Pos.to_uint p))
      as -> by (pose proof (DecimalPos.Unsigned.to_uint_nonnil p);
                destruct (Pos.to_uint p); [contradiction|reflexivity..]).
    apply string_of_uint_digits.
  - cbn [Z.to_int NilZero.string_of_int].
    assert (NilZero.string_of_uint (Pos.to_uint p) = NilEmpty.string_of_uint (Pos.to_uint p))
      as -> by (pose proof (DecimalPos.Unsigned.to_uint_nonnil p);
                destruct (Pos.to_uint p); [contradiction|reflexivity..]).
    rewrite length_str, string_of_uint_length.
    pose proof (to_uint_bound p) as H.
    apply N2Z.inj_lt in H. rewrite N2Z.inj_pow, nat_N_Z in H. exact H.
Qed.

End Digits.

Lemma catalog_id_upto_9999 :
  forallb (fun k =>
             let id := catalog_id (Z.of_nat k) in
             is_catalog_id id && is_catalog_id (map Char.to_lower id)
             && jseq (map Char.to_upper (map Char.to_lower id)) id
             && is_ascii id && is_ascii (map Char.to_lower id))
    (seq 0 (Z.to_nat 10000)) = true.
Proof. vm_compute. reflexivity. Qed.

Lemma catalog_id_from_10000 n : 10000 <= n -> is_catalog_id (catalog_id n) = false.
Proof.
  intros Hn. destruct (String_of_Z_nonneg n ltac:(lia)) as [_ Hb].
  unfold catalog_id, padStart. change (str "F") with [70%N]. cbn [app is_catalog_id].
  assert (5 <= length (String_of_Z n))%nat as Hlen.
  { destruct (Nat.le_gt_cases 5 (length (String_of_Z n))) as [H|H]; [exact H|].
    assert (10 ^ Z.of_nat (length (String_of_Z n)) <= 10 ^ 4)
      by (apply Z.pow_le_mono_r; lia).
    lia. }
  rewrite length_app, repeat_length.
  replace (4 - length (String_of_Z n))%nat with 0%nat by lia.
  rewrite (proj2 (Nat.eqb_neq _ _)) by lia.
  now rewrite andb_false_r.
Qed.

(** A message that is neither a command nor a catalog id sends no file. *)
Lemma keyword_search_sends_no_file cfg msg env d t :
  msg_video msg = None -> msg_document msg = None ->
  trim <$> msg_text msg = Some t -> truthy (Some t) = true ->
  startsWith (str "/") t = false -> is_catalog_id t = false ->
  attempted (trace (on_message cfg msg env d)) = [].
Proof.
  intros Hv Hd Ht Htruthy Hslash Hid.
  pose proof (verifyJoin_sends_no_file cfg (msg_chat_id msg) (String_of_Z (msg_from_id msg))
                env d) as Hs.
  unfold sends_no_file in Hs.
  rewrite (keyword_search_run cfg msg env d t Hv Hd Ht Htruthy Hslash Hid).
  set (gate := verifyJoin cfg (msg_chat_id msg) (String_of_Z (msg_from_id msg)) env d) in *.
  destruct (result gate) as [[|]|e]; [|exact Hs|exact Hs].
  destruct (length (search_keywords env t) =? 0)%nat; [exact Hs|].
  destruct (length _ =? 0)%nat; destruct (telegram env _); unfold trace in *; cbn [fst snd];
    rewrite attempted_app, Hs; reflexivity.
Qed.

(** X9.  The ids that the sequence gives up to [F9999] are accepted when
    typed, in either letter case, and read back as issued. From the sequence
    number 10000 on, the id has five digits: typed, it is not taken for an
    id, and the message sends no file. *)
Theorem typed_ids_stop_at_F9999 (cfg : Config) (n : Z) :
  (0 <= n <= 9999 ->
   is_catalog_id (catalog_id n) = true
   /\ forall env,
       is_catalog_id (toLowerCase env (catalog_id n)) = true
       /\ toUpperCase env (toLowerCase env (catalog_id n)) = catalog_id n)
  /\ (10000 <= n ->
      is_catalog_id (catalog_id n) = false
      /\ forall env msg d,
          msg_video msg = None -> msg_document msg = None ->
          trim <$> msg_text msg = Some (catalog_id n) ->
          attempted (trace (on_message cfg msg env d)) = []).
Proof.
  split.
  - intros Hn. pose proof catalog_id_upto_9999 as H.
    rewrite forallb_forall in H. specialize (H (Z.to_nat n)).
    rewrite Z2Nat.id in H by lia. cbv zeta in H.
    assert (In (Z.to_nat n) (seq 0 (Z.to_nat 10000))) as Hin by (apply in_seq; lia).
    apply H in Hin. apply andb_prop in Hin. destruct Hin as [Hin H5].
    apply andb_prop in Hin. destruct Hin as [Hin H4].
    apply andb_prop in Hin. destruct Hin as [Hin H3].
    apply andb_prop in Hin. destruct Hin as [H1 H2].
    unfold jseq in H3. apply bool_decide_eq_true in H3.
    split; [exact H1|]. intros env.
    rewrite (toLowerCase_ascii env _ H4), (toUpperCase_ascii env _ H5). auto.
  - intros Hn. pose proof (catalog_id_from_10000 n Hn) as Hid.
    split; [exact Hid|]. intros env msg d Hv Hd Ht.
    apply (keyword_search_sends_no_file cfg msg env d (catalog_id n) Hv Hd Ht);
      [reflexivity|reflexivity|exact Hid].
Qed.

Lemma typed_ids_stop_at_F9999_witness :
  (is_catalog_id (catalog_id 42) = true
   /\ is_catalog_id (toLowerCase Demo.env (catalog_id 42)) = true
   /\ toUpperCase Demo.env (toLowerCase Demo.env (catalog_id 42)) = catalog_id 42)
  /\ is_catalog_id (catalog_id 10000) = false
  /\ attempted (trace (on_message Demo.cfg (Demo.text_message 2 "F10000") Demo.env
                         Demo.one_file)) = [].
Proof.
  split.
  { destruct (typed_ids_stop_at_F9999 Demo.cfg 42) as [H _].
    destruct (H ltac:(lia)) as [H1 H2]. split; [exact H1|apply (H2 Demo.env)]. }
  destruct (typed_ids_stop_at_F9999 Demo.cfg 10000) as [_ H].
  destruct (H ltac:(lia)) as [H1 H2]. split; [exact H1|].
  apply (H2 Demo.env (Demo.text_message 2 "F10000") Demo.one_file); reflexivity.
Defined.

(** ** Invariants of the collections *)

(** *** The users known to the bot *)

Lemma upsert_user_ids userId firstName username joined l :
  map User.userId (upsert_user userId firstName username joined l)
  = if existsb (fun u => jseq (User.userId u) userId) l
    then map User.userId l
    else map User.userId l ++ [userId].
Proof.
  induction l as [|u l IH]; [reflexivity|]. cbn [upsert_user existsb].
  destruct (jseq (User.userId u) userId) eqn:E; cbn [orb map].
  - unfold jseq in E. apply bool_decide_eq_true in E. now rewrite E.
  - rewrite IH. now destruct (existsb _ l).
Qed.

Lemma existsb_userId userId l :
  existsb (fun u => jseq (User.userId u) userId) l = false -> userId ∉ map User.userId l.
Proof.
  induction l as [|u l IH]; simpl; intros H Hin; [inversion Hin|].
  apply orb_false_elim in H. destruct H as [Hu Hl].
  apply elem_of_cons in Hin. destruct Hin as [->|Hin]; [|now apply IH].
  unfold jseq in Hu. apply bool_decide_eq_false in Hu. now apply Hu.
Qed.

Lemma saveUser_unique from_id first_name username :
  respects (preserves users_unique) (saveUser from_id first_name username).
Proof.
  intros env d. unfold preserves, users_unique, store. mrun. cbn [users set_users].
  intros H. rewrite upsert_user_ids.
  destruct (existsb _ (users d)) eqn:E; [exact H|].
  apply NoDup_app. repeat split; [exact H| |apply NoDup_singleton].
  intros x Hx Hin. apply list_elem_of_singleton in Hin. subst x.
  revert Hx. now apply existsb_userId.
Qed.

Lemma upsert_user_stay userId firstName username joined l u :
  u ∈ l ->
  exists u', u' ∈ upsert_user userId firstName username joined l
             /\ User.userId u' = User.userId u /\ User.joinedAt u' = User.joinedAt u.
Proof.
  induction l as [|v l IH]; intros Hu; [inversion Hu|]. cbn [upsert_user].
  apply elem_of_cons in Hu.
  destruct (jseq (User.userId v) userId) eqn:E.
  - unfold jseq in E. apply bool_decide_eq_true in E. destruct Hu as [->|Hu].
    + eexists. split; [left|]. split; [symmetry; exact E|reflexivity].
    + exists u. split; [now right|auto].
  - destruct Hu as [->|Hu].
    + exists v. split; [left|auto].
    + destruct (IH Hu) as (u' & Hin & Hid & Hj). exists u'. split; [now right|auto].
Qed.

Lemma users_stay_refl d : users_stay d d [].
Proof. intros u Hu. exists u. auto. Qed.

Lemma users_stay_trans d d' d'' l l' :
  users_stay d d' l -> users_stay d' d'' l' -> users_stay d d'' (l ++ l').
Proof.
  intros H H' u Hu. destruct (H u Hu) as (u' & Hu' & E1 & E2).
  destruct (H' u' Hu') as (u'' & Hu'' & E1' & E2'). exists u''.
  split; [exact Hu''|]. split; congruence.
Qed.

Lemma saveUser_stay from_id first_name username :
  respects users_stay (saveUser from_id first_name username).
Proof.
  intros env d u Hu. unfold store. mrun. cbn [users set_users].
  now apply upsert_user_stay.
Qed.

Lemma users_unique_handler cfg ev : respects (preserves users_unique) (handler cfg ev).
Proof.
  revert ev.
  handlers_respect ltac:(apply saveUser_unique) preserves_pre ltac:(exact (fun H => H)).
Qed.

Lemma users_stay_handler cfg ev : respects users_stay (handler cfg ev).
Proof.
  revert ev.
  handlers_respect ltac:(apply saveUser_stay)
    ltac:(first [exact users_stay_refl | exact users_stay_trans])
    ltac:(first [ apply users_stay_refl
                | let u := fresh "u" in
                  let Hu := fresh "Hu" in
                  intros u Hu; exists u; split; [exact Hu|split; reflexivity] ]).
Qed.

(** X10.  The bot knows each user once, and never forgets one: along every
    run a user id is held by at most one record of [User], and a user known
    at some moment is known ever after, with the date of joining (a user who
    has blocked the bot included). *)
Theorem users_are_kept_once (cfg : Config) (evs : list (Env * Event)) :
  users_unique (run cfg evs empty_db).1
  /\ (forall d, users_unique d -> users_unique (run cfg evs d).1)
  /\ (forall d u, u ∈ users d ->
                  exists u', u' ∈ users (run cfg evs d).1
                             /\ User.userId u' = User.userId u
                             /\ User.joinedAt u' = User.joinedAt u).
Proof.
  assert (forall d, users_unique d -> users_unique (run cfg evs d).1) as H
      by (intros d; apply (respects_run _ (preserves_refl _) (preserves_trans _) cfg
                             (users_unique_handler cfg) evs d)).
  split; [apply H; constructor|]. split; [exact H|].
  intros d. apply (respects_run _ users_stay_refl users_stay_trans cfg
                     (users_stay_handler cfg) evs d).
Qed.

Lemma users_are_kept_once_witness :
  let out := run Demo.cfg [(Demo.env, EvStart (Demo.text_message 3 "/start"))] Demo.audience in
  users_unique out.1
  /\ exists u', u' ∈ users out.1 /\ User.userId u' = str "3" /\ User.joinedAt u' = 1000.
Proof.
  destruct (users_are_kept_once Demo.cfg [(Demo.env, EvStart (Demo.text_message 3 "/start"))])
    as (_ & Hu & Hs).
  split.
  - apply Hu. apply (bool_decide_unpack _). vm_compute. exact I.
  - apply (Hs Demo.audience (Demo.user "3")). right. left.
Defined.

(** *** The records of the catalog *)

Lemma existsb_has_customId cid l :
  existsb (Files.has_customId cid) l = false -> cid ∉ map File.customId l.
Proof.
  induction l as [|f l IH]; simpl; intros H Hin; [inversion Hin|].
  apply orb_false_elim in H. destruct H as [Hf Hl].
  apply elem_of_cons in Hin. destruct Hin as [->|Hin]; [|now apply IH].
  unfold Files.has_customId, jseq in Hf. apply bool_decide_eq_false in Hf. now apply Hf.
Qed.

Lemma customIds_unique_create f : respects (preserves customIds_unique) (File_create f).
Proof.
  intros env d. unfold File_create. mrun.
  destruct (existsb (Files.has_customId (File.customId f)) (files d)
            || existsb (Files.has_file_id (File.file_id f)) (files d)) eqn:E;
    [apply preserves_refl|].
  apply orb_false_elim in E. destruct E as [E _].
  unfold preserves, customIds_unique. simpl. intros H.
  rewrite map_app. apply NoDup_app. repeat split; [exact H| |apply NoDup_singleton].
  intros x Hx Hin. apply list_elem_of_singleton in Hin. simpl in Hin. subst x.
  revert Hx. now apply existsb_has_customId.
Qed.

Lemma customIds_unique_inc i : respects (preserves customIds_unique) (File_inc_downloads i).
Proof.
  intros env d. unfold preserves, customIds_unique. simpl.
  now rewrite map_alter_inc_downloads.
Qed.

Lemma customIds_unique_delete cid :
  respects (preserves customIds_unique) (File_deleteOne cid).
Proof.
  intros env d. unfold File_deleteOne. mrun.
  destruct (existsb (Files.has_customId cid) (files d)); [|apply preserves_refl].
  unfold preserves, customIds_unique. simpl. intros H.
  eapply sublist_NoDup; [exact H|]. apply (fmap_sublist File.customId), remove_first_sublist.
Qed.

Lemma customIds_unique_handler cfg ev :
  respects (preserves customIds_unique) (handler cfg ev).
Proof.
  revert ev.
  handlers_respect
    ltac:(first [ apply customIds_unique_create | apply customIds_unique_inc
                | apply customIds_unique_delete ])
    preserves_pre
    ltac:(exact (fun H => H)).
Qed.

Lemma customIds_unique_run cfg evs : customIds_unique (run cfg evs empty_db).1.
Proof.
  apply (respects_run _ (preserves_refl _) (preserves_trans _) cfg
           (customIds_unique_handler cfg) evs empty_db).
  constructor.
Qed.

(** A record of a catalog without duplicate ids is found under its id. *)
Lemma findOne_from_unique k l f :
  NoDup (map File.customId l) -> f ∈ l ->
  exists i, Files.findOne_from k (File.customId f) l = Some (i, f).
Proof.
  revert k. induction l as [|g l IH]; intros k Hn Hf; [inversion Hf|].
  cbn [map] in Hn. apply NoDup_cons in Hn. destruct Hn as [Hg Hn].
  cbn [Files.findOne_from]. unfold Files.has_customId, jseq.
  apply elem_of_cons in Hf. destruct Hf as [->|Hf].
  - rewrite bool_decide_eq_true_2 by reflexivity. eauto.
  - rewrite bool_decide_eq_false_2; [now apply IH|].
    intros E. apply Hg. rewrite E. now apply list_elem_of_fmap_2.
Qed.

(** *** Where the catalog comes from *)

Lemma from_admins_pendings_only cfg (g : Db -> Db) d :
  files (g d) = files d ->
  map_Forall (fun _ p => Pending.adminId p ∈ ADMIN_SET cfg) (pendings (g d)) ->
  from_admins cfg d -> from_admins cfg (g d).
Proof. intros Hf Hp [_ H]. split; [exact Hp|now rewrite Hf]. Qed.

Lemma Pending_create_from_admins cfg p :
  Pending.adminId p ∈ ADMIN_SET cfg ->
  respects (preserves (from_admins cfg)) (Pending_create p).
Proof.
  intros Hp env d. unfold Pending_create. mrun.
  destruct (pendings d !! fresh_id env); [apply preserves_refl|].
  intros [H1 H2]. split; [|exact H2]. unfold store. simpl.
  apply map_Forall_insert_2; assumption.
Qed.

Lemma Pending_deleteOne_from_admins cfg id :
  respects (preserves (from_admins cfg)) (Pending_deleteOne id).
Proof.
  intros env d. unfold Pending_deleteOne. mrun.
  destruct (pendings d !! id); [|destruct (isObjectId env id); exact (fun H => H)].
  intros [H1 H2]. split; [|exact H2]. unfold store. simpl.
  now apply map_Forall_delete.
Qed.

Lemma Pending_ttl_sweep_from_admins cfg :
  respects (preserves (from_admins cfg)) Pending_ttl_sweep.
Proof.
  intros env d [H1 H2]. split; [|exact H2]. unfold store. simpl.
  intros k p Hk. apply map_lookup_filter_Some in Hk. destruct Hk as [Hk _].
  exact (H1 k p Hk).
Qed.

Lemma File_inc_downloads_from_admins cfg i :
  respects (preserves (from_admins cfg)) (File_inc_downloads i).
Proof.
  intros env d [H1 H2]. split; [exact H1|]. unfold store. simpl.
  apply Forall_alter; [exact H2|]. intros f _ H. exact H.
Qed.

Lemma File_deleteOne_from_admins cfg cid :
  respects (preserves (from_admins cfg)) (File_deleteOne cid).
Proof.
  intros env d. unfold File_deleteOne. mrun.
  destruct (existsb _ _); [|exact (fun H => H)].
  intros [H1 H2]. split; [exact H1|]. unfold store. simpl.
  now apply Forall_remove_first.
Qed.

Lemma confirm_from_admins cfg q : respects (preserves (from_admins cfg)) (confirm q).
Proof.
  intros env d Hi. destruct (pendings d !! field1 (q_data q)) as [p|] eqn:Hp.
  - destruct (Files.exists_file_id (Pending.file_id p) (files d)) eqn:Hdup.
    + rewrite (confirm_duplicate q env d p Hp Hdup).
      destruct Hi as [H1 H2]. split; [|exact H2]. unfold store. simpl.
      now apply map_Forall_delete.
    + rewrite (confirm_fresh_run q env d p Hp Hdup). cbv zeta.
      destruct (existsb _ _); [exact Hi|].
      assert (from_admins cfg
                (set_pendings (delete (field1 (q_data q)) (pendings d))
                   (set_files
                      (files d ++ [published_file env (catalog_id (file_seq d + 1)) p])
                      (set_counters (<[str "file" := file_seq d + 1]> (counters d)) d))))
        as Hnew.
      { destruct Hi as [H1 H2]. split; simpl.
        - now apply map_Forall_delete.
        - apply Forall_app. split; [exact H2|]. constructor; [|constructor].
          exact (H1 _ _ Hp). }
      destruct (telegram env _); exact Hnew.
  - rewrite (confirm_absent q env d Hp). destruct (isObjectId env _); exact Hi.
Qed.

Ltac from_admins_known cfg :=
  first [ apply (confirm_from_admins cfg) | apply (Pending_deleteOne_from_admins cfg)
        | apply (Pending_ttl_sweep_from_admins cfg)
        | apply (File_inc_downloads_from_admins cfg)
        | apply (File_deleteOne_from_admins cfg) ].

Lemma on_message_from_admins cfg msg :
  respects (preserves (from_admins cfg)) (on_message cfg msg).
Proof.
  unfold on_message. cbv zeta.
  destruct (truthy _ && startsWith _ _); [apply respects_ret; preserves_pre|].
  destruct (is_admin cfg (String_of_Z (msg_from_id msg))) eqn:Ha.
  - apply bool_decide_eq_true in Ha.
    respects_auto
      ltac:(first [ apply Pending_create_from_admins; exact Ha | from_admins_known cfg ])
      preserves_pre ltac:(exact (fun H => H)).
  - respects_auto ltac:(from_admins_known cfg) preserves_pre ltac:(exact (fun H => H)).
Qed.

Lemma from_admins_handler cfg ev : respects (preserves (from_admins cfg)) (handler cfg ev).
Proof.
  revert ev.
  handlers_respect
    ltac:(first [ apply on_message_from_admins | from_admins_known cfg ])
    preserves_pre
    ltac:(exact (fun H => H)).
Qed.

(** X11.  Whatever pending upload or record the store holds along a run was
    submitted by an administrator: only the upload branch of the message
    handler creates a pending upload, for a sender of [ADMIN_SET], and a
    record takes its uploader from the pending upload it comes from. Where
    no administrator is configured the catalog stays empty. *)
Theorem the_catalog_comes_from_admins (cfg : Config) (evs : list (Env * Event)) :
  let d := (run cfg evs empty_db).1 in
  Forall (fun f => File.uploader_id f ∈ ADMIN_SET cfg) (files d)
  /\ map_Forall (fun _ p => Pending.adminId p ∈ ADMIN_SET cfg) (pendings d)
  /\ (ADMIN_SET cfg = ∅ -> files d = [] /\ pendings d = ∅).
Proof.
  cbv zeta.
  assert (from_admins cfg (run cfg evs empty_db).1) as [Hp Hf].
  { apply (respects_run _ (preserves_refl _) (preserves_trans _) cfg
             (from_admins_handler cfg) evs empty_db).
    split; [apply map_Forall_empty|constructor]. }
  split; [exact Hf|]. split; [exact Hp|]. intros Hnone. rewrite Hnone in *. split.
  - destruct (files _) as [|f l]; [reflexivity|].
    inversion Hf as [|? ? Hin _]. now apply not_elem_of_empty in Hin.
  - apply map_empty. intros k. destruct (pendings _ !! k) as [p|] eqn:E; [|reflexivity].
    now apply Hp, not_elem_of_empty in E.
Qed.

Lemma the_catalog_comes_from_admins_witness :
  let d := (run Demo.cfg Demo.republish empty_db).1 in
  Forall (fun f => File.uploader_id f ∈ ADMIN_SET Demo.cfg) (files d)
  /\ map_Forall (fun _ p => Pending.adminId p ∈ ADMIN_SET Demo.cfg) (pendings d).
Proof.
  destruct (the_catalog_comes_from_admins Demo.cfg Demo.republish) as (Hf & Hp & _).
  split; [exact Hf|exact Hp].
Defined.

(** *** Records leave by [/delete] only *)

Lemma files_stay_refl d : files_stay d d [].
Proof. intros f Hf. exists f. auto using continues_refl. Qed.

Lemma files_stay_trans d d' d'' l l' :
  files_stay d d' l -> files_stay d' d'' l' -> files_stay d d'' (l ++ l').
Proof.
  intros H H' f Hf. destruct (H f Hf) as (f' & Hf' & Hc).
  destruct (H' f' Hf') as (f'' & Hf'' & Hc'). exists f''. split; [exact Hf''|].
  unfold continues in *. destruct Hc as (E1 & E2 & ?), Hc' as (E1' & E2' & ?).
  repeat split; [congruence|congruence|lia].
Qed.

Lemma files_stay_create f : respects files_stay (File_create f).
Proof.
  intros env d. unfold File_create. mrun.
  destruct (_ || _); [apply files_stay_refl|].
  intros g Hg. exists g. unfold store. simpl. split; [|apply continues_refl].
  apply elem_of_app. now left.
Qed.

Lemma elem_of_alter_inc_stay (f : File.doc) (i : nat) (l : list File.doc) :
  f ∈ l -> exists f', f' ∈ alter File.inc_downloads i l /\ continues f f'.
Proof.
  revert i. induction l as [|g l IH]; intros i H; [inversion H|].
  apply elem_of_cons in H. destruct i as [|i]; simpl.
  - destruct H as [->|H].
    + exists (File.inc_downloads g). split; [left|]. unfold continues. simpl.
      repeat split; lia.
    + exists f. split; [now right|apply continues_refl].
  - destruct H as [->|H].
    + exists g. split; [left|apply continues_refl].
    + destruct (IH i H) as (f' & Hf' & Hc). exists f'. split; [now right|exact Hc].
Qed.

Lemma files_stay_inc i : respects files_stay (File_inc_downloads i).
Proof.
  intros env d f Hf. unfold store. simpl. now apply elem_of_alter_inc_stay.
Qed.

Ltac files_stay_auto :=
  respects_auto
    ltac:(first [ apply files_stay_create | apply files_stay_inc
                | apply respects_broadcast_loop;
                  [exact files_stay_refl|exact files_stay_trans|intros; apply files_stay_refl..] ])
    ltac:(first [exact files_stay_refl | exact files_stay_trans])
    ltac:(first [ apply files_stay_refl
                | let f := fresh "f" in
                  let Hf := fresh "Hf" in
                  intros f Hf; exists f; split; [exact Hf|apply continues_refl] ]).

Lemma files_stay_handler cfg ev :
  (forall msg arg, ev = EvDelete msg arg ->
                   is_admin cfg (String_of_Z (msg_from_id msg)) = false) ->
  respects files_stay (handler cfg ev).
Proof.
  intros H. destruct ev; unfold handler; try (clear H; files_stay_auto; fail).
  unfold on_delete. rewrite (H msg arg eq_refl). apply respects_ret, files_stay_refl.
Qed.

(** X12.  No handler but the [/delete] of an administrator takes a record
    out of the catalog: after any other event every record is still there,
    under its catalog id and with its file, its count of downloads no
    smaller. *)
Theorem records_leave_by_delete_only (cfg : Config) (env : Env) (ev : Event) (d : Db)
    (f : File.doc) :
  (forall msg arg, ev = EvDelete msg arg ->
                   is_admin cfg (String_of_Z (msg_from_id msg)) = false) ->
  f ∈ files d ->
  exists f', f' ∈ files (store (handler cfg ev env d)) /\ continues f f'.
Proof. intros H. apply (files_stay_handler cfg ev H env d). Qed.

Lemma records_leave_by_delete_only_witness :
  exists f',
    f' ∈ files (store (handler Demo.cfg (EvDelete (Demo.text_message 2 "/delete F0001")
                                           (str "F0001")) Demo.env Demo.one_file))
    /\ continues Demo.iron_man f'.
Proof.
  apply (records_leave_by_delete_only Demo.cfg Demo.env
           (EvDelete (Demo.text_message 2 "/delete F0001") (str "F0001"))
           Demo.one_file Demo.iron_man).
  - intros msg arg [= <- <-]. reflexivity.
  - left.
Defined.

(** *** Download counts never decrease *)

Lemma downloads_grow_refl d : downloads_grow d d [].
Proof.
  split; [lia|]. intros f Hf. left. exists f. auto using continues_refl.
Qed.

Lemma downloads_grow_trans d d' d'' l l' :
  downloads_grow d d' l -> downloads_grow d' d'' l' -> downloads_grow d d'' (l ++ l').
Proof.
  intros [Hs H] [Hs' H']. split; [lia|]. intros f'' Hf''.
  destruct (H' f'' Hf'') as [(f' & Hf' & Hc')|(n & Hn & E & H0)].
  - destruct (H f' Hf') as [(f & Hf & Hc)|(n & Hn & E & H0)].
    + left. exists f. split; [exact Hf|]. eapply continues_trans; eassumption.
    + right. exists n. destruct Hc' as (E1 & _ & Hle).
      split; [lia|]. split; [congruence|lia].
  - right. exists n. split; [lia|]. split; [exact E|exact H0].
Qed.

(** A computation that leaves the catalog and the counters alone. *)
Lemma downloads_grow_quiet d d' l :
  files d' = files d -> counters d' = counters d -> downloads_grow d d' l.
Proof.
  intros Hf Hc. unfold downloads_grow, file_seq. rewrite Hf, Hc. split; [lia|].
  intros f H. left. exists f. auto using continues_refl.
Qed.

Lemma downloads_grow_inc i : respects downloads_grow (File_inc_downloads i).
Proof.
  intros env d. split; [reflexivity|]. intros f' Hf'. unfold store in Hf'. simpl in Hf'.
  destruct (elem_of_alter_inc _ _ _ Hf') as [Hl|(f & Hf & ->)]; left.
  - exists f'. auto using continues_refl.
  - exists f. split; [exact Hf|]. unfold continues. simpl. repeat split; lia.
Qed.

Lemma downloads_grow_delete cid : respects downloads_grow (File_deleteOne cid).
Proof.
  intros env d. unfold File_deleteOne. mrun.
  destruct (existsb _ _); [|apply downloads_grow_refl].
  split; [reflexivity|]. intros f' Hf'. unfold store in Hf'. simpl in Hf'.
  left. exists f'. split; [|apply continues_refl].
  eapply elem_of_sublist; [exact Hf'|apply remove_first_sublist].
Qed.

(** The record that [CONFIRM:] creates bears the id that the counter has
    just issued. *)
Lemma confirm_downloads_grow q : respects downloads_grow (confirm q).
Proof.
  intros env d. destruct (pendings d !! field1 (q_data q)) as [p|] eqn:Hp.
  - destruct (Files.exists_file_id (Pending.file_id p) (files d)) eqn:Hdup.
    + rewrite (confirm_duplicate q env d p Hp Hdup). now apply downloads_grow_quiet.
    + rewrite (confirm_fresh_run q env d p Hp Hdup). cbv zeta.
      assert (forall l,
                 downloads_grow d
                   (set_counters (<[str "file" := file_seq d + 1]> (counters d)) d) l)
        as Hcount.
      { intros l. split; [rewrite file_seq_set_counters; lia|].
        intros f Hf. left. exists f. auto using continues_refl. }
      assert (forall l,
                 downloads_grow d
                   (set_pendings (delete (field1 (q_data q)) (pendings d))
                      (set_files
                         (files d ++ [published_file env (catalog_id (file_seq d + 1)) p])
                         (set_counters (<[str "file" := file_seq d + 1]> (counters d)) d)))
                   l) as Hnew.
      { intros l.
        assert (forall v w,
                   file_seq (set_pendings v
                               (set_files w
                                  (set_counters (<[str "file" := file_seq d + 1]> (counters d))
                                     d)))
                   = file_seq d + 1) as Hseq
            by (intros v w; exact (file_seq_set_counters _ d)).
        split; [rewrite Hseq; lia|]. rewrite Hseq.
        intros f Hf. cbn [files set_pendings set_files] in Hf.
        apply elem_of_app in Hf. destruct Hf as [Hf|Hf].
        - left. exists f. auto using continues_refl.
        - apply list_elem_of_singleton in Hf. subst f. right.
          exists (file_seq d + 1). split; [lia|]. split; [reflexivity|simpl; lia]. }
      destruct (existsb _ (files d)); [apply Hcount|].
      destruct (telegram env _); apply Hnew.
  - rewrite (confirm_absent q env d Hp).
    destruct (isObjectId env _); now apply downloads_grow_quiet.
Qed.

Lemma downloads_grow_handler cfg ev : respects downloads_grow (handler cfg ev).
Proof.
  revert ev.
  handlers_respect
    ltac:(first [ apply confirm_downloads_grow | apply downloads_grow_inc
                | apply downloads_grow_delete ])
    ltac:(first [exact downloads_grow_refl | exact downloads_grow_trans])
    ltac:(apply downloads_grow_quiet; reflexivity).
Qed.

Lemma NoDup_fmap_eq {A B} (h : A -> B) (l : list A) x y :
  NoDup (map h l) -> x ∈ l -> y ∈ l -> h x = h y -> x = y.
Proof.
  induction l as [|a l IH]; intros Hn Hx Hy E; [inversion Hx|].
  cbn [map] in Hn. apply NoDup_cons in Hn. destruct Hn as [Ha Hn].
  apply elem_of_cons in Hx. apply elem_of_cons in Hy.
  destruct Hx as [->|Hx], Hy as [->|Hy]; auto.
  - exfalso. apply Ha. rewrite E. now apply list_elem_of_fmap_2.
  - exfalso. apply Ha. rewrite <- E. now apply list_elem_of_fmap_2.
Qed.

(** Where the ids are distinct and issued by the counter, the record
    that bears the id of a record before has a count at least as
    large. *)
Lemma downloads_grow_monotone d d' l :
  downloads_grow d d' l -> ids_issued d -> customIds_unique d ->
  forall f f', f ∈ files d -> f' ∈ files d' -> File.customId f' = File.customId f ->
               File.downloads f <= File.downloads f'.
Proof.
  intros [_ H] [H0 Hi] Hu f f' Hf Hf' E.
  destruct (H f' Hf') as [(g & Hg & Eg & _ & Hle)|(n & Hn & En & _)].
  - assert (g = f) as ->
        by (apply (NoDup_fmap_eq File.customId (files d));
            [exact Hu|exact Hg|exact Hf|congruence]).
    exact Hle.
  - exfalso. rewrite Forall_forall in Hi. destruct (Hi f Hf) as (m & Hm & Em).
    assert (n = m) by (apply catalog_id_inj; [lia|lia|congruence]). lia.
Qed.

(** C3 (amended).  A download action that is authorized -- the sender
    passes the gate, the record is found, the count read for the day is
    below the limit and, for [GET:], the answer "Sending file..." is
    accepted -- increases the quota count and the record's download count
    by exactly 1 each before the delivery is attempted, and they stay
    increased whether or not the delivery succeeds; the delivery of the
    record's file is attempted once, and the file is delivered exactly
    when that call resolves.  The download count of a record is
    monotonic: where the records bear distinct ids issued by the counter,
    the record found after an event under the id of a record before has
    a count at least as large; and so along every run of the bot from
    the empty store, whatever the events. *)
Theorem download_is_charged_before_delivery (cfg : Config) (env : Env) (d : Db) :
  let today := date_on_increment env in
  (forall q _id file,
      let userId := String_of_Z (q_from_id q) in
      let gate := verifyJoin cfg (q_chat_id q) userId env d in
      let out := on_callback_query cfg q env d in
      startsWith (str "GET:") (q_data q) = true ->
      result gate = Return true ->
      Files.findOne (field1 (q_data q)) (files d) = Some (_id, file) ->
      quota d userId (date_on_peek env) < DAILY_LIMIT_NUM cfg ->
      resolves (telegram env (answerCallbackQuery (q_id q) TxtSendingFile false)) = true ->
      files (store out) = alter File.inc_downloads _id (files d)
      /\ files (store out) !! _id = Some (File.inc_downloads file)
      /\ limits (store out) = <[(userId, today) := quota d userId today + 1]> (limits d)
      /\ quota (store out) userId today = quota d userId today + 1
      /\ attempted (trace out) = [File.file_id file]
      /\ delivered (trace out) =
           if resolves (telegram env (file_call (q_chat_id q) file))
           then [File.file_id file] else [])
  /\ (forall msg t _id file,
        let userId := String_of_Z (msg_from_id msg) in
        let gate := verifyJoin cfg (msg_chat_id msg) userId env d in
        let out := on_message cfg msg env d in
        msg_video msg = None -> msg_document msg = None ->
        trim <$> msg_text msg = Some t -> is_catalog_id t = true ->
        result gate = Return true ->
        Files.findOne (toUpperCase env t) (files d) = Some (_id, file) ->
        quota d userId (date_on_peek env) < DAILY_LIMIT_NUM cfg ->
        files (store out) = alter File.inc_downloads _id (files d)
        /\ files (store out) !! _id = Some (File.inc_downloads file)
        /\ limits (store out) = <[(userId, today) := quota d userId today + 1]> (limits d)
        /\ quota (store out) userId today = quota d userId today + 1
        /\ attempted (trace out) = [File.file_id file]
        /\ delivered (trace out) =
             if resolves (telegram env (file_call (msg_chat_id msg) file))
             then [File.file_id file] else [])
  /\ (forall ev,
        let d' := store (handler cfg ev env d) in
        downloads_grow d d' (trace (handler cfg ev env d))
        /\ (ids_issued d -> customIds_unique d ->
            forall f f', f ∈ files d -> f' ∈ files d' ->
                         File.customId f' = File.customId f ->
                         File.downloads f <= File.downloads f'))
  /\ (forall evs evs' f f',
        let d0 := (run cfg evs empty_db).1 in
        let d1 := (run cfg evs' d0).1 in
        f ∈ files d0 -> f' ∈ files d1 -> File.customId f' = File.customId f ->
        File.downloads f <= File.downloads f').
Proof.
  cbv zeta. split; [|split; [|split]].
  - intros q i file Hdata Hg Hfind Hq Hack.
    set (userId := String_of_Z (q_from_id q)) in *.
    destruct (verifyJoin_frame cfg (q_chat_id q) userId env d) as (_ & Hk & _).
    destruct (ledgers_eq _ _ Hk) as (Hf & _ & Hl & _). clear Hk.
    pose proof (verifyJoin_sends_no_file cfg (q_chat_id q) userId env d) as Hs.
    unfold sends_no_file in Hs. pose proof (delivered_attempted _ Hs) as Hdl.
    destruct (findOne_lookup _ _ _ _ Hfind) as [Hi _].
    rewrite on_callback_query_passed;
      [|eapply data_not_check_join; [exact Hdata|reflexivity]|exact Hg].
    fold userId. set (gate := verifyJoin cfg (q_chat_id q) userId env d) in *.
    unfold try_catch. rewrite (dispatch_get cfg q Hdata), download_run. fold userId.
    rewrite Hf, Hfind.
    assert (quota (store gate) userId (date_on_peek env) = quota d userId (date_on_peek env))
      as -> by (unfold quota; now rewrite Hl).
    apply Z.leb_gt in Hq. rewrite Hq.
    destruct (telegram env (answerCallbackQuery (q_id q) TxtSendingFile false));
      [|discriminate Hack].
    destruct (charged_spec env userId i file d (store gate) Hf Hl Hi) as (C1 & C2 & C3 & C4).
    destruct (telegram env (file_call (q_chat_id q) file)) eqn:Hsend;
      unfold callback_error;
      cbv beta iota zeta delta [mbind M_bind bind mret M_ret ret emit fire];
      unfold store, trace in *; cbn [fst snd];
      (repeat split; try assumption);
      rewrite ?attempted_app, ?delivered_app, ?Hs, ?Hdl;
      unfold attempted, delivered; cbn [flat_map];
      rewrite ?attempted_file_call, ?delivered_file_call;
      cbn [attempted_by delivered_by app resolves]; reflexivity.
  - intros msg t i file Hv Hd Ht Hid Hg Hfind Hq.
    set (userId := String_of_Z (msg_from_id msg)) in *.
    destruct (verifyJoin_frame cfg (msg_chat_id msg) userId env d) as (_ & Hk & _).
    destruct (ledgers_eq _ _ Hk) as (Hf & _ & Hl & _). clear Hk.
    pose proof (verifyJoin_sends_no_file cfg (msg_chat_id msg) userId env d) as Hs.
    unfold sends_no_file in Hs. pose proof (delivered_attempted _ Hs) as Hdl.
    destruct (findOne_lookup _ _ _ _ Hfind) as [Hi _].
    rewrite (typed_id_run cfg msg env d t Hv Hd Ht Hid). fold userId.
    set (gate := verifyJoin cfg (msg_chat_id msg) userId env d) in *.
    rewrite Hg, Hfind. apply Z.leb_gt in Hq. rewrite Hq.
    set (saved := set_users _) in *.
    destruct (charged_spec env userId i file d (saved (store gate)) Hf Hl Hi)
      as (C1 & C2 & C3 & C4).
    destruct (telegram env (file_call (msg_chat_id msg) file)) eqn:Hsend;
      unfold store, trace in *; cbn [fst snd];
      (repeat split; try assumption);
      rewrite ?attempted_app, ?delivered_app, ?Hs, ?Hdl;
      unfold attempted, delivered; cbn [flat_map];
      rewrite ?attempted_file_call, ?delivered_file_call;
      cbn [attempted_by delivered_by app resolves]; reflexivity.
  - intros ev. pose proof (downloads_grow_handler cfg ev env d) as H.
    split; [exact H|]. intros Hi Hu. now apply (downloads_grow_monotone _ _ _ H).
  - intros evs evs' f f'.
    apply (downloads_grow_monotone _ _ _
             (respects_run _ downloads_grow_refl downloads_grow_trans cfg
                (downloads_grow_handler cfg) evs' (run cfg evs empty_db).1)
             (ids_issued_run cfg evs) (customIds_unique_run cfg evs)).
Qed.


(** User 2 downloads [F0001]: by [GET:] when Telegram rejects the video,
    and by typing [f0001] when everything is accepted. *)
Lemma download_is_charged_before_delivery_witness :
  let failed :=
    on_callback_query Demo.cfg (Demo.press 2 "GET:F0001") Demo.env_undeliverable
      Demo.one_file in
  let typed := on_message Demo.cfg (Demo.text_message 2 "f0001") Demo.env Demo.one_file in
  (files (store failed) !! 0%nat = Some (File.inc_downloads Demo.iron_man)
   /\ quota (store failed) (str "2") (str "2024-05-01") = 1
   /\ attempted (trace failed) = [str "BAAD-iron-man"]
   /\ delivered (trace failed) = [])
  /\ (files (store typed) !! 0%nat = Some (File.inc_downloads Demo.iron_man)
      /\ quota (store typed) (str "2") (str "2024-05-01") = 1
      /\ delivered (trace typed) = [str "BAAD-iron-man"])
  /\ File.downloads Demo.iron_man <= File.downloads (File.inc_downloads Demo.iron_man).
Proof.
  cbv zeta. split; [|split].
  - destruct (download_is_charged_before_delivery Demo.cfg Demo.env_undeliverable
                Demo.one_file) as (Hget & _ & _ & _).
    destruct (Hget (Demo.press 2 "GET:F0001") 0%nat Demo.iron_man)
      as (_ & H1 & _ & H2 & H3 & H4);
      [reflexivity | vm_compute; reflexivity | reflexivity | reflexivity | reflexivity |].
    rewrite H1. split; [reflexivity|]. split; [exact H2|]. split; [exact H3|exact H4].
  - destruct (download_is_charged_before_delivery Demo.cfg Demo.env Demo.one_file)
      as (_ & Htyped & _ & _).
    destruct (Htyped (Demo.text_message 2 "f0001") (str "f0001") 0%nat Demo.iron_man)
      as (_ & H1 & _ & H2 & _ & H4);
      [reflexivity | reflexivity | reflexivity | reflexivity | vm_compute; reflexivity
      | reflexivity | reflexivity |].
    rewrite H1. split; [reflexivity|]. split; [exact H2|exact H4].
  - destruct (download_is_charged_before_delivery Demo.cfg Demo.env_undeliverable
                Demo.one_file) as (_ & _ & Hgrow & _).
    destruct (Hgrow (EvCallbackQuery (Demo.press 2 "GET:F0001"))) as [_ Hmono].
    apply Hmono.
    + split; [discriminate|]. constructor; [|constructor].
      exists 1. split; [vm_compute; split; discriminate|reflexivity].
    + unfold customIds_unique. apply (bool_decide_unpack _). vm_compute. exact I.
    + left.
    + vm_compute. left.
    + reflexivity.
Defined.


(** ** What the bot sends is taken back *)

Lemma scheduled_app l l' : scheduled l -> scheduled l' -> scheduled (l ++ l').
Proof.
  induction l as [|e l IH]; intros H H'; [exact H'|].
  destruct e as [c [m|s]| | |]; cbn [app scheduled] in *; auto.
  destruct H as [Hd Hl]. split; [|auto].
  destruct (deletion_due c m); [|exact I].
  destruct l; [discriminate Hd|exact Hd].
Qed.

Lemma scheduling_refl d : scheduling d d [].
Proof. exact I. Qed.

Lemma scheduling_trans d d' d'' l l' :
  scheduling d d' l -> scheduling d' d'' l' -> scheduling d d'' (l ++ l').
Proof. apply scheduled_app. Qed.

(** A message sent and the deletion scheduled right after. *)
Lemma await_then_delete c chat delay :
  (forall m, deletion_due c m = None
             \/ deletion_due c m = Some (Timer delay (deleteMessage chat m))) ->
  respects scheduling (sent ← await c; autoDeleteMessage chat sent delay).
Proof.
  intros H env d. unfold scheduling, trace. mrun.
  destruct (telegram env c) as [m|s]; cbn [scheduled app]; [|exact I].
  split; [|exact I]. destruct (H m) as [-> | ->]; reflexivity.
Qed.

Lemma await_then_delete_both c chat delay message_id delay' :
  (forall m, deletion_due c m = None
             \/ deletion_due c m = Some (Timer delay (deleteMessage chat m))) ->
  respects scheduling
    (sent ← await c;
     autoDeleteMessage chat sent delay;; autoDeleteMessage chat message_id delay').
Proof.
  intros H env d. unfold scheduling, trace. mrun.
  destruct (telegram env c) as [m|s]; cbn [scheduled app]; [|exact I].
  split; [|exact I]. destruct (H m) as [-> | ->]; reflexivity.
Qed.

Ltac scheduling_pre := first [exact scheduling_refl | exact scheduling_trans].

Ltac scheduling_leaf :=
  unfold scheduling, join_prompt;
  lazymatch goal with
  | |- scheduled [Called _ ?r] =>
      destruct r; cbn [scheduled deletion_due]; auto;
      try (destruct (_ =? _); cbn [deletion_due]; auto)
  | |- _ => exact I
  end.

Ltac scheduling_known :=
  first [ apply await_then_delete;
          intros ?; unfold file_call; cbv zeta;
          first [ right; reflexivity | left; reflexivity
                | destruct (jseq _ _); right; reflexivity ]
        | apply await_then_delete_both; intros ?; right; reflexivity ].

Lemma scheduling_handler cfg ev : respects scheduling (handler cfg ev).
Proof.
  revert ev.
  handlers_respect scheduling_known scheduling_pre scheduling_leaf.
Qed.

(** X13.  Along every run, each file delivered, each list of records shown
    and each notice of a search that found nothing is followed at once by
    the timer that deletes it: a message that was sent has its deletion
    scheduled, with the id that Telegram gave it. *)
Theorem messages_sent_are_taken_back (cfg : Config) (evs : list (Env * Event)) (d : Db)
    (before after : list Effect) (c : Call) (m : Z) (timer : Effect) :
  (run cfg evs d).2 = before ++ Called c (Resolved m) :: after ->
  deletion_due c m = Some timer ->
  exists rest, after = timer :: rest.
Proof.
  intros Hrun Hdue.
  pose proof (respects_run _ scheduling_refl scheduling_trans cfg
                (scheduling_handler cfg) evs d) as H.
  unfold scheduling in H. rewrite Hrun in H. clear Hrun.
  induction before as [|e l IH].
  - cbn [app scheduled] in H. rewrite Hdue in H. destruct H as [H _].
    destruct after as [|t rest]; [discriminate H|]. injection H as ->. eauto.
  - apply IH. destruct e as [c0 [m0|s0]| | |]; cbn [app scheduled] in H; tauto.
Qed.

Lemma messages_sent_are_taken_back_witness :
  exists rest,
    [Timer 60000 (deleteMessage (ChatId 2) 77)]
    = Timer 60000 (deleteMessage (ChatId 2) 77) :: rest.
Proof.
  apply (messages_sent_are_taken_back Demo.cfg
           [(Demo.env, EvCallbackQuery (Demo.press 2 "GET:F0001"))] Demo.one_file
           [Called (answerCallbackQuery (str "q1") TxtSendingFile false) (Resolved 77)]
           [Timer 60000 (deleteMessage (ChatId 2) 77)]
           (file_call 2 Demo.iron_man) 77); reflexivity.
Defined.

(** ** The daily limit *)

Section RespectsAt.

Variable env : Env.
Variable R : Db -> Db -> list Effect -> Prop.
Hypothesis R_refl : forall d, R d d [].
Hypothesis R_trans :
  forall d d' d'' l l', R d d' l -> R d' d'' l' -> R d d'' (l ++ l').

Lemma respects_at_of {A} (m : M A) : respects R m -> respects_at env R m.
Proof. intros H d. apply H. Qed.

Lemma respects_at_bind {A B} (m : M A) (k : A -> M B) :
  respects_at env R m -> (forall a, respects_at env R (k a)) ->
  respects_at env R (m ≫= k).
Proof.
  intros Hm Hk d. rewrite run_bind.
  specialize (Hm d). destruct (m env d) as [[[a|e] d'] l]; [|exact Hm].
  specialize (Hk a d'). destruct (k a env d') as [[r d''] l'].
  eapply R_trans; eauto.
Qed.

Lemma respects_at_try_catch {A} (m : M A) (h : Error -> M A) :
  respects_at env R m -> (forall e, respects_at env R (h e)) ->
  respects_at env R (try_catch m h).
Proof.
  intros Hm Hh d. unfold try_catch.
  specialize (Hm d). destruct (m env d) as [[[a|e] d'] l]; [exact Hm|].
  specialize (Hh e d'). destruct (h e env d') as [[r d''] l'].
  destruct e; try exact Hm; eapply R_trans; eauto.
Qed.

End RespectsAt.

Lemma quota_set_limits u date v d :
  quota (set_limits v d) u date = default 0 (v !! (u, date)).
Proof. reflexivity. Qed.

Lemma charged_bounded cfg env u i d :
  same_day env -> quota d u (date_on_peek env) < DAILY_LIMIT_NUM cfg ->
  quota_bounded cfg d -> quota_bounded cfg (charged env u i d).
Proof.
  intros Hday Hlt Hq u' date'. unfold charged, quota.
  cbn [limits set_files set_limits].
  destruct (decide ((u, date_on_increment env) = (u', date'))) as [<-|Hne].
  - rewrite lookup_insert_eq. cbn. rewrite <- Hday. fold (quota d u (date_on_peek env)). lia.
  - rewrite lookup_insert_ne by exact Hne. apply Hq.
Qed.

Ltac quota_lift :=
  apply respects_at_of;
  respects_auto
    ltac:(apply respects_broadcast_loop;
          [exact (preserves_refl _)|exact (preserves_trans _)|intros; exact (fun H => H)..])
    preserves_pre ltac:(exact (fun H => H)).

Lemma download_bounded cfg env q :
  same_day env -> respects_at env (preserves (quota_bounded cfg)) (download cfg q).
Proof.
  intros Hday d Hq. rewrite download_run. cbv zeta.
  destruct (Files.findOne _ _) as [[i file]|]; [|exact Hq].
  destruct (Z.leb_spec (DAILY_LIMIT_NUM cfg)
              (quota d (String_of_Z (q_from_id q)) (date_on_peek env))); [exact Hq|].
  destruct (telegram env (answerCallbackQuery _ _ _)); [|exact Hq].
  destruct (telegram env (file_call _ _)); now apply charged_bounded.
Qed.

Lemma getUserLimitCount_run u env d :
  getUserLimitCount u env d = (Return (quota d u (date_on_peek env)), d, []).
Proof. reflexivity. Qed.

(** The branch "search by id" of the message handler, from the lookup
    of the record on. *)
Lemma typed_branch_bounded cfg env chatId fromId customId :
  same_day env ->
  respects_at env (preserves (quota_bounded cfg))
    (d ← get;
     match Files.findOne customId (files d) with
     | None =>
         temp ← await (sendMessage (ChatId chatId) TxtFileNotFound []);
         autoDeleteMessage (ChatId chatId) temp 3000
     | Some (_id, file) =>
         used ← getUserLimitCount fromId;
         if DAILY_LIMIT_NUM cfg <=? used
         then return_call (sendMessage (ChatId chatId) TxtDailyLimitReached [])
         else
           incrementAndGetLimit fromId;;
           File_inc_downloads _id;;
           send_file chatId file
     end).
Proof.
  intros Hday d Hq. rewrite run_bind. cbn [get].
  destruct (Files.findOne customId (files d)) as [[i file]|].
  - rewrite run_bind, getUserLimitCount_run.
    destruct (Z.leb_spec (DAILY_LIMIT_NUM cfg) (quota d fromId (date_on_peek env)));
      [exact Hq|].
    rewrite charge_and_send_run.
    destruct (telegram env (file_call chatId file)); now apply charged_bounded.
  - mrun. destruct (telegram env _); exact Hq.
Qed.

Lemma on_callback_query_bounded cfg env q :
  same_day env ->
  respects_at env (preserves (quota_bounded cfg)) (on_callback_query cfg q).
Proof.
  intros Hday. unfold on_callback_query. cbv zeta.
  destruct (jseq (q_data q) (str "CHECK_JOIN")); [quota_lift|].
  apply respects_at_bind; [exact (preserves_trans _)|quota_lift|]. intros joined.
  destruct (negb joined); [quota_lift|].
  apply respects_at_try_catch; [exact (preserves_trans _)| |intros e; quota_lift].
  unfold dispatch. cbv zeta.
  destruct (startsWith (str "CONFIRM:") (q_data q)); [quota_lift|].
  destruct (startsWith (str "CANCEL:") (q_data q)); [quota_lift|].
  destruct (startsWith (str "GET:") (q_data q)); [now apply download_bounded|].
  destruct (startsWith (str "PAGE:") (q_data q)); [quota_lift|].
  destruct (startsWith (str "FAV:") (q_data q)); quota_lift.
Qed.

Lemma on_message_bounded cfg env msg :
  same_day env ->
  respects_at env (preserves (quota_bounded cfg)) (on_message cfg msg).
Proof.
  intros Hday. unfold on_message. cbv zeta.
  destruct (truthy _ && startsWith _ _); [quota_lift|].
  destruct (if is_admin cfg _ then _ else _); [quota_lift|].
  destruct (negb (truthy _)); [quota_lift|].
  apply respects_at_bind; [exact (preserves_trans _)|quota_lift|]. intros _.
  apply respects_at_bind; [exact (preserves_trans _)|quota_lift|]. intros joined.
  destruct (negb joined); [quota_lift|].
  apply respects_at_bind; [exact (preserves_trans _)|quota_lift|]. intros env'.
  destruct (is_catalog_id _); [now apply typed_branch_bounded|quota_lift].
Qed.

Lemma quota_bounded_handler cfg env ev d :
  same_day env -> quota_bounded cfg d -> quota_bounded cfg (store (handler cfg ev env d)).
Proof.
  intros Hday. revert d.
  change (respects_at env (preserves (quota_bounded cfg)) (handler cfg ev)).
  destruct ev; unfold handler;
    first [ now apply on_message_bounded | now apply on_callback_query_bounded | quota_lift ].
Qed.

(** X14.  Where no handler runs across midnight, no user's count for a day
    goes above the daily limit: a download is charged only after the count
    of the day was read below the limit. *)
Theorem downloads_stay_within_the_daily_limit (cfg : Config) (evs : list (Env * Event)) :
  Forall (fun ee => same_day ee.1) evs ->
  forall d, quota_bounded cfg d -> quota_bounded cfg (run cfg evs d).1.
Proof.
  induction 1 as [|[env ev] rest Hday _ IH]; intros d Hq; [exact Hq|].
  cbn [run]. unfold step.
  pose proof (quota_bounded_handler cfg env ev d Hday Hq) as Hstep. unfold store in Hstep.
  destruct (handler cfg ev env d) as [[r d'] l]. cbn [fst snd] in Hstep.
  specialize (IH d' Hstep). destruct (run cfg rest d') as [d'' l']. exact IH.
Qed.

Lemma downloads_stay_within_the_daily_limit_witness :
  quota
    (run Demo.cfg [(Demo.env, EvCallbackQuery (Demo.press 2 "GET:F0001"))] Demo.exhausted).1
    (str "2") (str "2024-05-01")
  <= Z.max 0 (DAILY_LIMIT_NUM Demo.cfg).
Proof.
  apply (downloads_stay_within_the_daily_limit Demo.cfg
           [(Demo.env, EvCallbackQuery (Demo.press 2 "GET:F0001"))]).
  - constructor; [reflexivity|constructor].
  - intros u date. unfold quota, Demo.exhausted. cbn [limits set_limits].
    destruct (decide ((str "2", str "2024-05-01") = (u, date))) as [<-|Hne].
    + rewrite lookup_singleton_eq. cbn. lia.
    + rewrite lookup_singleton_ne by exact Hne. cbn. lia.
Defined.

(** ** Uploads, their review, and deletion *)

(** The upload branch of the message handler. *)
Lemma upload_run cfg msg env d file :
  let fromId := String_of_Z (msg_from_id msg) in
  let rawName :=
    or_default (or_else (msg_caption msg) (att_file_name file)) (str "Unknown") in
  let title := cleanFileName rawName in
  let size := formatSize env (att_file_size file) in
  let pending :=
    {| Pending.adminId := fromId;
       Pending.chatId := String_of_Z (msg_chat_id msg);
       Pending.messageId := msg_message_id msg;
       Pending.file_id := att_file_id file;
       Pending.file_name := rawName;
       Pending.type := (match msg_video msg with
                        | Some _ => str "video"
                        | None => str "document"
                        end);
       Pending.clean_title := title;
       Pending.attributes := generateAttributes env title;
       Pending.file_size := size;
       Pending.created_at := now env |} in
  let review :=
    sendMessage (ChatId (msg_chat_id msg)) (TxtReviewUpload title size)
      [[CallbackButton LblSave (str "CONFIRM:" ++ fresh_id env);
        CallbackButton LblCancel (str "CANCEL:" ++ fresh_id env)]] in
  is_admin cfg fromId = true -> msg_text msg = None ->
  match msg_video msg with Some v => Some v | None => msg_document msg end = Some file ->
  pendings d !! fresh_id env = None ->
  on_message cfg msg env d =
    (match telegram env review with
     | Resolved _ => Return tt
     | Rejected s => Throw (TelegramError s)
     end,
     set_pendings (<[fresh_id env := pending]> (pendings d)) d,
     [Called review (telegram env review)]).
Proof.
  cbv zeta. intros Ha Ht Hf Hfresh. unfold on_message. rewrite Ha, Ht, Hf.
  cbn [fmap option_fmap option_map truthy andb]. mrun. rewrite Hfresh.
  destruct (telegram env _); reflexivity.
Qed.

Lemma field1_app action payload :
  (Char.colon ∉ action) -> (Char.colon ∉ payload) ->
  field1 (action ++ Char.colon :: payload) = payload.
Proof.
  intros Ha Hp. unfold field1. rewrite split_app by exact Ha. now rewrite split_without.
Qed.

Lemma field1_confirm id : (Char.colon ∉ id) -> field1 (str "CONFIRM:" ++ id) = id.
Proof.
  intros H. apply (field1_app (str "CONFIRM") id); [|exact H].
  vm_compute. intros Hin.
  repeat (apply elem_of_cons in Hin; destruct Hin as [Hin|Hin]; [discriminate Hin|]).
  now apply not_elem_of_nil in Hin.
Qed.

(** The store that a callback query leaves is the one its action
    leaves: the [catch] block of the handler writes nothing. *)
Lemma callback_store cfg q env d :
  let gate := verifyJoin cfg (q_chat_id q) (String_of_Z (q_from_id q)) env d in
  jseq (q_data q) (str "CHECK_JOIN") = false -> result gate = Return true ->
  store (on_callback_query cfg q env d) = store (dispatch cfg q env (store gate)).
Proof.
  cbv zeta. intros Hcj Hg. rewrite (on_callback_query_passed cfg q env d Hcj Hg).
  unfold try_catch.
  destruct (dispatch cfg q env _) as [[[a|e] d'] l]; [reflexivity|].
  unfold callback_error. mrun. destruct e; reflexivity.
Qed.

Lemma store_triple {A} (r : Res A) d l : store (r, d, l) = d.
Proof. reflexivity. Qed.

Lemma trace_triple {A} (r : Res A) d l : trace (r, d, l) = l.
Proof. reflexivity. Qed.

(** X15.  An administrator's file waits for review under a fresh id, with
    the title and the attributes computed from its caption, else from its
    file name, else from ["Unknown"]; the review message carries the two
    buttons of that id. A [CONFIRM:] of that id, whoever presses it, then
    publishes the file under the next catalog id with the title and
    attributes of the upload and the uploader as its owner, and the pending
    upload is gone. *)
Theorem an_upload_is_published_on_save (cfg : Config) (env env' : Env) (msg : Message)
    (q : Query) (d : Db) (file : Attachment) :
  let fromId := String_of_Z (msg_from_id msg) in
  let rawName :=
    or_default (or_else (msg_caption msg) (att_file_name file)) (str "Unknown") in
  let title := cleanFileName rawName in
  let uploaded := on_message cfg msg env d in
  let saved := on_callback_query cfg q env' (store uploaded) in
  let gate :=
    verifyJoin cfg (q_chat_id q) (String_of_Z (q_from_id q)) env' (store uploaded) in
  is_admin cfg fromId = true -> msg_text msg = None ->
  match msg_video msg with Some v => Some v | None => msg_document msg end = Some file ->
  pendings d !! fresh_id env = None -> (Char.colon ∉ fresh_id env) ->
  ids_issued d -> Files.exists_file_id (att_file_id file) (files d) = false ->
  q_data q = str "CONFIRM:" ++ fresh_id env -> result gate = Return true ->
  (exists p,
      pendings (store uploaded) = <[fresh_id env := p]> (pendings d)
      /\ Pending.adminId p = fromId /\ Pending.file_id p = att_file_id file
      /\ Pending.clean_title p = title
      /\ Pending.attributes p = generateAttributes env title
      /\ displayed (trace uploaded)
         = [str "CONFIRM:" ++ fresh_id env; str "CANCEL:" ++ fresh_id env]
      /\ files (store uploaded) = files d /\ counters (store uploaded) = counters d
      /\ users (store uploaded) = users d)
  /\ (exists f,
        files (store saved) = files d ++ [f]
        /\ File.customId f = catalog_id (file_seq d + 1)
        /\ File.file_id f = att_file_id file
        /\ File.clean_title f = title
        /\ File.attributes f = generateAttributes env title
        /\ File.uploader_id f = fromId
        /\ File.downloads f = 0
        /\ file_seq (store saved) = file_seq d + 1
        /\ pendings (store saved) = pendings d).
Proof.
  cbv zeta. intros Ha Ht Hf Hfresh Hcolon Hi Hnew Hdata Hg.
  rewrite (upload_run cfg msg env d file Ha Ht Hf Hfresh) in *. cbv zeta in *.
  rewrite !store_triple in *. rewrite !trace_triple.
  set (p := {| Pending.adminId := String_of_Z (msg_from_id msg) |}) in *.
  set (d1 := set_pendings (<[fresh_id env := p]> (pendings d)) d) in *.
  split.
  - exists p. repeat split; try reflexivity.
  - destruct (verifyJoin_frame cfg (q_chat_id q) (String_of_Z (q_from_id q)) env' d1)
      as (_ & Hl & _).
    destruct (ledgers_eq _ _ Hl) as (Hfiles & Hcounters & _ & _ & Hpend).
    assert (startsWith (str "CONFIRM:") (q_data q) = true) as Hstart
        by (rewrite Hdata; reflexivity).
    assert (jseq (q_data q) (str "CHECK_JOIN") = false) as Hcj
        by (eapply data_not_check_join; [exact Hstart|reflexivity]).
    rewrite (callback_store cfg q env' d1 Hcj Hg), (dispatch_confirm cfg q Hstart).
    set (dg := store (verifyJoin cfg (q_chat_id q) (String_of_Z (q_from_id q)) env' d1)) in *.
    assert (pendings dg !! field1 (q_data q) = Some p) as Hp.
    { rewrite Hpend, Hdata, field1_confirm by exact Hcolon. apply lookup_insert_eq. }
    assert (ids_issued dg) as Hig.
    { apply (ids_issued_weaken d); [|exact Hfiles|exact Hi].
      unfold file_seq. rewrite Hcounters. reflexivity. }
    assert (file_seq dg = file_seq d) as Hseq
        by (unfold file_seq; now rewrite Hcounters).
    rewrite (confirm_fresh_run q env' dg p Hp) by (rewrite Hfiles; exact Hnew).
    cbv zeta. rewrite (ids_issued_fresh dg Hig), Hseq.
    exists (published_file env' (catalog_id (file_seq d + 1)) p).
    assert (pendings d = delete (field1 (q_data q)) (pendings dg)) as Hback.
    { rewrite Hpend, Hdata, field1_confirm by exact Hcolon. unfold d1.
      cbn [pendings set_pendings]. rewrite delete_insert_eq.
      symmetry. now apply delete_id. }
    destruct (telegram env' _); unfold store; cbn [fst snd files pendings set_pendings set_files];
      rewrite Hfiles; repeat split; try reflexivity;
      try (symmetry; exact Hback); apply (file_seq_set_counters _ dg).
Qed.

Lemma an_upload_is_published_on_save_witness :
  let uploaded :=
    on_message Demo.cfg (Demo.video_message 1 "BAAD-iron-man" "Iron.Man.2008.1080p.mkv")
      Demo.env empty_db in
  let saved :=
    on_callback_query Demo.cfg (Demo.press 2 "CONFIRM:665f1c2ab7e4a90012345678") Demo.env
      (store uploaded) in
  exists f,
    files (store saved) = [] ++ [f]
    /\ File.customId f = catalog_id (file_seq empty_db + 1)
    /\ File.clean_title f = cleanFileName (str "Iron.Man.2008.1080p.mkv")
    /\ File.uploader_id f = str "1".
Proof.
  destruct (an_upload_is_published_on_save Demo.cfg Demo.env Demo.env
              (Demo.video_message 1 "BAAD-iron-man" "Iron.Man.2008.1080p.mkv")
              (Demo.press 2 "CONFIRM:665f1c2ab7e4a90012345678") empty_db
              {| att_file_id := str "BAAD-iron-man";
                 att_file_name := Some (str "Iron.Man.2008.1080p.mkv");
                 att_file_size := Some 1400000000 |})
    as [_ (f & Hfiles & Hid & _ & Htitle & _ & Hup & _)]; try reflexivity.
  - vm_compute. intros Hin.
    repeat (apply elem_of_cons in Hin; destruct Hin as [Hin|Hin]; [discriminate Hin|]).
    now apply not_elem_of_nil in Hin.
  - split; [vm_compute; discriminate|constructor].
  - exists f. repeat split; assumption.
Defined.

(** *** A pending upload is settled once *)

Lemma confirm_settles q env d :
  ids_issued d -> pendings (store (confirm q env d)) !! field1 (q_data q) = None.
Proof.
  intros Hi. destruct (pendings d !! field1 (q_data q)) as [p|] eqn:Hp.
  - destruct (Files.exists_file_id (Pending.file_id p) (files d)) eqn:Hdup.
    + rewrite (confirm_duplicate q env d p Hp Hdup). apply lookup_delete_eq.
    + rewrite (confirm_fresh_run q env d p Hp Hdup). cbv zeta.
      rewrite (ids_issued_fresh d Hi).
      destruct (telegram env _); apply lookup_delete_eq.
  - rewrite (confirm_absent q env d Hp). now destruct (isObjectId env _).
Qed.

(** The branch [CANCEL:<pendingId>]. *)
Lemma cancel_run q env d :
  let id := field1 (q_data q) in
  let notice := editMessageText TxtCancelled (ChatId (q_chat_id q)) (q_message_id q) [] in
  cancel q env d =
    if bool_decide (is_Some (pendings d !! id)) || isObjectId env id
    then (match telegram env notice with
          | Resolved _ => Return tt
          | Rejected s => Throw (TelegramError s)
          end,
          set_pendings (delete id (pendings d)) d,
          [Called notice (telegram env notice)])
    else (Throw CastError, d, []).
Proof.
  cbv zeta. unfold cancel. mrun.
  destruct (pendings d !! field1 (q_data q)) as [p|] eqn:Hp.
  - rewrite bool_decide_eq_true_2 by eauto. cbn [orb].
    destruct (telegram env _); reflexivity.
  - rewrite bool_decide_eq_false_2 by (intros [x Hx]; discriminate Hx). cbn [orb].
    destruct (isObjectId env _); [|reflexivity].
    rewrite (delete_id _ _ Hp).
    assert (set_pendings (pendings d) d = d) as -> by (now destruct d).
    destruct (telegram env _); reflexivity.
Qed.

(** What the [catch] block of the callback handler does. *)
Lemma callback_error_run q e env d :
  callback_error q e env d =
    (Return tt, d,
     [ConsoleError (str "Callback Error:");
      Called (answerCallbackQuery (q_id q) TxtErrorOccurred false)
        (telegram env (answerCallbackQuery (q_id q) TxtErrorOccurred false))]).
Proof. reflexivity. Qed.

(** X16.  A review is settled by its first answer: after [CONFIRM:] or
    [CANCEL:] of a pending upload, a [CONFIRM:] of the same id is
    answered "Expired" and changes nothing, so that pressing Save twice
    publishes one record; the handler ends as that answer does.  A
    [CANCEL:] leaves the catalog and the sequence counter as they were.
    An identifier that names no pending upload and that the store does
    not take for an [ObjectId] makes the store throw: [CONFIRM:] and
    [CANCEL:] of it are answered "Error occurred" and change nothing. *)
Theorem a_review_is_settled_once (cfg : Config) (env env' : Env) (q q' : Query) (d : Db) :
  let id := field1 (q_data q) in
  let confirmed := store (confirm q env d) in
  let cancelled := store (cancel q env d) in
  let expired := answerCallbackQuery (q_id q') TxtExpired false in
  let failed :=
    [ConsoleError (str "Callback Error:");
     Called (answerCallbackQuery (q_id q') TxtErrorOccurred false)
       (telegram env' (answerCallbackQuery (q_id q') TxtErrorOccurred false))] in
  ids_issued d -> field1 (q_data q') = id ->
  (isObjectId env' id = true ->
   confirm q' env' confirmed
   = (settled (telegram env' expired), confirmed, [Called expired (telegram env' expired)])
   /\ confirm q' env' cancelled
      = (settled (telegram env' expired), cancelled, [Called expired (telegram env' expired)]))
  /\ (files cancelled = files d /\ counters cancelled = counters d
      /\ pendings cancelled = delete id (pendings d))
  /\ (isObjectId env' id = false -> pendings d !! id = None ->
      (startsWith (str "CONFIRM:") (q_data q') = true
       \/ startsWith (str "CANCEL:") (q_data q') = true) ->
      try_catch (dispatch cfg q') (callback_error q') env' d = (Return tt, d, failed)).
Proof.
  cbv zeta. intros Hi Hsame. split; [|split].
  - intros Hcast. split.
    + rewrite confirm_absent by (rewrite Hsame; now apply confirm_settles).
      now rewrite Hsame, Hcast.
    + rewrite confirm_absent.
      * now rewrite Hsame, Hcast.
      * rewrite Hsame, cancel_run. cbv zeta.
        destruct (pendings d !! field1 (q_data q)) as [p|] eqn:Hp.
        -- rewrite bool_decide_eq_true_2 by eauto. apply lookup_delete_eq.
        -- destruct (_ || _); [apply lookup_delete_eq|exact Hp].
  - rewrite cancel_run. cbv zeta.
    destruct (pendings d !! field1 (q_data q)) as [p|] eqn:Hp.
    + rewrite bool_decide_eq_true_2 by eauto. repeat split; reflexivity.
    + destruct (_ || _); repeat split; try reflexivity.
      symmetry. now apply delete_id.
  - intros Hcast Hp Hdata. rewrite <- Hsame in Hcast, Hp.
    unfold try_catch, dispatch. cbv zeta.
    destruct Hdata as [Hdata|Hdata].
    + rewrite Hdata, (confirm_absent q' env' d Hp), Hcast.
      now rewrite callback_error_run.
    + destruct (startsWith (str "CONFIRM:") (q_data q')) eqn:Hc.
      * rewrite (confirm_absent q' env' d Hp), Hcast. now rewrite callback_error_run.
      * rewrite Hdata, cancel_run. cbv zeta. rewrite Hp, Hcast.
        rewrite bool_decide_eq_false_2 by (intros [x Hx]; discriminate Hx).
        cbn [orb]. now rewrite callback_error_run.
Qed.

Lemma a_review_is_settled_once_witness :
  let q := Demo.press 1 "CONFIRM:665f1c2ab7e4a90012345678" in
  let confirmed := store (confirm q Demo.env Demo.submitted) in
  files confirmed = [Demo.iron_man]
  /\ confirm q Demo.env confirmed
     = (Return tt, confirmed,
        [Called (answerCallbackQuery (str "q1") TxtExpired false) (Resolved 77)])
  /\ notices
       (trace (on_callback_query Demo.cfg (Demo.press 1 "CONFIRM:abc") Demo.env
                 Demo.submitted))
     = [TxtErrorOccurred].
Proof.
  split; [reflexivity|].
  destruct (a_review_is_settled_once Demo.cfg Demo.env Demo.env
              (Demo.press 1 "CONFIRM:665f1c2ab7e4a90012345678")
              (Demo.press 1 "CONFIRM:665f1c2ab7e4a90012345678") Demo.submitted)
    as [H _]; [split; [vm_compute; discriminate|constructor]|reflexivity|].
  split; [exact (proj1 (H eq_refl))|].
  destruct (a_review_is_settled_once Demo.cfg Demo.env Demo.env
              (Demo.press 1 "CONFIRM:abc") (Demo.press 1 "CONFIRM:abc") Demo.submitted)
    as (_ & _ & H'); [split; [vm_compute; discriminate|constructor]|reflexivity|].
  specialize (H' eq_refl eq_refl (or_introl eq_refl)).
  rewrite (on_callback_query_passed Demo.cfg (Demo.press 1 "CONFIRM:abc") Demo.env
             Demo.submitted eq_refl eq_refl).
  change (store (verifyJoin Demo.cfg (q_chat_id (Demo.press 1 "CONFIRM:abc"))
                   (String_of_Z (q_from_id (Demo.press 1 "CONFIRM:abc"))) Demo.env
                   Demo.submitted)) with Demo.submitted.
  rewrite H'. reflexivity.
Defined.

(** *** Deletion *)

Lemma remove_first_unique cid l :
  NoDup (map File.customId l) ->
  remove_first (Files.has_customId cid) l
  = List.filter (fun f => negb (Files.has_customId cid f)) l.
Proof.
  induction l as [|f l IH]; [reflexivity|]. cbn [map]. intros Hn.
  apply NoDup_cons in Hn. destruct Hn as [Hf Hn]. cbn [remove_first List.filter].
  destruct (Files.has_customId cid f) eqn:E; cbn [negb].
  - unfold Files.has_customId, jseq in E. apply bool_decide_eq_true in E. subst cid.
    symmetry. clear IH Hn. induction l as [|g l IH]; [reflexivity|].
    cbn [List.filter]. unfold Files.has_customId at 1, jseq.
    rewrite bool_decide_eq_false_2.
    + cbn [negb]. f_equal. apply IH. intros Hin. apply Hf. cbn [map]. now right.
    + intros Eg. apply Hf. cbn [map]. rewrite Eg. left.
  - f_equal. now apply IH.
Qed.

Lemma filter_absent cid l :
  existsb (Files.has_customId cid) l = false ->
  List.filter (fun f => negb (Files.has_customId cid f)) l = l.
Proof.
  induction l as [|f l IH]; [reflexivity|]. cbn [existsb List.filter]. intros H.
  apply orb_false_elim in H. destruct H as [-> H]. cbn [negb]. f_equal. now apply IH.
Qed.

Lemma findOne_from_filtered k cid l :
  Files.findOne_from k cid (List.filter (fun f => negb (Files.has_customId cid f)) l) = None.
Proof.
  revert k. induction l as [|f l IH]; intros k; [reflexivity|]. cbn [List.filter].
  destruct (Files.has_customId cid f) eqn:E; cbn [negb]; [apply IH|].
  cbn [Files.findOne_from]. rewrite E. apply IH.
Qed.

Lemma on_delete_run cfg msg arg env d :
  let customId := toUpperCase env (trim arg) in
  let send text := sendMessage (ChatId (msg_chat_id msg)) text [] in
  is_admin cfg (String_of_Z (msg_from_id msg)) = true ->
  on_delete cfg msg arg env d =
    if existsb (Files.has_customId customId) (files d)
    then (Return tt, set_files (remove_first (Files.has_customId customId) (files d)) d,
          [Called (send (TxtDeleted customId)) (telegram env (send (TxtDeleted customId)))])
    else (Return tt, d, [Called (send TxtNotFound) (telegram env (send TxtNotFound))]).
Proof.
  cbv zeta. intros Ha. unfold on_delete. rewrite Ha. cbn [negb]. mrun.
  destruct (existsb _ _); reflexivity.
Qed.

(** X17.  [/delete] by an administrator takes the record of the given id out
    of the catalog (the id is trimmed and put in upper case), and nothing
    else: the other records keep their order, the other collections are as
    before, and the id is then unknown to a download, which answers that
    the file is not found and ends as that answer does. On an id that
    names no record it answers "Not found" and changes nothing. *)
Theorem delete_takes_out_the_record (cfg : Config) (env : Env) (msg : Message) (arg : jsstring)
    (d : Db) :
  let customId := toUpperCase env (trim arg) in
  let out := on_delete cfg msg arg env d in
  let known := existsb (Files.has_customId customId) (files d) in
  is_admin cfg (String_of_Z (msg_from_id msg)) = true -> customIds_unique d ->
  files (store out) = List.filter (fun f => negb (Files.has_customId customId f)) (files d)
  /\ Files.findOne customId (files (store out)) = None
  /\ notices (trace out) = [if known then TxtDeleted customId else TxtNotFound]
  /\ (known = false -> store out = d)
  /\ (users (store out), counters (store out), limits (store out), favorites (store out),
      pendings (store out))
     = (users d, counters d, limits d, favorites d, pendings d)
  /\ (forall q env',
        field1 (q_data q) = customId ->
        download cfg q env' (store out)
        = (settled (telegram env' (answerCallbackQuery (q_id q) TxtFileNotFoundDeleted false)),
           store out,
           [Called (answerCallbackQuery (q_id q) TxtFileNotFoundDeleted false)
              (telegram env' (answerCallbackQuery (q_id q) TxtFileNotFoundDeleted false))])).
Proof.
  cbv zeta. intros Ha Hu. rewrite (on_delete_run cfg msg arg env d Ha). cbv zeta.
  set (customId := toUpperCase env (trim arg)).
  assert (forall d', files d' = List.filter (fun f => negb (Files.has_customId customId f))
                                  (files d) ->
                     Files.findOne customId (files d') = None) as Hgone
      by (intros d' ->; apply findOne_from_filtered).
  destruct (existsb (Files.has_customId customId) (files d)) eqn:E;
    rewrite !store_triple, !trace_triple.
  - assert (files (set_files (remove_first (Files.has_customId customId) (files d)) d)
            = List.filter (fun f => negb (Files.has_customId customId f)) (files d)) as Hf
        by (apply remove_first_unique, Hu).
    split; [exact Hf|]. split; [now apply Hgone|]. split; [reflexivity|].
    split; [discriminate|]. split; [reflexivity|].
    intros q env' Hq. rewrite download_run. cbv zeta. rewrite Hq, (Hgone _ Hf). reflexivity.
  - assert (files d = List.filter (fun f => negb (Files.has_customId customId f)) (files d))
      as Hf by (symmetry; now apply filter_absent).
    split; [exact Hf|]. split; [now apply Hgone|]. split; [reflexivity|].
    split; [reflexivity|]. split; [reflexivity|].
    intros q env' Hq. rewrite download_run. cbv zeta. rewrite Hq, (Hgone _ Hf). reflexivity.
Qed.

Lemma delete_takes_out_the_record_witness :
  let out :=
    on_delete Demo.cfg (Demo.text_message 1 "/delete f0001") (str " f0001 ") Demo.env
      Demo.one_file in
  files (store out) = []
  /\ notices (trace out) = [TxtDeleted (str "F0001")].
Proof.
  destruct (delete_takes_out_the_record Demo.cfg Demo.env (Demo.text_message 1 "/delete f0001")
              (str " f0001 ") Demo.one_file) as (Hf & _ & Hn & _).
  - reflexivity.
  - apply (bool_decide_unpack _). vm_compute. exact I.
  - split; [exact Hf|exact Hn].
Defined.

(** ** The membership gate and its cache *)

Lemma String_of_bool_true b : jseq (String_of_bool b) (str "true") = b.
Proof. now destruct b. Qed.

Lemma live_insert {A} (t : Z) (m : gmap jsstring (A * Z)) (k : jsstring) (v : A)
    (expires : Z) :
  live t (<[k := (v, expires)]> m !! k) = if t <? expires then Some v else None.
Proof. now rewrite lookup_insert_eq. Qed.

(** X18.  A verdict of the gate is kept: five minutes when the user is a
    member, one minute when not. Until then the gate answers from the cache,
    whatever the membership has become, and calls nothing; from then on the
    entry is dead and the gate asks again. *)
Theorem a_verdict_is_kept (cfg : Config) (env env' : Env) (chatId chatId' : Z)
    (userId status : jsstring) (d : Db) :
  let first := verifyJoin cfg chatId userId env d in
  let verdict := existsb (jseq status) member_statuses in
  let expiry := now env + (if verdict then 300 else 60) * 1000 in
  truthy (FORCE_CHANNEL_ID cfg) = true -> is_admin cfg userId = false ->
  truthy (live (now env) (isMember d !! userId)) = false ->
  chatMemberStatus env (default [] (FORCE_CHANNEL_ID cfg)) userId = Some status ->
  isMember (store first) !! userId = Some (String_of_bool verdict, expiry)
  /\ (now env' < expiry ->
      verifyJoin cfg chatId' userId env' (store first) = (Return verdict, store first, []))
  /\ (expiry <= now env' -> live (now env') (isMember (store first) !! userId) = None).
Proof.
  cbv zeta. intros Hon Hna Hmiss Hstatus.
  rewrite (verifyJoin_miss cfg env chatId userId d Hon Hna Hmiss), Hstatus. cbv zeta.
  set (verdict := existsb (jseq status) member_statuses).
  set (expiry := now env + (if verdict then 300 else 60) * 1000).
  set (d' := set_isMember (<[userId := (String_of_bool verdict, expiry)]> (isMember d)) d).
  assert (store (if verdict
                 then (Return true, d', [])
                 else match telegram env (join_prompt cfg env chatId) with
                      | Resolved id =>
                          (Return false, d',
                           [Called (join_prompt cfg env chatId) (Resolved id)])
                      | Rejected code =>
                          (Return true, d',
                           [Called (join_prompt cfg env chatId) (Rejected code);
                            ConsoleError (str "Force Join Error:")])
                      end) = d') as ->
      by (destruct verdict; [|destruct (telegram env _)]; reflexivity).
  split; [apply lookup_insert_eq|]. split.
  - intros Hlt.
    assert (live (now env') (isMember d' !! userId) = Some (String_of_bool verdict)) as Hlive
        by (unfold d'; cbn [isMember set_isMember];
            now rewrite live_insert, (proj2 (Z.ltb_lt _ _) Hlt)).
    rewrite (verifyJoin_hit cfg env' chatId' userId d' Hon Hna)
      by (rewrite Hlive; now destruct verdict).
    rewrite Hlive.
    change (default [] (Some (String_of_bool verdict))) with (String_of_bool verdict).
    now rewrite String_of_bool_true.
  - intros Hge. unfold d'. cbn [isMember set_isMember].
    now rewrite live_insert, (proj2 (Z.ltb_ge _ _) Hge).
Qed.

Lemma a_verdict_is_kept_witness :
  let first := verifyJoin Demo.cfg 2 (str "2") Demo.env_left empty_db in
  isMember (store first) !! str "2" = Some (str "false", 61000)
  /\ verifyJoin Demo.cfg 2 (str "2") Demo.env (store first) = (Return false, store first, []).
Proof.
  destruct (a_verdict_is_kept Demo.cfg Demo.env_left Demo.env 2 2 (str "2") (str "left")
              empty_db eq_refl eq_refl eq_refl eq_refl) as (H1 & H2 & _).
  split; [exact H1|exact (H2 eq_refl)].
Defined.

(** The button "I Have Joined": the cached verdict is dropped and the
    gate asked anew. *)
Lemma check_join_run cfg q env d :
  let chatId := q_chat_id q in
  let userId := String_of_Z (q_from_id q) in
  let dropped := set_isMember (delete userId (isMember d)) d in
  let gate := verifyJoin cfg chatId userId env dropped in
  let thanks := sendMessage (ChatId chatId) TxtThanksForJoining [] in
  let remove := deleteMessage (ChatId chatId) (q_message_id q) in
  let alert := answerCallbackQuery (q_id q) TxtStillNotJoined true in
  q_data q = str "CHECK_JOIN" ->
  on_callback_query cfg q env d =
    match result gate with
    | Return true =>
        (Return tt, store gate,
         trace gate ++ [Called thanks (telegram env thanks);
                        Called remove (telegram env remove)])
    | Return false => (Return tt, store gate, trace gate ++ [Called alert (telegram env alert)])
    | Throw e => (Throw e, store gate, trace gate)
    end.
Proof.
  cbv zeta. intros Hdata. unfold on_callback_query. rewrite Hdata. cbv zeta.
  change (jseq (str "CHECK_JOIN") (str "CHECK_JOIN")) with true. cbv iota.
  rewrite run_bind. unfold redis_del_isMember at 1. mrun.
  destruct (verifyJoin cfg (q_chat_id q) (String_of_Z (q_from_id q)) env _)
    as [[[[|]|e] d'] l]; reflexivity.
Qed.

(** X19.  Pressing "I Have Joined" asks Telegram whatever the cache holds: a
    user who has joined is thanked, the prompt is deleted and the verdict
    kept for five minutes; a user who has not is prompted again and told so.
    No collection changes. *)
Theorem check_join_asks_again (cfg : Config) (env : Env) (q : Query) (d : Db)
    (status : jsstring) :
  let userId := String_of_Z (q_from_id q) in
  let out := on_callback_query cfg q env d in
  let prompt := join_prompt cfg env (q_chat_id q) in
  q_data q = str "CHECK_JOIN" ->
  truthy (FORCE_CHANNEL_ID cfg) = true -> is_admin cfg userId = false ->
  chatMemberStatus env (default [] (FORCE_CHANNEL_ID cfg)) userId = Some status ->
  (existsb (jseq status) member_statuses = true ->
   trace out
   = [Called (sendMessage (ChatId (q_chat_id q)) TxtThanksForJoining [])
        (telegram env (sendMessage (ChatId (q_chat_id q)) TxtThanksForJoining []));
      Called (deleteMessage (ChatId (q_chat_id q)) (q_message_id q))
        (telegram env (deleteMessage (ChatId (q_chat_id q)) (q_message_id q)))]
   /\ isMember (store out) !! userId = Some (str "true", now env + 300 * 1000))
  /\ (existsb (jseq status) member_statuses = false ->
      forall m, telegram env prompt = Resolved m ->
      notices (trace out) = [TxtJoinPrompt; TxtStillNotJoined]
      /\ isMember (store out) !! userId = Some (str "false", now env + 60 * 1000))
  /\ users (store out) = users d /\ ledgers (store out) = ledgers d.
Proof.
  cbv zeta. intros Hdata Hon Hna Hstatus.
  rewrite (check_join_run cfg q env d Hdata). cbv zeta.
  set (userId := String_of_Z (q_from_id q)) in *.
  set (dropped := set_isMember (delete userId (isMember d)) d).
  assert (truthy (live (now env) (isMember dropped !! userId)) = false) as Hmiss
      by (unfold dropped; cbn [isMember set_isMember]; now rewrite lookup_delete_eq).
  destruct (verifyJoin_frame cfg (q_chat_id q) userId env dropped) as (Hu & Hl & _).
  rewrite (verifyJoin_miss cfg env (q_chat_id q) userId dropped Hon Hna Hmiss) in *.
  rewrite Hstatus in *. cbv zeta in *.
  destruct (existsb (jseq status) member_statuses).
  - rewrite !store_triple in *. unfold result. cbn [fst snd]. rewrite !store_triple, !trace_triple.
    split; [intros _; split; [reflexivity|apply lookup_insert_eq]|].
    split; [discriminate|]. split; [exact Hu|exact Hl].
  - split; [discriminate|]. split.
    + intros _ m Hm. rewrite Hm. unfold result. cbn [fst snd].
      rewrite !store_triple, !trace_triple. split; [reflexivity|apply lookup_insert_eq].
    + destruct (telegram env (join_prompt cfg env (q_chat_id q)));
        rewrite !store_triple in *; unfold result; cbn [fst snd]; rewrite !store_triple;
        split; assumption.
Qed.

Lemma check_join_asks_again_witness :
  let out := on_callback_query Demo.cfg (Demo.press 2 "CHECK_JOIN") Demo.env Demo.cached_false in
  trace out
  = [Called (sendMessage (ChatId 2) TxtThanksForJoining []) (Resolved 77);
     Called (deleteMessage (ChatId 2) 9) (Resolved 77)]
  /\ isMember (store out) !! str "2" = Some (str "true", 301000).
Proof.
  destruct (check_join_asks_again Demo.cfg Demo.env (Demo.press 2 "CHECK_JOIN")
              Demo.cached_false (str "member") eq_refl eq_refl eq_refl eq_refl) as (H & _).
  exact (H eq_refl).
Defined.

(** X20.  While the cache holds the verdict [false] the message handlers
    answer nothing at all: a user who was refused and writes again within
    the minute sees no prompt and no reply (the sender is recorded all the
    same, as [saveUser] records it); a button pressed gets the alert, and
    the handler ends as the call of the alert does. *)
Theorem a_cached_refusal_is_silent (cfg : Config) (env : Env) (msg : Message) (d : Db) :
  let userId := String_of_Z (msg_from_id msg) in
  truthy (FORCE_CHANNEL_ID cfg) = true -> is_admin cfg userId = false ->
  live (now env) (isMember d !! userId) = Some (str "false") ->
  on_start cfg msg env d = (Return tt, saved env msg d, [])
  /\ on_recent cfg msg env d = (Return tt, saved env msg d, [])
  /\ on_trending cfg msg env d = (Return tt, saved env msg d, [])
  /\ on_favorites cfg msg env d = (Return tt, saved env msg d, [])
  /\ (forall t, trim <$> msg_text msg = Some t -> truthy (Some t) = true ->
                startsWith (str "/") t = false ->
                on_message cfg msg env d = (Return tt, saved env msg d, []))
  /\ (forall q, q_from_id q = msg_from_id msg -> jseq (q_data q) (str "CHECK_JOIN") = false ->
                on_callback_query cfg q env d
                = (settled (telegram env (answerCallbackQuery (q_id q) TxtMustJoinFirst true)),
                   d,
                   [Called (answerCallbackQuery (q_id q) TxtMustJoinFirst true)
                      (telegram env (answerCallbackQuery (q_id q) TxtMustJoinFirst true))])).
Proof.
  cbv zeta. intros Hon Hna Hlive.
  assert (forall chatId,
             verifyJoin cfg chatId (String_of_Z (msg_from_id msg)) env d = (Return false, d, []))
    as Hgate.
  { intros chatId. rewrite (verifyJoin_hit cfg env chatId _ d Hon Hna) by now rewrite Hlive.
    now rewrite Hlive. }
  assert (forall rest : M unit,
             (saveUser (msg_from_id msg) (msg_first_name msg) (msg_username msg);;
              joined ← verifyJoin cfg (msg_chat_id msg) (String_of_Z (msg_from_id msg));
              if negb joined then mret tt else rest) env d
             = (Return tt, saved env msg d, [])) as Hsilent
      by (intros rest; rewrite gated_run; cbv zeta; now rewrite Hgate).
  split; [apply Hsilent|]. split; [apply Hsilent|]. split; [apply Hsilent|].
  split; [apply Hsilent|]. split.
  - intros t Ht Htruthy Hslash. unfold on_message. rewrite Ht.
    change (default [] (Some t)) with t. rewrite Htruthy, Hslash, Hna. cbn [andb negb].
    apply Hsilent.
  - intros q Hq Hcj. rewrite (on_callback_query_refused cfg q env d Hcj); rewrite Hq, Hgate;
      reflexivity.
Qed.

Lemma a_cached_refusal_is_silent_witness :
  let known :=
    set_users [{| User.userId := str "2"; User.firstName := str "Anna";
                  User.username := Some (str "ann"); User.joinedAt := 500 |}]
      Demo.cached_false in
  let out := on_message Demo.cfg (Demo.text_message 2 "Iron man") Demo.env known in
  trace out = []
  /\ users (store out)
     = [{| User.userId := str "2"; User.firstName := str "Ann";
           User.username := Some (str "ann"); User.joinedAt := 500 |}].
Proof.
  cbv zeta.
  destruct (a_cached_refusal_is_silent Demo.cfg Demo.env (Demo.text_message 2 "Iron man")
              (set_users [{| User.userId := str "2"; User.firstName := str "Anna";
                             User.username := Some (str "ann"); User.joinedAt := 500 |}]
                 Demo.cached_false) eq_refl eq_refl eq_refl) as (_ & _ & _ & _ & H & _).
  rewrite (H (str "Iron man") eq_refl eq_refl eq_refl). split; reflexivity.
Defined.

(** ** Broadcasts *)

Lemma recipients_app l l' : recipients (l ++ l') = recipients l ++ recipients l'.
Proof. apply flat_map_app. Qed.

(** X21.  A broadcast needs an administrator, something to send and an
    announcement that goes through: from anyone else the command does
    nothing; without text and without a message replied to it answers with
    the usage, and the handler ends as the call of the usage does; and
    when the announcement to the administrator is rejected the handler
    stops there, so that no user is written to. A message replied to is
    what gets copied, whatever text comes with the command. In no case
    does the store change. *)
Theorem a_broadcast_needs_content_and_an_announcement (cfg : Config) (env : Env)
    (msg : Message) (text : option jsstring) (d : Db) :
  let chatId := msg_chat_id msg in
  let out := on_broadcast cfg msg text env d in
  let announce := sendMessage (ChatId chatId) (TxtBroadcasting (length (users d))) [] in
  let usage := sendMessage (ChatId chatId) TxtBroadcastUsage [] in
  (is_admin cfg (String_of_Z (msg_from_id msg)) = false -> out = (Return tt, d, []))
  /\ (is_admin cfg (String_of_Z (msg_from_id msg)) = true ->
      (truthy text = false -> msg_reply_to_message msg = None ->
       out = (settled (telegram env usage), d, [Called usage (telegram env usage)]))
      /\ (truthy text = true \/ is_Some (msg_reply_to_message msg) ->
          forall s, telegram env announce = Rejected s ->
                    out = (Throw (TelegramError s), d, [Called announce (Rejected s)]))
      /\ (forall m, msg_reply_to_message msg = Some m ->
                    Forall (fun e => forall c r, e = Called c r -> c = announce \/
                                       (exists u, c = copyMessage (ChatStr u) (ChatId chatId) m)
                                       \/ exists t k, c = editMessageText t (ChatId chatId) k [])
                      (trace out)))
  /\ store out = d.
Proof.
  cbv zeta. split; [|split].
  - intros Ha. unfold on_broadcast. now rewrite Ha.
  - intros Ha. split; [|split].
    + intros Ht Hr. unfold on_broadcast. rewrite Ha, Ht, Hr. reflexivity.
    + intros Hc s Hs. unfold on_broadcast. rewrite Ha. cbn [negb].
      assert (negb (truthy text) && negb (bool_decide (is_Some (msg_reply_to_message msg)))
              = false) as ->.
      { destruct Hc as [-> | Hr]; [reflexivity|].
        rewrite (bool_decide_eq_true_2 _ Hr). apply andb_false_r. }
      mrun. rewrite Hs. reflexivity.
    + intros m Hm. unfold on_broadcast. rewrite Ha, Hm. cbn [negb].
      rewrite bool_decide_eq_true_2 by eauto. rewrite andb_false_r.
      rewrite run_bind. cbn [get]. rewrite run_bind. unfold await at 1.
      destruct (telegram env _) as [k|s] eqn:Ea.
      * rewrite run_bind, broadcast_loop_run. cbv zeta. unfold fire, trace.
        cbn [fst snd app]. constructor; [intros c r [= <- _]; now left|].
        apply Forall_app. split.
        -- apply Forall_flat_map, Forall_forall. intros u _.
           constructor; [|constructor; [discriminate|constructor]].
           intros c r [= <- _]. right. left. eexists. reflexivity.
        -- constructor; [|constructor]. intros c r [= <- _]. right. right. eauto.
      * unfold trace. cbn [fst snd]. constructor; [|constructor].
        intros c r [= <- _]. now left.
  - pose proof (respects_broadcast_loop (keeps id) (keeps_refl id) (keeps_trans id)) as Hloop.
    assert (respects (keeps id) (on_broadcast cfg msg text)) as H.
    { unfold on_broadcast.
      respects_auto ltac:(apply Hloop; intros; reflexivity) keeps_pre ltac:(reflexivity). }
    apply H.
Qed.

Lemma a_broadcast_needs_content_and_an_announcement_witness :
  on_broadcast Demo.cfg (Demo.text_message 1 "/broadcast Hello") (Some (str "Hello"))
    (Demo.offline (Some 429)) Demo.audience
  = (Throw (TelegramError (Some 429)), Demo.audience,
     [Called (sendMessage (ChatId 1) (TxtBroadcasting 3) []) (Rejected (Some 429))]).
Proof.
  destruct (a_broadcast_needs_content_and_an_announcement Demo.cfg (Demo.offline (Some 429))
              (Demo.text_message 1 "/broadcast Hello") (Some (str "Hello")) Demo.audience)
    as (_ & H & _).
  destruct (H eq_refl) as (_ & H2 & _).
  exact (H2 (or_introl eq_refl) (Some 429) eq_refl).
Defined.

(** ** The account and the users *)

Lemma on_myaccount_run cfg msg env d :
  let used := quota d (String_of_Z (msg_from_id msg)) (date_on_peek env) in
  let report :=
    sendMessage (ChatId (msg_chat_id msg))
      (TxtYourAccount used (Z.max (DAILY_LIMIT_NUM cfg - used) 0) (DAILY_LIMIT_NUM cfg)) [] in
  on_myaccount cfg msg env d =
    (match telegram env report with
     | Resolved _ => Return tt
     | Rejected s => Throw (TelegramError s)
     end, saved env msg d, [Called report (telegram env report)]).
Proof.
  cbv zeta. unfold on_myaccount, saved. mrun. cbn [limits set_users]. unfold quota.
  destruct (telegram env _); reflexivity.
Qed.

(** X22.  [/myaccount] reports the count that the downloads of the day are
    checked against, and a remainder that is never negative; it reports no
    download left exactly when a download of the sender would be refused
    (the handler of the download then ends as the call of the alert
    does). It asks no membership and changes no count; it records the
    sender as [saveUser] does. *)
Theorem myaccount_reports_what_downloads_enforce (cfg : Config) (env : Env) (msg : Message)
    (d : Db) :
  let userId := String_of_Z (msg_from_id msg) in
  let used := quota d userId (date_on_peek env) in
  let remaining := Z.max (DAILY_LIMIT_NUM cfg - used) 0 in
  let report :=
    sendMessage (ChatId (msg_chat_id msg))
      (TxtYourAccount used remaining (DAILY_LIMIT_NUM cfg)) [] in
  let out := on_myaccount cfg msg env d in
  trace out = [Called report (telegram env report)]
  /\ store out = saved env msg d
  /\ 0 <= remaining
  /\ (used <= DAILY_LIMIT_NUM cfg -> used + remaining = DAILY_LIMIT_NUM cfg)
  /\ (forall q i file,
        q_from_id q = msg_from_id msg ->
        Files.findOne (field1 (q_data q)) (files d) = Some (i, file) ->
        remaining = 0 <->
        download cfg q env d
        = (settled (telegram env (answerCallbackQuery (q_id q) TxtDailyLimitExceeded true)),
           d,
           [Called (answerCallbackQuery (q_id q) TxtDailyLimitExceeded true)
              (telegram env (answerCallbackQuery (q_id q) TxtDailyLimitExceeded true))])).
Proof.
  cbv zeta. rewrite on_myaccount_run. cbv zeta. rewrite store_triple, trace_triple.
  split; [reflexivity|]. split; [reflexivity|]. split; [lia|]. split; [lia|].
  intros q i file Hq Hfile. rewrite download_run. cbv zeta. rewrite Hfile, Hq.
  destruct (Z.leb_spec (DAILY_LIMIT_NUM cfg)
              (quota d (String_of_Z (msg_from_id msg)) (date_on_peek env))) as [Hle|Hlt].
  - split; [reflexivity|lia].
  - split; [lia|]. intros H. exfalso.
    destruct (telegram env (answerCallbackQuery (q_id q) TxtSendingFile false));
      [destruct (telegram env (file_call (q_chat_id q) file))|]; discriminate H.
Qed.

Lemma myaccount_reports_what_downloads_enforce_witness :
  let out := on_myaccount Demo.cfg (Demo.text_message 2 "/myaccount") Demo.env Demo.exhausted in
  notices (trace out) = [TxtYourAccount 100 0 100]
  /\ download Demo.cfg (Demo.press 2 "GET:F0001") Demo.env Demo.exhausted
     = (Return tt, Demo.exhausted,
        [Called (answerCallbackQuery (str "q1") TxtDailyLimitExceeded true) (Resolved 77)]).
Proof.
  destruct (myaccount_reports_what_downloads_enforce Demo.cfg Demo.env
              (Demo.text_message 2 "/myaccount") Demo.exhausted) as (Ht & _ & _ & _ & H).
  split; [now rewrite Ht|].
  apply (H (Demo.press 2 "GET:F0001") 0%nat Demo.iron_man eq_refl eq_refl). reflexivity.
Defined.

Lemma find_upsert_user userId firstName username joined l :
  find_user userId (upsert_user userId firstName username joined l)
  = Some {| User.userId := userId; User.firstName := firstName;
            User.username := match find_user userId l with
                             | Some u => set_field username (User.username u)
                             | None => username
                             end;
            User.joinedAt := match find_user userId l with
                             | Some u => User.joinedAt u
                             | None => joined
                             end |}.
Proof.
  unfold find_user. induction l as [|u l IH]; cbn [upsert_user List.find].
  - unfold jseq. now rewrite bool_decide_eq_true_2.
  - destruct (jseq (User.userId u) userId) eqn:E; cbn [List.find].
    + unfold jseq at 1. now rewrite bool_decide_eq_true_2.
    + rewrite E. exact IH.
Qed.

Lemma find_upsert_user_other other userId firstName username joined l :
  other <> userId ->
  find_user other (upsert_user userId firstName username joined l) = find_user other l.
Proof.
  intros Hne. unfold find_user. induction l as [|u l IH]; cbn [upsert_user List.find].
  - unfold jseq. rewrite bool_decide_eq_false_2; [reflexivity|]. cbn. congruence.
  - destruct (jseq (User.userId u) userId) eqn:E; cbn [List.find].
    + unfold jseq in E. apply bool_decide_eq_true in E. unfold jseq. cbn [User.userId].
      rewrite E. rewrite !bool_decide_eq_false_2 by congruence. reflexivity.
    + now rewrite IH.
Qed.

Lemma set_field_again value old : set_field value (set_field value old) = set_field value old.
Proof. now destruct value. Qed.

Lemma upsert_user_again userId firstName username joined joined' l :
  upsert_user userId firstName username joined'
    (upsert_user userId firstName username joined l)
  = upsert_user userId firstName username joined l.
Proof.
  induction l as [|u l IH]; cbn [upsert_user].
  - unfold jseq. cbn [User.userId]. rewrite bool_decide_eq_true_2 by reflexivity.
    cbn [User.username User.joinedAt]. now destruct username.
  - destruct (jseq (User.userId u) userId) eqn:E; cbn [upsert_user].
    + unfold jseq. cbn [User.userId]. rewrite bool_decide_eq_true_2 by reflexivity.
      cbn [User.username User.joinedAt]. now rewrite set_field_again.
    + now rewrite E, IH.
Qed.

(** X23.  [saveUser] keeps one record per sender: it creates the record at
    the first message, with the date of joining, and from then on renews
    the first name, and the username when the message carries one (a
    username that the message does not carry stays as it was recorded);
    the records of the other users are untouched, and saving the same
    sender again changes nothing. *)
Theorem saveUser_keeps_one_record_per_sender (env env' : Env) (from_id : Z)
    (first_name : jsstring) (username : option jsstring) (d : Db) :
  let userId := String_of_Z from_id in
  let before := find_user userId (users d) in
  let d1 := store (saveUser from_id first_name username env d) in
  find_user userId (users d1)
  = Some {| User.userId := userId; User.firstName := first_name;
            User.username := match before, username with
                             | Some u, None => User.username u
                             | _, _ => username
                             end;
            User.joinedAt := match before with
                             | Some u => User.joinedAt u
                             | None => now env
                             end |}
  /\ (forall other, other <> userId -> find_user other (users d1) = find_user other (users d))
  /\ store (saveUser from_id first_name username env' d1) = d1
  /\ ledgers d1 = ledgers d.
Proof.
  cbv zeta. unfold store. mrun. cbn [users set_users].
  split; [|split; [intros; now apply find_upsert_user_other|]].
  - rewrite find_upsert_user.
    destruct (find_user (String_of_Z from_id) (users d)), username; reflexivity.
  - split; [|reflexivity]. unfold set_users. cbn. now rewrite upsert_user_again.
Qed.

Lemma saveUser_keeps_one_record_per_sender_witness :
  let ann :=
    {| User.userId := str "2"; User.firstName := str "Anna";
       User.username := Some (str "ann"); User.joinedAt := 500 |} in
  let d1 := store (saveUser 2 (str "Ann") None Demo.env (set_users [ann] empty_db)) in
  find_user (str "2") (users d1)
  = Some {| User.userId := str "2"; User.firstName := str "Ann";
            User.username := Some (str "ann"); User.joinedAt := 500 |}
  /\ find_user (str "3") (users d1) = None.
Proof.
  cbv zeta.
  destruct (saveUser_keeps_one_record_per_sender Demo.env Demo.env 2 (str "Ann") None
              (set_users [{| User.userId := str "2"; User.firstName := str "Anna";
                             User.username := Some (str "ann"); User.joinedAt := 500 |}]
                 empty_db)) as (H1 & H2 & _).
  split; [exact H1|]. rewrite (H2 (str "3")); [reflexivity|discriminate].
Defined.

(** ** Buttons lead to their records *)

Lemma catalog_id_no_colon n : 0 <= n -> Char.colon ∉ catalog_id n.
Proof.
  intros Hn Hin. unfold catalog_id, padStart in Hin. change (str "F") with [70%N] in Hin.
  destruct (String_of_Z_nonneg n Hn) as [Hd _].
  apply elem_of_cons in Hin. destruct Hin as [Hin|Hin]; [discriminate Hin|].
  apply elem_of_app in Hin. destruct Hin as [Hin|Hin].
  - apply list_elem_of_In, repeat_spec in Hin. discriminate Hin.
  - rewrite Forall_forall in Hd. specialize (Hd _ Hin). discriminate Hd.
Qed.

Lemma field1_get id : (Char.colon ∉ id) -> field1 (str "GET:" ++ id) = id.
Proof.
  intros H. apply (field1_app (str "GET") id); [|exact H].
  vm_compute. intros Hin.
  repeat (apply elem_of_cons in Hin; destruct Hin as [Hin|Hin]; [discriminate Hin|]).
  now apply not_elem_of_nil in Hin.
Qed.

(** X24.  Every record of the catalog can be fetched by its button. In a
    store reached by a run of the bot, the button [GET:<id>] of a record,
    pressed by a user who passes the gate and is under the daily limit,
    leads to that record and to no other: its file is the one sent, and its
    count of downloads the one incremented. *)
Theorem a_button_fetches_its_record (cfg : Config) (evs : list (Env * Event)) (env : Env)
    (q : Query) (f : File.doc) :
  let d := (run cfg evs empty_db).1 in
  let userId := String_of_Z (q_from_id q) in
  let gate := verifyJoin cfg (q_chat_id q) userId env d in
  let out := on_callback_query cfg q env d in
  f ∈ files d -> q_data q = get_button f ->
  result gate = Return true ->
  quota d userId (date_on_peek env) < DAILY_LIMIT_NUM cfg ->
  resolves (telegram env (answerCallbackQuery (q_id q) TxtSendingFile false)) = true ->
  attempted (trace out) = [File.file_id f]
  /\ delivered (trace out)
     = (if resolves (telegram env (file_call (q_chat_id q) f)) then [File.file_id f] else [])
  /\ exists i, files d !! i = Some f
               /\ files (store out) = alter File.inc_downloads i (files d).
Proof.
  cbv zeta. intros Hf Hdata Hg Hquota Hanswer.
  set (d := (run cfg evs empty_db).1) in *.
  set (userId := String_of_Z (q_from_id q)) in *.
  destruct (ids_issued_run cfg evs) as [_ Hids]. fold d in Hids.
  pose proof (customIds_unique_run cfg evs) as Huniq. fold d in Huniq.
  rewrite Forall_forall in Hids. destruct (Hids f Hf) as (n & Hn & Hid).
  assert (field1 (q_data q) = File.customId f) as Hfield
      by (rewrite Hdata; unfold get_button; rewrite Hid;
          apply field1_get, catalog_id_no_colon; lia).
  destruct (findOne_from_unique 0 (files d) f Huniq Hf) as [i Hfind].
  fold (Files.findOne (File.customId f) (files d)) in Hfind.
  destruct (findOne_lookup _ _ _ _ Hfind) as [Hi _].
  destruct (verifyJoin_frame cfg (q_chat_id q) userId env d) as (_ & Hl & _).
  destruct (ledgers_eq _ _ Hl) as (Hfiles & _ & Hlimits & _).
  pose proof (verifyJoin_sends_no_file cfg (q_chat_id q) userId env d) as Hs.
  unfold sends_no_file in Hs.
  assert (startsWith (str "GET:") (q_data q) = true) as Hstart
      by (rewrite Hdata; reflexivity).
  assert (jseq (q_data q) (str "CHECK_JOIN") = false) as Hcj
      by (eapply data_not_check_join; [exact Hstart|reflexivity]).
  rewrite (on_callback_query_passed cfg q env d Hcj Hg). fold userId.
  set (gate := verifyJoin cfg (q_chat_id q) userId env d) in *.
  unfold try_catch. rewrite (dispatch_get cfg q Hstart), download_run. fold userId. cbv zeta.
  rewrite Hfield, Hfiles, Hfind.
  assert (quota (store gate) userId (date_on_peek env) = quota d userId (date_on_peek env))
    as -> by (unfold quota; now rewrite Hlimits).
  rewrite (proj2 (Z.leb_gt _ _) Hquota).
  destruct (telegram env (answerCallbackQuery (q_id q) TxtSendingFile false)) as [a|s];
    [|discriminate Hanswer].
  assert (files (charged env userId i (store gate)) = alter File.inc_downloads i (files d))
    as Hcharged by (unfold charged; cbn [files set_files]; now rewrite Hfiles).
  set (tg := trace gate) in *. set (sg := store gate) in *.
  destruct (telegram env (file_call (q_chat_id q) f)) as [m|s] eqn:Esend;
    unfold callback_error; mrun; cbn [resolves];
    rewrite ?attempted_app, ?delivered_app, Hs, ?(delivered_attempted _ Hs);
    unfold attempted, delivered; cbn [flat_map app];
    rewrite ?attempted_file_call, ?delivered_file_call;
    cbn [attempted_by delivered_by resolves app];
    (split; [reflexivity|split; [reflexivity|exists i; split; [exact Hi|exact Hcharged]]]).
Qed.

Lemma a_button_fetches_its_record_witness :
  let evs :=
    [ (Demo.env, EvMessage (Demo.video_message 1 "BAAD-iron-man" "Iron.Man.2008.1080p.mkv"));
      (Demo.env, EvCallbackQuery (Demo.press 1 "CONFIRM:665f1c2ab7e4a90012345678")) ] in
  let d := (run Demo.cfg evs empty_db).1 in
  let out := on_callback_query Demo.cfg (Demo.press 2 "GET:F0001") Demo.env d in
  attempted (trace out) = [str "BAAD-iron-man"]
  /\ delivered (trace out) = [str "BAAD-iron-man"].
Proof.
  destruct (a_button_fetches_its_record Demo.cfg
              [ (Demo.env, EvMessage (Demo.video_message 1 "BAAD-iron-man"
                                        "Iron.Man.2008.1080p.mkv"));
                (Demo.env, EvCallbackQuery (Demo.press 1 "CONFIRM:665f1c2ab7e4a90012345678")) ]
              Demo.env (Demo.press 2 "GET:F0001") Demo.iron_man)
    as (Ha & Hd & _).
  - left.
  - reflexivity.
  - reflexivity.
  - reflexivity.
  - reflexivity.
  - split; [exact Ha|exact Hd].
Defined.

(** ** The configuration and the commands *)

Lemma split_app_sep sep a b : split sep (a ++ sep :: b) = split sep a ++ split sep b.
Proof.
  induction a as [|c t IH]; cbn [app split].
  - now rewrite N.eqb_refl.
  - destruct (c =? sep)%N; [now rewrite IH|].
    rewrite IH. destruct (split_cons sep t) as (p & ps & ->). reflexivity.
Qed.

(** X25.  [ADMIN_IDS] is read as a list of ids separated by commas: the
    white space around an id does not count, an empty entry names nobody,
    and without the variable nobody is an administrator. *)
Theorem ADMIN_IDS_is_a_list_of_ids (a b s : jsstring) :
  ADMIN_SET_of [] = ∅
  /\ ADMIN_SET_of (a ++ 44%N :: b) = ADMIN_SET_of a ∪ ADMIN_SET_of b
  /\ ((44%N ∉ s) ->
      ADMIN_SET_of s = if truthy (Some (trim s)) then {[ trim s ]} else ∅)
  /\ (forall id, id ∈ ADMIN_SET_of s -> id <> [] /\ trim id = id).
Proof.
  split; [reflexivity|]. split; [|split].
  - unfold ADMIN_SET_of. rewrite split_app_sep, map_app, filter_app.
    apply list_to_set_app_L.
  - intros H. unfold ADMIN_SET_of. rewrite split_without by exact H. cbn [map].
    rewrite filter_cons, filter_nil.
    destruct (truthy (Some (trim s))) eqn:E.
    + rewrite decide_True by reflexivity. cbn. apply right_id_L. apply _.
    + rewrite decide_False by discriminate. reflexivity.
  - intros id Hid. unfold ADMIN_SET_of in Hid. apply elem_of_list_to_set in Hid.
    apply list_elem_of_filter in Hid. destruct Hid as [Ht Hin].
    split; [intros ->; discriminate Ht|].
    apply list_elem_of_fmap in Hin. destruct Hin as (piece & -> & _).
    unfold trim. rewrite trimStart_id by apply trimEnd_head, trimStart_head.
    apply trimEnd_idem.
Qed.

Lemma ADMIN_IDS_is_a_list_of_ids_witness :
  ADMIN_SET_of (str "12 ") = {[ str "12" ]}.
Proof.
  destruct (ADMIN_IDS_is_a_list_of_ids [] [] (str "12 ")) as (_ & _ & H & _).
  apply H. vm_compute. intros Hin.
  repeat (apply elem_of_cons in Hin; destruct Hin as [Hin|Hin]; [discriminate Hin|]).
  now apply not_elem_of_nil in Hin.
Defined.

Lemma line_prefix_app a b :
  Forall (fun c => is_line_terminator c = false) a ->
  line_prefix (a ++ 10%N :: b) = a /\ line_prefix a = a.
Proof.
  induction 1 as [|c t Hc Ht [IH1 IH2]]; [split; reflexivity|].
  cbn [app line_prefix]. now rewrite Hc, IH1, IH2.
Qed.

Lemma dot_plus_line a b :
  a <> [] -> Forall (fun c => is_line_terminator c = false) a ->
  dot_plus (a ++ 10%N :: b) = Some a /\ dot_plus a = Some a.
Proof.
  intros Hne Ha. destruct (line_prefix_app a b Ha) as [H1 H2]. unfold dot_plus.
  rewrite H1, H2. destruct a; [contradiction|]. split; reflexivity.
Qed.

Lemma delete_match_eq text :
  delete_match text =
    match (if startsWith (str "/delete ") text then dot_plus (drop 8 text) else None) with
    | Some arg => Some arg
    | None => match text with
              | [] => None
              | _ :: t => delete_match t
              end
    end.
Proof. destruct text; reflexivity. Qed.

Lemma startsWith_prefix p s : startsWith p (p ++ s) = true.
Proof. induction p as [|c p IH]; [reflexivity|]. cbn. now rewrite N.eqb_refl. Qed.

(** X26.  The argument of [/broadcast] and of [/delete] is the rest of the
    line of the command. Of a broadcast of several lines the users get the
    first line only; [/broadcast] alone still runs the handler, without
    text. [/delete] needs its argument: alone it runs nothing, and no answer
    is sent, even to an administrator. *)
Theorem commands_take_the_rest_of_the_line (cfg : Config) (env : Env) (msg : Message)
    (d : Db) (a b : jsstring) (k : Z) :
  let broadcast := on_text_broadcast cfg msg env d in
  a <> [] -> Forall (fun c => is_line_terminator c = false) a ->
  (broadcast_match (str "/broadcast " ++ a) = Some (Some a)
   /\ broadcast_match (str "/broadcast " ++ a ++ 10%N :: b) = Some (Some a)
   /\ broadcast_match (str "/broadcast") = Some None)
  /\ (delete_match (str "/delete " ++ a) = Some a
      /\ delete_match (str "/delete " ++ a ++ 10%N :: b) = Some a
      /\ delete_match (str "/delete") = None
      /\ delete_match (str "/delete ") = None)
  /\ (is_admin cfg (String_of_Z (msg_from_id msg)) = true ->
      msg_text msg = Some (str "/broadcast " ++ a ++ 10%N :: b) ->
      msg_reply_to_message msg = None ->
      telegram env (sendMessage (ChatId (msg_chat_id msg))
                      (TxtBroadcasting (length (users d))) []) = Resolved k ->
      recipients (trace broadcast) = map User.userId (users d)
      /\ forall u t keyboard r,
          Called (sendMessage (ChatStr u) t keyboard) r ∈ trace broadcast -> t = TxtLiteral a)
  /\ (msg_text msg = Some (str "/delete " ++ a ++ 10%N :: b) ->
      on_text_delete cfg msg env d = on_delete cfg msg a env d)
  /\ (msg_text msg = Some (str "/delete") ->
      on_text_delete cfg msg env d = (Return tt, d, [])).
Proof.
  cbv zeta. intros Hne Ha. destruct (dot_plus_line a b Hne Ha) as [H1 H2].
  assert (broadcast_match (str "/broadcast " ++ a ++ 10%N :: b) = Some (Some a)) as Hmatch.
  { unfold broadcast_match. change (str "/broadcast " ++ a ++ 10%N :: b)
      with (str "/broadcast" ++ Char.space :: (a ++ 10%N :: b)).
    cbn. exact (f_equal Some H1). }
  assert (forall x, dot_plus x = Some a -> delete_match (str "/delete " ++ x) = Some a)
    as Hdelete.
  { intros x Hx. rewrite delete_match_eq, startsWith_prefix.
    change 8%nat with (length (str "/delete ")). now rewrite drop_app_length, Hx. }
  split; [split; [|split; [exact Hmatch|reflexivity]]
         |split; [split; [|split; [now apply Hdelete|split; reflexivity]]|split; [|split]]].
  - unfold broadcast_match. cbn. exact (f_equal Some H2).
  - now apply Hdelete.
  - intros Hadmin Htext Hreply Hannounce. unfold on_text_broadcast.
    rewrite Htext. cbn [mbind option_bind]. rewrite Hmatch.
    assert (truthy (Some a) = true) as Htruthy by (destruct a; [contradiction|reflexivity]).
    rewrite (on_broadcast_run cfg msg (Some a) env d k Hadmin (or_introl Htruthy) Hannounce).
    cbv zeta. rewrite trace_triple, Hreply. split.
    + change (recipients (?x :: ?l)) with (recipient_of x ++ recipients l).
      cbn [recipient_of app]. rewrite recipients_app, recipients_of_loop.
      cbn. apply app_nil_r.
    + intros u t keyboard r Hin. apply elem_of_cons in Hin.
      destruct Hin as [Hin|Hin]; [discriminate Hin|].
      apply elem_of_app in Hin. destruct Hin as [Hin|Hin].
      * apply list_elem_of_In, in_flat_map in Hin. destruct Hin as (user & _ & Hin).
        destruct Hin as [Hin|[Hin|[]]]; [|discriminate Hin].
        unfold broadcast_call in Hin. now injection Hin as _ <- _ _.
      * apply list_elem_of_singleton in Hin. discriminate Hin.
  - intros Htext. unfold on_text_delete. rewrite Htext. cbn [mbind option_bind].
    now rewrite (Hdelete _ H1).
  - intros Htext. unfold on_text_delete. now rewrite Htext.
Qed.

Lemma commands_take_the_rest_of_the_line_witness :
  let msg := two_line_message 1 "/broadcast Hello" "World" in
  broadcast_match (str "/broadcast " ++ str "Hello" ++ 10%N :: str "World")
  = Some (Some (str "Hello"))
  /\ recipients (trace (on_text_broadcast Demo.cfg msg Demo.env Demo.audience))
     = map User.userId (users Demo.audience).
Proof.
  destruct (commands_take_the_rest_of_the_line Demo.cfg Demo.env
              (two_line_message 1 "/broadcast Hello" "World") Demo.audience (str "Hello") (str "World") 77)
    as ((_ & Hm & _) & _ & H & _).
  - discriminate.
  - repeat constructor.
  - split; [exact Hm|exact (proj1 (H eq_refl eq_refl eq_refl eq_refl))].
Defined.

(** ** Favorites, expiry of reviews and statistics *)

(** X27.  [/favorites] shows the saved records that the catalog still holds,
    as the store returns them (in the model, in the order of the catalog):
    one button for each of the first ten, under a title that counts them
    all. It tells a user without any favorite from a user whose favorites
    have all been deleted. *)
Theorem favorites_show_the_first_ten (cfg : Config) (env : Env) (msg : Message) (d : Db) :
  let userId := String_of_Z (msg_from_id msg) in
  let gate := verifyJoin cfg (msg_chat_id msg) userId env d in
  let out := on_favorites cfg msg env d in
  let saved_ids := map Favorite.customId (Favorites.find userId (favorites d)) in
  let found :=
    List.filter (fun f => existsb (jseq (File.customId f)) saved_ids) (files d) in
  result gate = Return true ->
  (saved_ids = [] -> notices (trace out) = notices (trace gate) ++ [TxtNoFavoritesYet])
  /\ (saved_ids <> [] -> found = [] ->
      notices (trace out) = notices (trace gate) ++ [TxtFavoritesEmpty])
  /\ (found <> [] ->
      notices (trace out) = notices (trace gate) ++ [TxtYourFavorites (length found)]
      /\ displayed (trace out) = displayed (trace gate) ++ map get_button (take 10 found))
  /\ sublist found (files d)
  /\ (forall f, f ∈ found <-> f ∈ files d /\ File.customId f ∈ saved_ids).
Proof.
  cbv zeta. intros Hg. rewrite on_favorites_run. cbv zeta. rewrite Hg.
  set (userId := String_of_Z (msg_from_id msg)) in *.
  set (gate := verifyJoin cfg (msg_chat_id msg) userId env d) in *.
  set (favs := Favorites.find userId (favorites d)).
  set (found := List.filter _ (files d)).
  assert (forall l : list Favorite.doc, map Favorite.customId l = [] -> l = []) as Hnil
      by (intros [|x l] H; [reflexivity|discriminate H]).
  split; [|split; [|split; [|split]]].
  - intros E. apply Hnil in E. rewrite E. cbn [length Nat.eqb].
    rewrite trace_triple, notices_app. reflexivity.
  - intros Hne E. destruct favs as [|fav favs'] eqn:Ef; [contradiction|].
    cbn [length Nat.eqb]. rewrite E. cbn [length Nat.eqb].
    rewrite trace_triple, notices_app. reflexivity.
  - intros Hne.
    assert (favs <> []) as Hfavs.
    { intros E. apply Hne. unfold found. rewrite E. cbn [map].
      clear. induction (files d) as [|f l IH]; [reflexivity|exact IH]. }
    destruct favs as [|fav favs'] eqn:Ef; [contradiction|]. cbn [length Nat.eqb].
    destruct found as [|f0 rest] eqn:Efound; [contradiction|]. cbn [length Nat.eqb].
    rewrite <- Efound.
    assert (forall r, displayed [Called (sendMessage (ChatId (msg_chat_id msg))
                                          (TxtYourFavorites (length found))
                                          (map (file_button LblStar) (take 10 found))) r]
                      = map get_button (take 10 found)) as Hshown.
    { intros r. unfold displayed. cbn [flat_map buttons_of]. rewrite app_nil_r.
      apply displayed_file_buttons. }
    rewrite Efound at 1 2. cbn [length]. rewrite <- Efound.
    destruct (telegram env _) eqn:Er; rewrite trace_triple, notices_app, displayed_app;
      (split; [rewrite Efound; reflexivity|]);
      f_equal; rewrite <- (Hshown (Resolved 0)); rewrite Efound; reflexivity.
  - unfold found. clear. induction (files d) as [|f l IH]; [constructor|].
    cbn [List.filter]. destruct (existsb _ _); [now apply sublist_skip|now apply sublist_cons].
  - intros f. unfold found. rewrite list_elem_of_In, filter_In, <- list_elem_of_In.
    split; intros [Hf He]; (split; [exact Hf|]).
    + apply existsb_exists in He. destruct He as (x & Hx & Hj).
      unfold jseq in Hj. apply bool_decide_eq_true in Hj. rewrite Hj.
      now apply list_elem_of_In.
    + apply existsb_exists. exists (File.customId f). split; [now apply list_elem_of_In|].
      unfold jseq. now apply bool_decide_eq_true_2.
Qed.

Lemma favorites_show_the_first_ten_witness :
  let out := on_favorites Demo.cfg (Demo.text_message 2 "/favorites") Demo.env Demo.dangling in
  notices (trace out) = [TxtFavoritesEmpty].
Proof.
  destruct (favorites_show_the_first_ten Demo.cfg Demo.env (Demo.text_message 2 "/favorites")
              Demo.dangling eq_refl) as (_ & H & _).
  apply H; [discriminate|reflexivity].
Defined.

Lemma remove_first_app_new {A} (p : A -> bool) l x :
  existsb p l = false -> p x = true -> remove_first p (l ++ [x]) = l.
Proof.
  induction l as [|y l IH]; cbn [existsb app remove_first]; intros Hl Hx.
  - now rewrite Hx.
  - apply orb_false_elim in Hl. destruct Hl as [-> Hl]. f_equal. now apply IH.
Qed.

Lemma find_app_new {A} (p : A -> bool) l x :
  existsb p l = false -> p x = true -> List.find p (l ++ [x]) = Some x.
Proof.
  induction l as [|y l IH]; cbn [existsb app List.find]; intros Hl Hx.
  - now rewrite Hx.
  - apply orb_false_elim in Hl. destruct Hl as [-> Hl]. now apply IH.
Qed.

Lemma is_pair_refl userId customId savedAt :
  Favorites.is_pair userId customId
    {| Favorite.userId := userId; Favorite.customId := customId;
       Favorite.savedAt := savedAt |} = true.
Proof.
  unfold Favorites.is_pair, jseq. cbn [Favorite.userId Favorite.customId].
  now rewrite !bool_decide_eq_true_2.
Qed.

(** X28.  The favorite button is a switch: pressed twice on a record that
    was no favorite, it leaves the favorites as they were; pressed twice on
    a favorite, it keeps the record among the favorites, moved to the end
    with a new date. *)
Theorem a_favorite_toggled_twice_is_as_before (env env' : Env) (q : Query) (d : Db) :
  let userId := String_of_Z (q_from_id q) in
  let customId := field1 (q_data q) in
  let once := store (toggle_favorite q env d) in
  let twice := store (toggle_favorite q env' once) in
  (Favorites.findOne userId customId (favorites d) = None ->
   Favorites.countDocuments userId (favorites d) < 50 ->
   favorites once
   = favorites d ++ [{| Favorite.userId := userId; Favorite.customId := customId;
                        Favorite.savedAt := now env |}]
   /\ favorites twice = favorites d)
  /\ (forall f, Favorites.findOne userId customId (favorites d) = Some f ->
                favorite_pairs_unique d -> favorites_bounded d ->
                favorites twice
                = remove_first (Favorites.is_pair userId customId) (favorites d)
                  ++ [{| Favorite.userId := userId; Favorite.customId := customId;
                         Favorite.savedAt := now env' |}]).
Proof.
  cbv zeta. split.
  - intros Hnone Hcount.
    assert (favorites (store (toggle_favorite q env d))
            = favorites d ++ [{| Favorite.userId := String_of_Z (q_from_id q);
                                 Favorite.customId := field1 (q_data q);
                                 Favorite.savedAt := now env |}]) as Honce.
    { rewrite toggle_favorite_run. cbv zeta. rewrite Hnone.
      rewrite (proj2 (Z.leb_gt _ _) Hcount). destruct (telegram env _); reflexivity. }
    split; [exact Honce|].
    rewrite toggle_favorite_run. cbv zeta. rewrite Honce.
    unfold Favorites.findOne in *.
    rewrite (find_app_new _ _ _ (find_none_existsb _ _ Hnone) (is_pair_refl _ _ _)).
    destruct (telegram env' _); rewrite store_triple; cbn [favorites set_favorites];
      apply remove_first_app_new; auto using find_none_existsb, is_pair_refl.
  - intros f Hf Hu Hb.
    assert (favorites (store (toggle_favorite q env d))
            = remove_first (Favorites.is_pair (String_of_Z (q_from_id q)) (field1 (q_data q)))
                (favorites d)) as Honce.
    { rewrite toggle_favorite_run. cbv zeta. rewrite Hf.
      destruct (telegram env _); reflexivity. }
    rewrite toggle_favorite_run. cbv zeta. rewrite Honce.
    unfold Favorites.findOne in *. rewrite (find_remove_first_unique _ _ _ Hu).
    assert (Favorites.countDocuments (String_of_Z (q_from_id q))
              (remove_first (Favorites.is_pair (String_of_Z (q_from_id q))
                               (field1 (q_data q))) (favorites d)) < 50) as Hlt.
    { unfold Favorites.countDocuments.
      pose proof (count_if_remove_first_found _ _ _ _ Hf) as Hc.
      specialize (Hb (String_of_Z (q_from_id q))). unfold favorites_of in Hb. lia. }
    rewrite (proj2 (Z.leb_gt _ _) Hlt).
    destruct (telegram env' _); reflexivity.
Qed.

Lemma a_favorite_toggled_twice_is_as_before_witness :
  let q := Demo.press 2 "FAV:F0001" in
  favorites (store (toggle_favorite q Demo.env (store (toggle_favorite q Demo.env Demo.one_file))))
  = favorites Demo.one_file.
Proof.
  destruct (a_favorite_toggled_twice_is_as_before Demo.env Demo.env (Demo.press 2 "FAV:F0001")
              Demo.one_file) as [H _].
  exact (proj2 (H eq_refl eq_refl)).
Defined.

(** *** Reviews expire *)

(** X29.  A pending upload lives ten minutes under the index that the
    schema declares on [created_at]: the sweep of the store that comes at
    least 600 seconds after the upload removes it, and a [CONFIRM:] of it
    is then answered "Expired" and publishes nothing, the handler ending
    as that answer does; a sweep that comes earlier leaves it in place. *)
Theorem a_review_expires_after_ten_minutes (cfg : Config) (env env' : Env) (q : Query)
    (d : Db) (p : Pending.doc) :
  let swept := store (handler cfg EvPendingTtl env d) in
  let id := field1 (q_data q) in
  let expired := answerCallbackQuery (q_id q) TxtExpired false in
  pendings d !! id = Some p ->
  (Pending.created_at p + 600 * 1000 <= now env ->
   pendings swept !! id = None
   /\ (isObjectId env' id = true ->
       confirm q env' swept
       = (settled (telegram env' expired), swept, [Called expired (telegram env' expired)])))
  /\ (now env < Pending.created_at p + 600 * 1000 -> pendings swept !! id = Some p)
  /\ files swept = files d /\ counters swept = counters d.
Proof.
  cbv zeta. intros Hp. cbn [handler]. unfold Pending_ttl_sweep, store. mrun.
  cbn [pendings files counters set_pendings]. split; [|split; [|split; reflexivity]].
  - intros Hold.
    assert (filter (fun kv => now env < Pending.created_at kv.2 + 600 * 1000) (pendings d)
            !! field1 (q_data q) = None) as Hgone.
    { apply map_lookup_filter_None. right. intros p' Hp'. rewrite Hp in Hp'.
      injection Hp' as <-. cbn. lia. }
    split; [exact Hgone|]. intros Hcast.
    rewrite confirm_absent by exact Hgone. cbn [pendings set_pendings].
    now rewrite Hcast.
  - intros Hyoung. apply map_lookup_filter_Some. split; [exact Hp|]. exact Hyoung.
Qed.

Lemma a_review_expires_after_ten_minutes_witness :
  let late := Demo.at_time 601000 Demo.env in
  let swept := store (handler Demo.cfg EvPendingTtl late Demo.submitted) in
  pendings swept !! field1 (str "CONFIRM:665f1c2ab7e4a90012345678") = None
  /\ notices (trace (confirm (Demo.press 1 "CONFIRM:665f1c2ab7e4a90012345678") Demo.env swept))
     = [TxtExpired].
Proof.
  cbv zeta.
  destruct (a_review_expires_after_ten_minutes Demo.cfg (Demo.at_time 601000 Demo.env)
              Demo.env (Demo.press 1 "CONFIRM:665f1c2ab7e4a90012345678") Demo.submitted
              Demo.pending_iron_man eq_refl) as (H & _).
  destruct H as [H1 H2]; [cbn; lia|].
  split; [exact H1|]. rewrite (H2 eq_refl). reflexivity.
Defined.

(** *** Statistics *)

Lemma incrementAndGetLimit_positive userId :
  respects (preserves counts_positive) (incrementAndGetLimit userId).
Proof.
  intros env d H. unfold store. mrun. unfold counts_positive. cbn [limits set_limits].
  apply map_Forall_insert_2; [|exact H].
  destruct (limits d !! (userId, date_on_increment env)) as [v|] eqn:E; cbn; [|lia].
  specialize (H _ _ E). cbn in H. lia.
Qed.

Lemma counts_positive_handler cfg ev : respects (preserves counts_positive) (handler cfg ev).
Proof.
  revert ev.
  handlers_respect ltac:(apply incrementAndGetLimit_positive) preserves_pre
    ltac:(exact (fun H => H)).
Qed.

(** X30.  [/stats] answers an administrator, and nobody else, with the sizes
    of the catalog and of the list of users and with the number of users
    that hold a count for the day. Along a run these are the users who were
    charged a download that day: a count is created by a charge and is never
    below one. *)
Theorem stats_count_the_users_charged_today (cfg : Config) (evs : list (Env * Event))
    (env : Env) (msg : Message) :
  let d := (run cfg evs empty_db).1 in
  let out := on_stats cfg msg env d in
  let report :=
    sendMessage (ChatId (msg_chat_id msg))
      (TxtStats (length (files d)) (length (users d)) (active_on (date_on_stats env) d)) [] in
  (is_admin cfg (String_of_Z (msg_from_id msg)) = true ->
   trace out = [Called report (telegram env report)] /\ store out = d)
  /\ (is_admin cfg (String_of_Z (msg_from_id msg)) = false -> out = (Return tt, d, []))
  /\ (forall userId date, is_Some (limits d !! (userId, date)) <-> 1 <= quota d userId date).
Proof.
  cbv zeta. set (d := (run cfg evs empty_db).1).
  assert (counts_positive d) as Hpos.
  { apply (respects_run _ (preserves_refl _) (preserves_trans _) cfg
             (counts_positive_handler cfg) evs empty_db).
    apply map_Forall_empty. }
  split; [|split].
  - intros Ha. unfold on_stats. rewrite Ha. cbn [negb]. mrun.
    destruct (telegram env _); split; reflexivity.
  - intros Ha. unfold on_stats. now rewrite Ha.
  - intros userId date. unfold quota. split.
    + intros [v Hv]. rewrite Hv. exact (Hpos _ _ Hv).
    + destruct (limits d !! (userId, date)); [eauto|cbn; lia].
Qed.

Lemma stats_count_the_users_charged_today_witness :
  let evs :=
    [ (Demo.env, EvMessage (Demo.video_message 1 "BAAD-iron-man" "Iron.Man.2008.1080p.mkv"));
      (Demo.env, EvCallbackQuery (Demo.press 1 "CONFIRM:665f1c2ab7e4a90012345678"));
      (Demo.env, EvCallbackQuery (Demo.press 2 "GET:F0001")) ] in
  notices (trace (on_stats Demo.cfg (Demo.text_message 1 "/stats") Demo.env
                    (run Demo.cfg evs empty_db).1))
  = [TxtStats 1 0 1].
Proof.
  cbv zeta.
  destruct (stats_count_the_users_charged_today Demo.cfg
              [ (Demo.env, EvMessage (Demo.video_message 1 "BAAD-iron-man"
                                        "Iron.Man.2008.1080p.mkv"));
                (Demo.env, EvCallbackQuery (Demo.press 1 "CONFIRM:665f1c2ab7e4a90012345678"));
                (Demo.env, EvCallbackQuery (Demo.press 2 "GET:F0001")) ]
              Demo.env (Demo.text_message 1 "/stats")) as (H & _).
  destruct (H eq_refl) as [-> _]. vm_compute. reflexivity.
Defined.
